(** * publish:azure:pull-request

    A shallow embedding of the scaffolder action defined in
    [plugins/scaffolder-backend-module-azure-devops/src/actions/devopsPullRequest.ts]
    and the properties of its workflow: credential resolution, the dry-run
    path, branch resolution and creation, change-list construction, the push
    and the create-or-reuse decision for the pull request.

    The action is asynchronous glue around three collaborators (a credentials
    provider, the Azure DevOps git client and a directory serializer).  Every
    [await] is sequential, so the handler is embedded as a computation in a
    state-and-exception monad whose state holds the collaborators' world, the
    chronological list of calls issued to them, the outputs reported through
    [ctx.output] and the lines written to [ctx.logger]. *)

From Stdlib Require Import String Ascii List ZArith NArith Lia Bool.
From Stdlib Require Import Strings.Byte.
From Stdlib Require Import DecimalString.
Import ListNotations.

Local Open Scope list_scope.
Local Open Scope string_scope.

(* ===================================================================== *)
(** * JavaScript values *)
(* ===================================================================== *)

(** Optional properties ([x?: T]) are [option T]; [None] is [undefined]. *)

Module Js.

(** Truthiness of a [string | undefined]: the empty string is falsy. *)
Definition truthy_string (s : option string) : bool :=
  match s with
  | Some EmptyString => false
  | Some _ => true
  | None => false
  end.

(** Truthiness of a [boolean | undefined]. *)
Definition truthy_bool (b : option bool) : bool :=
  match b with
  | Some true => true
  | _ => false
  end.

(** Truthiness of a [number | undefined] holding an integer: [0] is falsy. *)
Definition truthy_number (n : option Z) : bool :=
  match n with
  | Some z => negb (z =? 0)%Z
  | None => false
  end.

(** [a ?? b] *)
Definition nullish {A : Type} (a : option A) (b : A) : A :=
  match a with
  | Some x => x
  | None => b
  end.

(** [a || b] on strings, with [a] possibly undefined. *)
Definition or_string (a : option string) (b : string) : string :=
  match a with
  | Some EmptyString => b
  | Some s => s
  | None => b
  end.

(** Number to string conversion of an integer, as a template literal does. *)
Definition number_to_string (n : Z) : string :=
  NilZero.string_of_int (Z.to_int n).

(** [Array.prototype.join]. *)
Definition join (sep : string) (l : list string) : string :=
  String.concat sep l.

(** [s.replace(pat, rep)] with a string pattern: only the first occurrence
    is replaced.  The replacement used by the action holds no [$]
    pattern. *)
Fixpoint drop (n : nat) (s : string) : string :=
  match n, s with
  | O, _ => s
  | S _, EmptyString => EmptyString
  | S n', String _ s' => drop n' s'
  end.

Fixpoint replace (pat rep s : string) : string :=
  if String.prefix pat s then rep ++ drop (String.length pat) s
  else match s with
       | EmptyString => EmptyString
       | String c s' => String c (replace pat rep s')
       end.

(** [encodeURIComponent] on a string of UTF-8 bytes: the unreserved
    characters [A-Z a-z 0-9 - _ . ! ~ * ' ( )] are kept, every other byte is
    written [%XX] in upper-case hexadecimal.  A string of UTF-8 bytes holds
    no lone surrogate, the one input on which JavaScript's function throws
    (a [URIError]): that exception has no counterpart here, and no
    statement below lists the exceptions of the lines that call it. *)
Definition unreserved (c : ascii) : bool :=
  let n := nat_of_ascii c in
  (((65 <=? n) && (n <=? 90)) || ((97 <=? n) && (n <=? 122))
   || ((48 <=? n) && (n <=? 57))
   || existsb (Nat.eqb n) [45; 95; 46; 33; 126; 42; 39; 40; 41])%nat.

Definition hex_digit (n : nat) : ascii :=
  match String.get n "0123456789ABCDEF" with
  | Some c => c
  | None => "0"%char
  end.

Fixpoint encodeURIComponent (s : string) : string :=
  match s with
  | EmptyString => EmptyString
  | String c s' =>
      if unreserved c then String c (encodeURIComponent s')
      else
        let n := nat_of_ascii c in
        String "%" (String (hex_digit (n / 16)%nat)
          (String (hex_digit (n mod 16)%nat) (encodeURIComponent s')))
  end.

End Js.

(** A Node [Buffer] is a sequence of bytes. *)
Definition Buffer := list byte.

(** [buf.toString('base64')]: standard alphabet, padded with [=]. *)
Module Base64.

Definition alphabet : string :=
  "ABCDEFGHIJKLMNOPQRSTUVWXYZabcdefghijklmnopqrstuvwxyz0123456789+/".

Definition digit (n : N) : ascii :=
  match String.get (N.to_nat n) alphabet with
  | Some c => c
  | None => "="%char
  end.

Fixpoint encode (b : Buffer) : string :=
  match b with
  | [] => EmptyString
  | [x] =>
      let n := Byte.to_N x in
      String (digit (n / 4)) (String (digit ((n mod 4) * 16)) "==")
  | [x; y] =>
      let n := Byte.to_N x in
      let m := Byte.to_N y in
      String (digit (n / 4))
        (String (digit ((n mod 4) * 16 + m / 16))
           (String (digit ((m mod 16) * 4)) "="))
  | x :: y :: z :: rest =>
      let n := Byte.to_N x in
      let m := Byte.to_N y in
      let k := Byte.to_N z in
      String (digit (n / 4))
        (String (digit ((n mod 4) * 16 + m / 16))
           (String (digit ((m mod 16) * 4 + k / 64))
              (String (digit (k mod 64)) (encode rest))))
  end%N.

End Base64.

(* ===================================================================== *)
(** * Data exchanged with the collaborators *)
(* ===================================================================== *)

(** The action's input object, [ctx.input]. *)
Record Input := mkInput {
  host : option string;
  organization : string;
  project : string;
  repo : string;
  sourceBranchName : string;
  targetBranchName : option string;
  title : string;
  description : string;
  draft : option bool;
  targetPath : option string;
  sourcePath : option string;
  token : option string;
  reviewers : option (list string);
  teamReviewers : option (list string);
  commitMessage : option string;
  update : option bool;
  createSourceBranch : option bool
}.

(** The part of the action context the handler reads.  [ctx.logger] and
    [ctx.output] write into the monad's state. *)
Record Context := mkContext {
  input : Input;
  isDryRun : bool;
  workspacePath : string
}.

(** What [credentialProvider.getCredentials] resolves to. *)
Record AzureDevOpsCredential := mkCredential {
  cred_type : string;
  cred_token : string
}.

Inductive AuthHandler :=
| PersonalAccessTokenHandler (tok : string)
| BearerHandler (tok : string).

(** [GitInterfaces]: only the properties the action reads or writes. *)
Record GitRepository := mkRepository {
  repo_id : option string;
  defaultBranch : option string
}.

Record GitCommitRef := mkCommitRef {
  commitId : option string
}.

Record GitBranchStats := mkBranchStats {
  commit : option GitCommitRef
}.

Record GitRefUpdate := mkRefUpdate {
  ref_name : string;
  oldObjectId : option string;
  newObjectId : option string
}.

Inductive VersionControlChangeType :=
| NoChange | Add | Edit | Encoding | Rename | Delete | Undelete.

Inductive ItemContentType := RawText | Base64Encoded.

Record ItemContent := mkItemContent {
  content : string;
  contentType : ItemContentType
}.

Record GitChange := mkChange {
  changeType : VersionControlChangeType;
  item_path : string;
  newContent : ItemContent
}.

Record GitCommit := mkCommit {
  comment : string;
  changes : list GitChange
}.

Record GitPush := mkPush {
  refUpdates : list GitRefUpdate;
  commits : list GitCommit
}.

Inductive PullRequestStatus := NotSet | Active | Abandoned | Completed | All.

Record GitPullRequest := mkPullRequest {
  pullRequestId : option Z;
  sourceRefName : option string;
  targetRefName : option string;
  pr_title : option string;
  pr_description : option string;
  isDraft : option bool;
  pr_reviewers : list string;     (* [{ uniqueName }] *)
  labels : list string            (* [{ name }] *)
}.

Record GitPullRequestSearchCriteria := mkCriteria {
  crit_sourceRefName : string;
  crit_targetRefName : string;
  crit_status : PullRequestStatus
}.

(** An element of [directoryContents].  [serializeDirectoryContents] yields
    a path and a [Buffer] for every file, but [generateGitChanges] is
    exported with the parameter typed [any[]], so an element may come without
    a [content] property. *)
Record DirectoryEntry := mkEntry {
  entry_path : string;
  entry_content : option Buffer
}.

(** Exceptions the handler can end with. *)
Inductive Exn :=
| InputError (message : string)   (* [InputError] of [@backstage/errors] *)
| Error (message : string)        (* [new Error(...)] *)
| TypeError (message : string)    (* property access on [undefined] *)
| Thrown (reason : string).       (* raised by a library call, or the
                                     rejection of an awaited promise *)

(** Functions of the Node runtime and of Backstage that the action calls and
    whose result depends on the platform or on a library outside this
    repository. *)
Record Runtime := mkRuntime {
  path_isAbsolute : string -> bool;
  path_relative : string -> string -> string;
  path_posix_join : list string -> string;
  path_basename : string -> string;
  resolveSafeChildPath : string -> string -> string + string;
  stringify_refUpdate : GitRefUpdate -> string;
  stringify_push : GitPush -> string;
  stringify_pullRequest : option nat -> GitPullRequest -> string
}.

(* ===================================================================== *)
(** * generateGitChanges *)
(* ===================================================================== *)

Section Changes.

Variable rt : Runtime.

(** The remote path computed for one entry (the [fullPath] constant). *)
Definition fullPath (fileRoot : string) (targetPath : option string)
    (p : string) : string :=
  let relativePath :=
    if path_isAbsolute rt p then path_relative rt fileRoot p else p in
  path_posix_join rt ["/"; Js.nullish targetPath ""; relativePath].

(** The callback given to [map].  [file.content.toString] raises a
    [TypeError] when [file.content] is undefined. *)
Definition toChange (fileRoot : string) (targetPath : option string)
    (file : DirectoryEntry) : Exn + GitChange :=
  let fullPath := fullPath fileRoot targetPath (entry_path file) in
  match entry_content file with
  | None =>
      inl (TypeError "Cannot read properties of undefined (reading 'toString')")
  | Some buf =>
      inr {| changeType := Add;
             item_path := fullPath;
             newContent := {| content := Base64.encode buf;
                              contentType := Base64Encoded |} |}
  end.

(** [Array.prototype.map] with a callback that may throw: the first
    exception ends the traversal. *)
Fixpoint map_throwing {A B : Type} (f : A -> Exn + B) (l : list A)
    : Exn + list B :=
  match l with
  | [] => inr []
  | x :: l' =>
      match f x with
      | inl e => inl e
      | inr y =>
          match map_throwing f l' with
          | inl e => inl e
          | inr ys => inr (y :: ys)
          end
      end
  end.

(** The predicate given to [filter]: [change.newContent] is an object,
    hence truthy, and the conjunction is the truthiness of the encoded
    string. *)
Definition validChange (change : GitChange) : bool :=
  Js.truthy_string (Some (content (newContent change))).

Definition generateGitChanges (directoryContents : list DirectoryEntry)
    (fileRoot : string) (targetPath : option string)
    : Exn + list GitChange :=
  match map_throwing (toChange fileRoot targetPath) directoryContents with
  | inl e => inl e
  | inr mapped => inr (filter validChange mapped)
  end.

End Changes.

(* ===================================================================== *)
(** * The collaborators and the handler's monad *)
(* ===================================================================== *)

(** A file as [serializeDirectoryContents] returns it. *)
Record SerializedFile := mkFile {
  file_path : string;
  file_content : Buffer
}.

Definition entryOf (f : SerializedFile) : DirectoryEntry :=
  {| entry_path := file_path f; entry_content := Some (file_content f) |}.

(** The collaborators, over a world [W] that they read and change.  Every
    operation is awaited by the handler: it returns the new world and either
    the reason of a rejection or the resolved value.  The git operations take
    their arguments in the order of [IGitApi]. *)
Record Collaborators (W : Type) := mkCollaborators {
  getCredentials : string -> W -> W * (string + option AzureDevOpsCredential);
  getGitApi : string -> AuthHandler -> W -> W * (string + unit);
  getRepository : string -> string -> W -> W * (string + option GitRepository);
  getBranch :
    string -> string -> string -> W -> W * (string + option GitBranchStats);
  updateRefs :
    list GitRefUpdate -> option string -> string -> W -> W * (string + unit);
  createPush : GitPush -> option string -> string -> W -> W * (string + unit);
  getPullRequests :
    option string -> GitPullRequestSearchCriteria -> string ->
    W -> W * (string + option (list GitPullRequest));
  createPullRequest :
    GitPullRequest -> option string -> string ->
    W -> W * (string + GitPullRequest);
  serializeDirectoryContents :
    string -> W -> W * (string + list SerializedFile)
}.

Arguments getCredentials {W}.
Arguments getGitApi {W}.
Arguments getRepository {W}.
Arguments getBranch {W}.
Arguments updateRefs {W}.
Arguments createPush {W}.
Arguments getPullRequests {W}.
Arguments createPullRequest {W}.
Arguments serializeDirectoryContents {W}.

(** A call issued to a collaborator, with its arguments. *)
Inductive Call :=
| CallGetCredentials (url : string)
| CallGetGitApi (url : string) (auth : AuthHandler)
| CallGetRepository (repo project : string)
| CallGetBranch (repo branch project : string)
| CallUpdateRefs (updates : list GitRefUpdate) (repositoryId : option string)
    (project : string)
| CallCreatePush (push : GitPush) (repositoryId : option string)
    (project : string)
| CallGetPullRequests (repositoryId : option string)
    (criteria : GitPullRequestSearchCriteria) (project : string)
| CallCreatePullRequest (pr : GitPullRequest) (repositoryId : option string)
    (project : string)
| CallSerializeDirectoryContents (root : string).

Inductive OutputValue :=
| OutString (s : string)
| OutNumber (n : Z).

Inductive LogLevel := Debug | Info.

Record State (W : Type) := mkState {
  world : W;
  calls : list Call;                        (* oldest first *)
  outputs : list (string * OutputValue);    (* [ctx.output], oldest first *)
  logs : list (LogLevel * list string)      (* [ctx.logger], oldest first *)
}.

Arguments mkState {W}.
Arguments world {W}.
Arguments calls {W}.
Arguments outputs {W}.
Arguments logs {W}.

Definition initial {W : Type} (w : W) : State W :=
  {| world := w; calls := []; outputs := []; logs := [] |}.

(** Computations: the state survives an exception, as the calls already
    issued and the outputs already reported are not undone. *)
Definition M (W A : Type) : Type := State W -> State W * (Exn + A).

Definition ret {W A : Type} (a : A) : M W A := fun st => (st, inr a).

Definition throw {W A : Type} (e : Exn) : M W A := fun st => (st, inl e).

Definition bind {W A B : Type} (m : M W A) (k : A -> M W B) : M W B :=
  fun st =>
    match m st with
    | (st', inl e) => (st', inl e)
    | (st', inr a) => k a st'
    end.

(** [try { m } catch (error) { h }] *)
Definition try_catch {W A : Type} (m : M W A) (h : Exn -> M W A) : M W A :=
  fun st =>
    match m st with
    | (st', inl e) => h e st'
    | (st', inr a) => (st', inr a)
    end.

Definition lift {W A : Type} (r : Exn + A) : M W A := fun st => (st, r).

(** [await op(...)]: the call is recorded, the world moves, a rejection
    becomes an exception. *)
Definition await {W A : Type} (c : Call) (op : W -> W * (string + A))
    : M W A :=
  fun st =>
    let (w', r) := op (world st) in
    ({| world := w'; calls := (calls st ++ [c])%list;
        outputs := outputs st; logs := logs st |},
     match r with
     | inl reason => inl (Thrown reason)
     | inr a => inr a
     end).

(** [ctx.output(name, value)] *)
Definition output {W : Type} (name : string) (v : OutputValue) : M W unit :=
  fun st =>
    ({| world := world st; calls := calls st;
        outputs := (outputs st ++ [(name, v)])%list; logs := logs st |},
     inr tt).

(** [ctx.logger.debug(...)] and [ctx.logger.info(...)] *)
Definition log {W : Type} (level : LogLevel) (args : list string) : M W unit :=
  fun st =>
    ({| world := world st; calls := calls st; outputs := outputs st;
        logs := (logs st ++ [(level, args)])%list |},
     inr tt).

Declare Scope action_scope.
Delimit Scope action_scope with action.

Notation "x <- m ;; k" := (bind m (fun x => k))
  (at level 100, m at next level, right associativity) : action_scope.
Notation "m ;; k" := (bind m (fun _ => k))
  (at level 100, right associativity) : action_scope.

(* ===================================================================== *)
(** * The action *)
(* ===================================================================== *)

(** Modelled from the spec: [getAzureDevOpsPullRequestURL] of
    [../utils/azure-devops-utils], of which only the test file is at hand.
    The URL is [<baseUrl>/<urlEncode(project)>/_git/<urlEncode(repo)>/pullrequest/<id>]. *)
Definition getAzureDevOpsPullRequestURL (baseUrl project repo : string)
    (pullRequestId : Z) : string :=
  baseUrl ++ "/" ++ Js.encodeURIComponent project ++ "/_git/"
    ++ Js.encodeURIComponent repo ++ "/pullrequest/"
    ++ Js.number_to_string pullRequestId.

Definition zeroObjectId : string := "0000000000000000000000000000000000000000".

(** The handler's local variables once the change list is built (line 331). *)
Record Locals := mkLocals {
  repository : GitRepository;
  resolvedTargetBranchName : string;
  sourceBranchDoesNotExist : option bool;
  directoryContents : list SerializedFile;
  changeList : list GitChange
}.

Section Action.

Context {W : Type}.
Variable rt : Runtime.
Variable api : Collaborators W.

Local Open Scope action_scope.

(** [const url = `https://${host}/${encodeURIComponent(organization)}`],
    with the default of the destructuring for [host]. *)
Definition baseUrl (i : Input) : string :=
  "https://" ++ Js.nullish (host i) "dev.azure.com" ++ "/"
    ++ Js.encodeURIComponent (organization i).

(** [token || credentials?.type === 'pat'
      ? getPersonalAccessTokenHandler(token ?? credentials!.token)
      : getBearerHandler(credentials!.token)] *)
Definition credentialToken (credentials : option AzureDevOpsCredential)
    : Exn + string :=
  match credentials with
  | Some c => inr (cred_token c)
  | None =>
      inl (TypeError "Cannot read properties of undefined (reading 'token')")
  end.

Definition authHandler (token : option string)
    (credentials : option AzureDevOpsCredential) : Exn + AuthHandler :=
  if Js.truthy_string token
     || match credentials with
        | Some c => String.eqb (cred_type c) "pat"
        | None => false
        end
  then
    match token with
    | Some t => inr (PersonalAccessTokenHandler t)
    | None =>
        match credentialToken credentials with
        | inl e => inl e
        | inr t => inr (PersonalAccessTokenHandler t)
        end
    end
  else
    match credentialToken credentials with
    | inl e => inl e
    | inr t => inr (BearerHandler t)
    end.

Definition isSome {A : Type} (o : option A) : bool :=
  match o with Some _ => true | None => false end.

Definition missingCredentials : string :=
  "No credentials provided for Azure DevOps. Please check your integrations config or provide a token.".

(** Lines 209-226: credentials, authentication handler and git client.
    Returns [url]. *)
Definition resolveClient (ctx : Context) : M W string :=
  let i := input ctx in
  let url := baseUrl i in
  credentials <- await (CallGetCredentials url) (getCredentials api url) ;;
  if negb (isSome credentials) && negb (Js.truthy_string (token i))
  then throw (InputError missingCredentials)
  else
    handler <- lift (authHandler (token i) credentials) ;;
    await (CallGetGitApi url handler) (getGitApi api url handler) ;;
    ret url.

(** Lines 464-487. *)
Definition performDryRun (organization project repo sourceBranchName : string)
    (targetBranchName : option string) (title description : string)
    : M W unit :=
  log Info ["Performing dry run of creating pull request"] ;;
  let resolvedTargetBranchName :=
    Js.or_string targetBranchName "mocked-default-branch" in
  output "pullRequestUrl"
    (OutString ("https://mocked-url/" ++ organization ++ "/" ++ project
                  ++ "/" ++ repo ++ "/pullrequest/123")) ;;
  output "pullRequestId" (OutNumber 123) ;;
  log Info ["Dry run output:"] ;;
  log Info ["Source Branch: " ++ sourceBranchName] ;;
  log Info ["Target Branch: " ++ resolvedTargetBranchName] ;;
  log Info ["Title: " ++ title] ;;
  log Info ["Description: " ++ description].

(** Lines 242-266: the repository and the resolved target branch name. *)
Definition resolveRepository (ctx : Context) : M W (GitRepository * string) :=
  let i := input ctx in
  repository <- await (CallGetRepository (repo i) (project i))
                  (getRepository api (repo i) (project i)) ;;
  match repository with
  | None =>
      throw (Error ("Repository " ++ repo i ++ " not found in project "
                      ++ project i ++ "."))
  | Some repository =>
      if negb (Js.truthy_string (targetBranchName i)) then
        if negb (Js.truthy_string (defaultBranch repository)) then
          throw (Error ("No target branch specified, and the repository "
                          ++ repo i ++ " does not have a default branch."))
        else
          let resolvedTargetBranchName :=
            Js.replace "refs/heads/" ""
              (Js.nullish (defaultBranch repository) "") in
          log Debug ["No target branch specified. Using the default branch: "
                       ++ resolvedTargetBranchName ++ "."] ;;
          ret (repository, resolvedTargetBranchName)
      else ret (repository, Js.nullish (targetBranchName i) "")
  end.

(** Lines 268-274: the closure [getLatestCommit]; [commitId] is optional
    in [GitCommitRef]. *)
Definition getLatestCommit (ctx : Context) (branch : string)
    : M W (option string) :=
  let i := input ctx in
  branchRef <- await (CallGetBranch (repo i) branch (project i))
                 (getBranch api (repo i) branch (project i)) ;;
  match branchRef with
  | Some {| commit := Some c |} => ret (commitId c)
  | _ =>
      throw (Error ("Branch " ++ branch ++ " not found in repository "
                      ++ repo i ++ "."))
  end.

(** Lines 276-315: returns the final value of [sourceBranchDoesNotExist]. *)
Definition ensureSourceBranch (ctx : Context) (repository : GitRepository)
    (resolvedTargetBranchName : string) : M W (option bool) :=
  let i := input ctx in
  let sourceBranchDoesNotExist := createSourceBranch i in
  if Js.truthy_bool (createSourceBranch i) then
    log Debug ["Checking if source branch " ++ sourceBranchName i
                 ++ " already exists..."] ;;
    try_catch
      (branch <- await (CallGetBranch (repo i) (sourceBranchName i) (project i))
                   (getBranch api (repo i) (sourceBranchName i) (project i)) ;;
       if isSome branch then
         log Info ["Source branch " ++ sourceBranchName i
                     ++ " already exists. Skipping branch creation."] ;;
         ret (Some false)
       else ret sourceBranchDoesNotExist)
      (fun _ =>
         log Info ["Source branch " ++ sourceBranchName i
                     ++ " does not exist. Creating..."] ;;
         latest <- getLatestCommit ctx resolvedTargetBranchName ;;
         let refUpdate :=
           {| ref_name := "refs/heads/" ++ sourceBranchName i;
              oldObjectId := Some zeroObjectId;
              newObjectId := latest |} in
         log Debug ["Creating new branch: "; stringify_refUpdate rt refUpdate] ;;
         await (CallUpdateRefs [refUpdate] (repo_id repository) (project i))
           (updateRefs api [refUpdate] (repo_id repository) (project i)) ;;
         log Debug ["Source branch " ++ sourceBranchName i
                      ++ " created successfully."] ;;
         ret sourceBranchDoesNotExist)
  else ret sourceBranchDoesNotExist.

(** Lines 317-330: the file root, the directory contents and the changes. *)
Definition readChanges (ctx : Context)
    : M W (list SerializedFile * list GitChange) :=
  let i := input ctx in
  fileRoot <-
    (if Js.truthy_string (sourcePath i) then
       match resolveSafeChildPath rt (workspacePath ctx)
               (Js.nullish (sourcePath i) "") with
       | inl reason => throw (Thrown reason)
       | inr p => ret p
       end
     else ret (workspacePath ctx)) ;;
  directoryContents <- await (CallSerializeDirectoryContents fileRoot)
                         (serializeDirectoryContents api fileRoot) ;;
  changes <- lift (generateGitChanges rt (map entryOf directoryContents)
                     fileRoot (targetPath i)) ;;
  ret (directoryContents, changes).

(** The commit message used when [commitMessage] is falsy. *)
Definition automatedCommitMessage (directoryContents : list SerializedFile)
    : string :=
  "Automated commit from Backstage scaffolder. Added files: "
    ++ Js.join ", " (map (fun file => path_basename rt (file_path file))
                       directoryContents).

(** The [push] constant of lines 332-351, once [getLatestCommit] is
    awaited. *)
Definition buildPush (ctx : Context) (l : Locals) (old : option string)
    : GitPush :=
  let i := input ctx in
  {| refUpdates :=
       [ {| ref_name := "refs/heads/" ++ sourceBranchName i;
            oldObjectId := old;
            newObjectId := None |} ];
     commits :=
       [ {| comment := Js.or_string (commitMessage i)
                         (automatedCommitMessage (directoryContents l));
            changes := changeList l |} ] |}.

(** Lines 332-356: the push is built first (which awaits the base commit),
    then the change list is checked, then the push is sent. *)
Definition pushChanges (ctx : Context) (l : Locals) : M W unit :=
  let i := input ctx in
  old <- (if Js.truthy_bool (sourceBranchDoesNotExist l)
          then getLatestCommit ctx (resolvedTargetBranchName l)
          else getLatestCommit ctx (sourceBranchName i)) ;;
  let push := buildPush ctx l old in
  if Nat.eqb (List.length (changeList l)) 0 then
    throw (Error "No changes to push. The changes array is empty.")
  else
    log Debug [stringify_push rt push] ;;
    await (CallCreatePush push (repo_id (repository l)) (project i))
      (createPush api push (repo_id (repository l)) (project i)).

(** Lines 242-330: everything between the dry-run check and the
    construction of the push. *)
Definition prepareChanges (ctx : Context) : M W Locals :=
  rr <- resolveRepository ctx ;;
  let (repository, resolvedTargetBranchName) := rr in
  sourceBranchDoesNotExist <-
    ensureSourceBranch ctx repository resolvedTargetBranchName ;;
  dc <- readChanges ctx ;;
  let (directoryContents, changes) := dc in
  ret {| repository := repository;
         resolvedTargetBranchName := resolvedTargetBranchName;
         sourceBranchDoesNotExist := sourceBranchDoesNotExist;
         directoryContents := directoryContents;
         changeList := changes |}.

(** Lines 242-356. *)
Definition publishChanges (ctx : Context) : M W Locals :=
  l <- prepareChanges ctx ;;
  pushChanges ctx l ;;
  ret l.

Definition withoutId (pr : GitPullRequest) : string :=
  "Pull request created without an ID: " ++ stringify_pullRequest rt None pr.

(** [ctx.output] of the two outputs, in both branches of lines 381-433. *)
Definition reportPullRequest (ctx : Context) (url : string) (id : Z)
    : M W unit :=
  let i := input ctx in
  output "pullRequestUrl"
    (OutString (getAzureDevOpsPullRequestURL url (project i) (repo i) id)) ;;
  output "pullRequestId" (OutNumber id).

(** Lines 358-433: the pull request is looked up, then reused or
    created. *)
Definition createOrReusePullRequest (ctx : Context) (url : string)
    (repository : GitRepository) (resolvedTargetBranchName : string)
    : M W unit :=
  let i := input ctx in
  let pullRequest :=
    {| pullRequestId := None;
       sourceRefName := Some ("refs/heads/" ++ sourceBranchName i);
       targetRefName := Some ("refs/heads/" ++ resolvedTargetBranchName);
       pr_title := Some (title i);
       pr_description := Some (description i);
       isDraft := draft i;
       pr_reviewers := Js.nullish (reviewers i) [];
       labels := ["devhub-generated"] |} in
  let criteria :=
    {| crit_sourceRefName := "refs/heads/" ++ sourceBranchName i;
       crit_targetRefName := "refs/heads/" ++ resolvedTargetBranchName;
       crit_status := Active |} in
  found <- await (CallGetPullRequests (repo_id repository) criteria (project i))
             (getPullRequests api (repo_id repository) criteria (project i)) ;;
  let existingPullRequests := Js.nullish found [] in
  match existingPullRequests with
  | existingPullRequest :: _ =>
      if negb (Js.truthy_number (pullRequestId existingPullRequest))
      then throw (Error (withoutId existingPullRequest))
      else
        let id := Js.nullish (pullRequestId existingPullRequest) 0%Z in
        log Info ["Pull request already exists: PR-" ++ Js.number_to_string id] ;;
        reportPullRequest ctx url id
  | [] =>
      createdPullRequest <-
        await (CallCreatePullRequest pullRequest (repo_id repository) (project i))
          (createPullRequest api pullRequest (repo_id repository) (project i)) ;;
      if negb (Js.truthy_number (pullRequestId createdPullRequest))
      then throw (Error (withoutId createdPullRequest))
      else
        let id := Js.nullish (pullRequestId createdPullRequest) 0%Z in
        log Info ["Created pull request PR-" ++ Js.number_to_string id] ;;
        log Debug ["Pull request created: ";
                   stringify_pullRequest rt (Some 2) createdPullRequest] ;;
        reportPullRequest ctx url id
  end.

(** Lines 190-434. *)
Definition handler (ctx : Context) : M W unit :=
  let i := input ctx in
  url <- resolveClient ctx ;;
  if isDryRun ctx then
    performDryRun (organization i) (project i) (repo i) (sourceBranchName i)
      (targetBranchName i) (title i) (description i)
  else
    l <- publishChanges ctx ;;
    createOrReusePullRequest ctx url (repository l)
      (resolvedTargetBranchName l).

End Action.

(** Two inputs that differ at most in [teamReviewers] and [update]. *)
Definition withInert (i : Input) (team : option (list string))
    (upd : option bool) : Input :=
  {| host := host i; organization := organization i; project := project i;
     repo := repo i; sourceBranchName := sourceBranchName i;
     targetBranchName := targetBranchName i; title := title i;
     description := description i; draft := draft i;
     targetPath := targetPath i; sourcePath := sourcePath i;
     token := token i; reviewers := reviewers i; teamReviewers := team;
     commitMessage := commitMessage i; update := upd;
     createSourceBranch := createSourceBranch i |}.

(* ===================================================================== *)
(** * A POSIX runtime and an in-memory service, to run the action *)
(* ===================================================================== *)

(** Node's [path] functions on a POSIX platform, for the inputs the action
    gives them. *)
Module Posix.

Definition slash : ascii := "/"%char.

(** The parts of a path between slashes. *)
Fixpoint segments (s : string) : list string :=
  match s with
  | EmptyString => [EmptyString]
  | String c s' =>
      if Ascii.eqb c slash then EmptyString :: segments s'
      else match segments s' with
           | seg :: rest => String c seg :: rest
           | [] => [String c EmptyString]
           end
  end.

(** Removes empty and [.] segments and resolves [..]; [stack] holds the
    segments kept so far, innermost first. *)
Fixpoint resolveDots (absolute : bool) (segs stack : list string)
    : list string :=
  match segs with
  | [] => rev stack
  | seg :: rest =>
      if String.eqb seg "" || String.eqb seg "." then
        resolveDots absolute rest stack
      else if String.eqb seg ".." then
        match stack with
        | top :: stack' =>
            if String.eqb top ".." then resolveDots absolute rest (seg :: stack)
            else resolveDots absolute rest stack'
        | [] =>
            if absolute then resolveDots absolute rest []
            else resolveDots absolute rest [seg]
        end
      else resolveDots absolute rest (seg :: stack)
  end.

Definition isAbsolute (p : string) : bool := String.prefix "/" p.

Definition endsWithSlash (p : string) : bool :=
  match rev (segments p) with
  | last :: _ :: _ => String.eqb last ""
  | _ => false
  end.

Definition normalize (p : string) : string :=
  if String.eqb p "" then "."
  else
    let body := String.concat "/" (resolveDots (isAbsolute p) (segments p) []) in
    if String.eqb body "" then
      if isAbsolute p then "/" else if endsWithSlash p then "./" else "."
    else
      (if isAbsolute p then "/" else "") ++ body
        ++ (if endsWithSlash p then "/" else "").

Definition join (parts : list string) : string :=
  match filter (fun s => negb (String.eqb s "")) parts with
  | [] => "."
  | nonEmpty => normalize (String.concat "/" nonEmpty)
  end.

Fixpoint dropCommon (a b : list string) : list string * list string :=
  match a, b with
  | x :: a', y :: b' =>
      if String.eqb x y then dropCommon a' b' else (a, b)
  | _, _ => (a, b)
  end.

(** [relative(from, to)] for two absolute paths. *)
Definition relative (from to : string) : string :=
  let (up, down) :=
    dropCommon (resolveDots true (segments from) [])
               (resolveDots true (segments to) []) in
  String.concat "/" (map (fun _ => "..") up ++ down)%list.

Definition basename (p : string) : string :=
  match rev (filter (fun s => negb (String.eqb s "")) (segments p)) with
  | last :: _ => last
  | [] => ""
  end.

End Posix.

Module Mock.

(** The runtime: POSIX paths; a child path is safe when it stays under its
    base; the [JSON.stringify] stand-ins keep the identifying part of the
    value, they only feed log lines and error messages. *)
Definition safeChild (base p : string) : string + string :=
  let target := Posix.join [base; p] in
  if String.eqb target base || String.prefix (base ++ "/") target
  then inr target
  else inl "NotAllowedError: relative path is not allowed to refer to a directory outside its parent".

Definition showOption (o : option string) : string :=
  match o with
  | Some s => s
  | None => "undefined"
  end.

Definition showId (o : option Z) : string :=
  match o with
  | Some n => Js.number_to_string n
  | None => "undefined"
  end.

Definition runtime : Runtime :=
  {| path_isAbsolute := Posix.isAbsolute;
     path_relative := Posix.relative;
     path_posix_join := Posix.join;
     path_basename := Posix.basename;
     resolveSafeChildPath := safeChild;
     stringify_refUpdate := fun u =>
       ref_name u ++ " " ++ showOption (oldObjectId u) ++ " "
         ++ showOption (newObjectId u);
     stringify_push := fun p =>
       String.concat "," (map ref_name (refUpdates p));
     stringify_pullRequest := fun _ pr =>
       showOption (sourceRefName pr) ++ " -> " ++ showOption (targetRefName pr)
         ++ " #" ++ showId (pullRequestId pr) |}.

(** The service: one repository with its branches and active pull
    requests, the integration's credentials and the workspace files. *)
Record World := mkWorld {
  credentials : option AzureDevOpsCredential;
  repository : option GitRepository;
  branches : list (string * option string);  (* branch name, head commit *)
  missingBranchRejects : bool;   (* a lookup of an unknown branch rejects *)
  pullRequests : list GitPullRequest;
  nextPullRequestId : Z;
  pushed : list GitPush;
  files : list SerializedFile
}.

Fixpoint lookup (name : string) (l : list (string * option string))
    : option (option string) :=
  match l with
  | [] => None
  | (n, c) :: l' => if String.eqb n name then Some c else lookup name l'
  end.

Definition setBranch (name : string) (c : option string) (w : World) : World :=
  {| credentials := credentials w; repository := repository w;
     branches := (name, c) :: branches w;
     missingBranchRejects := missingBranchRejects w;
     pullRequests := pullRequests w;
     nextPullRequestId := nextPullRequestId w;
     pushed := pushed w; files := files w |}.

Definition branchOfRef (ref : string) : string :=
  Js.replace "refs/heads/" "" ref.

Definition matches (criteria : GitPullRequestSearchCriteria)
    (pr : GitPullRequest) : bool :=
  match sourceRefName pr, targetRefName pr with
  | Some s, Some t =>
      String.eqb s (crit_sourceRefName criteria)
      && String.eqb t (crit_targetRefName criteria)
  | _, _ => false
  end.

Definition service : Collaborators World :=
  {| getCredentials := fun _ w => (w, inr (credentials w));
     getGitApi := fun _ _ w => (w, inr tt);
     getRepository := fun _ _ w => (w, inr (repository w));
     getBranch := fun _ branch _ w =>
       match lookup branch (branches w) with
       | Some c => (w, inr (Some {| commit := Some {| commitId := c |} |}))
       | None =>
           if missingBranchRejects w
           then (w, inl ("branch " ++ branch ++ " does not exist"))
           else (w, inr None)
       end;
     updateRefs := fun updates _ _ w =>
       (fold_left (fun w u => setBranch (branchOfRef (ref_name u))
                                (newObjectId u) w) updates w,
        inr tt);
     createPush := fun push _ _ w =>
       let w' :=
         fold_left (fun w u => setBranch (branchOfRef (ref_name u))
                                 (Some "pushed") w) (refUpdates push) w in
       ({| credentials := credentials w'; repository := repository w';
           branches := branches w';
           missingBranchRejects := missingBranchRejects w';
           pullRequests := pullRequests w';
           nextPullRequestId := nextPullRequestId w';
           pushed := (pushed w' ++ [push])%list; files := files w' |},
        inr tt);
     getPullRequests := fun _ criteria _ w =>
       (w, inr (Some (filter (matches criteria) (pullRequests w))));
     createPullRequest := fun pr _ _ w =>
       let created :=
         {| pullRequestId := Some (nextPullRequestId w);
            sourceRefName := sourceRefName pr;
            targetRefName := targetRefName pr;
            pr_title := pr_title pr;
            pr_description := pr_description pr;
            isDraft := isDraft pr;
            pr_reviewers := pr_reviewers pr;
            labels := labels pr |} in
       ({| credentials := credentials w; repository := repository w;
           branches := branches w;
           missingBranchRejects := missingBranchRejects w;
           pullRequests := (pullRequests w ++ [created])%list;
           nextPullRequestId := (nextPullRequestId w + 1)%Z;
           pushed := pushed w; files := files w |},
        inr created);
     serializeDirectoryContents := fun _ w => (w, inr (files w)) |}.

Definition someInput : Input :=
  {| host := None; organization := "my-org"; project := "my project";
     repo := "my-repo"; sourceBranchName := "feature";
     targetBranchName := None; title := "Add files";
     description := "Generated"; draft := None; targetPath := Some "docs";
     sourcePath := None; token := None; reviewers := Some ["ann@example.com"];
     teamReviewers := None; commitMessage := None; update := None;
     createSourceBranch := Some true |}.

Definition someContext : Context :=
  {| input := someInput; isDryRun := false; workspacePath := "/tmp/ws" |}.

Definition readme : SerializedFile :=
  {| file_path := "README.md"; file_content := [x48; x69]%byte |}.

Definition gitkeep : SerializedFile :=
  {| file_path := "src/.gitkeep"; file_content := [] |}.

Definition someWorld : World :=
  {| credentials := Some {| cred_type := "pat"; cred_token := "secret" |};
     repository := Some {| repo_id := Some "repo-1";
                           defaultBranch := Some "refs/heads/main" |};
     branches := [("main", Some "aaaa")];
     missingBranchRejects := true;
     pullRequests := [];
     nextPullRequestId := 7;
     pushed := [];
     files := [readme; gitkeep] |}.

(** An invocation that appends to an existing source branch. *)
Definition appendInput : Input :=
  {| host := None; organization := "my-org"; project := "my project";
     repo := "my-repo"; sourceBranchName := "feature";
     targetBranchName := Some "main"; title := "Add files";
     description := "Generated"; draft := None; targetPath := None;
     sourcePath := None; token := Some "t0ken"; reviewers := None;
     teamReviewers := None; commitMessage := None; update := None;
     createSourceBranch := None |}.

Definition appendContext : Context :=
  {| input := appendInput; isDryRun := false; workspacePath := "/tmp/ws" |}.

Definition dryRunContext : Context :=
  {| input := someInput; isDryRun := true; workspacePath := "/tmp/ws" |}.

Definition withCredentials (c : option AzureDevOpsCredential) (w : World)
    : World :=
  {| credentials := c; repository := repository w; branches := branches w;
     missingBranchRejects := missingBranchRejects w;
     pullRequests := pullRequests w;
     nextPullRequestId := nextPullRequestId w;
     pushed := pushed w; files := files w |}.

Definition withFiles (fs : list SerializedFile) (w : World) : World :=
  {| credentials := credentials w; repository := repository w;
     branches := branches w;
     missingBranchRejects := missingBranchRejects w;
     pullRequests := pullRequests w;
     nextPullRequestId := nextPullRequestId w;
     pushed := pushed w; files := fs |}.

Definition withMissingBranchRejects (b : bool) (w : World) : World :=
  {| credentials := credentials w; repository := repository w;
     branches := branches w;
     missingBranchRejects := b;
     pullRequests := pullRequests w;
     nextPullRequestId := nextPullRequestId w;
     pushed := pushed w; files := files w |}.

(** The change and the push of [someContext] in [someWorld]. *)
Definition readmeChange : GitChange :=
  {| changeType := Add; item_path := "/docs/README.md";
     newContent := {| content := "SGk="; contentType := Base64Encoded |} |}.

Definition somePush : GitPush :=
  {| refUpdates :=
       [ {| ref_name := "refs/heads/feature"; oldObjectId := Some "aaaa";
            newObjectId := None |} ];
     commits :=
       [ {| comment :=
              "Automated commit from Backstage scaffolder. Added files: README.md, .gitkeep";
            changes := [readmeChange] |} ] |}.

(** The service after [someContext] ran in [someWorld]: the source branch
    exists and pull request 7 is active. *)
Definition publishedWorld : World :=
  Eval vm_compute in
    world (fst (handler runtime service someContext (initial someWorld))).

Definition pullRequest7 : GitPullRequest :=
  {| pullRequestId := Some 7%Z;
     sourceRefName := Some "refs/heads/feature";
     targetRefName := Some "refs/heads/main";
     pr_title := Some "Add files";
     pr_description := Some "Generated";
     isDraft := None;
     pr_reviewers := ["ann@example.com"];
     labels := ["devhub-generated"] |}.

(** The same invocation with team reviewers and the update flag set. *)
Definition inertContext : Context :=
  {| input := withInert someInput (Some ["platform-team"]) (Some true);
     isDryRun := false; workspacePath := "/tmp/ws" |}.

(** A workspace whose only file is empty, and a service that answers
    the lookup of an unknown branch with nothing. *)
Definition emptyWorkspace : World :=
  withMissingBranchRejects false (withFiles [gitkeep] someWorld).

(** The service when the caller may not push: [createPush] rejects and
    leaves the repository as it is. *)
Definition readOnlyService : Collaborators World :=
  {| getCredentials := getCredentials service;
     getGitApi := getGitApi service;
     getRepository := getRepository service;
     getBranch := getBranch service;
     updateRefs := updateRefs service;
     createPush := fun _ _ _ w =>
       (w, inl "TF401027: You need the Git 'GenericContribute' permission");
     getPullRequests := getPullRequests service;
     createPullRequest := createPullRequest service;
     serializeDirectoryContents := serializeDirectoryContents service |}.

(** A repository that names a default branch and has no branch at all. *)
Definition noBranches : World :=
  {| credentials := credentials someWorld;
     repository := repository someWorld;
     branches := [];
     missingBranchRejects := true;
     pullRequests := [];
     nextPullRequestId := 7;
     pushed := [];
     files := files someWorld |}.

(** An invocation whose [sourcePath] leaves the workspace. *)
Definition escapingContext : Context :=
  {| input :=
       {| host := None; organization := "my-org"; project := "my project";
          repo := "my-repo"; sourceBranchName := "feature";
          targetBranchName := None; title := "Add files";
          description := "Generated"; draft := None; targetPath := None;
          sourcePath := Some "../outside"; token := None; reviewers := None;
          teamReviewers := None; commitMessage := None; update := None;
          createSourceBranch := Some true |};
     isDryRun := false; workspacePath := "/tmp/ws" |}.

(** A service that answers the lookup of an unknown branch with nothing. *)
Definition quietWorld : World := withMissingBranchRejects false someWorld.

(** A directory entry without content, which the declared type of the
    serializer's result excludes. *)
Definition withoutContent : DirectoryEntry :=
  {| entry_path := "broken.txt"; entry_content := None |}.

End Mock.

(* ===================================================================== *)
(** * Notions used in the statements *)
(* ===================================================================== *)

(** An entry whose buffer holds at least one byte. *)
Definition hasBytes (f : DirectoryEntry) : bool :=
  match entry_content f with
  | Some (_ :: _) => true
  | _ => false
  end.

(** [c] is the change made from entry [f]: kind [Add], the joined remote
    path, the buffer in base64. *)
Definition changeOf (rt : Runtime) (fileRoot : string)
    (targetPath : option string) (f : DirectoryEntry) (c : GitChange) : Prop :=
  exists buf,
    entry_content f = Some buf
    /\ changeType c = Add
    /\ item_path c =
         path_posix_join rt
           ["/"; match targetPath with Some t => t | None => "" end;
            if path_isAbsolute rt (entry_path f)
            then path_relative rt fileRoot (entry_path f)
            else entry_path f]
    /\ content (newContent c) = Base64.encode buf
    /\ contentType (newContent c) = Base64Encoded.

(** The collaborator operation a call goes to. *)
Inductive Operation :=
| OpGetCredentials | OpGetGitApi | OpGetRepository | OpGetBranch
| OpUpdateRefs | OpCreatePush | OpGetPullRequests | OpCreatePullRequest
| OpSerializeDirectoryContents.

Definition operation (c : Call) : Operation :=
  match c with
  | CallGetCredentials _ => OpGetCredentials
  | CallGetGitApi _ _ => OpGetGitApi
  | CallGetRepository _ _ => OpGetRepository
  | CallGetBranch _ _ _ => OpGetBranch
  | CallUpdateRefs _ _ _ => OpUpdateRefs
  | CallCreatePush _ _ _ => OpCreatePush
  | CallGetPullRequests _ _ _ => OpGetPullRequests
  | CallCreatePullRequest _ _ _ => OpCreatePullRequest
  | CallSerializeDirectoryContents _ => OpSerializeDirectoryContents
  end.

Definition Operation_eqb (a b : Operation) : bool :=
  match a, b with
  | OpGetCredentials, OpGetCredentials
  | OpGetGitApi, OpGetGitApi
  | OpGetRepository, OpGetRepository
  | OpGetBranch, OpGetBranch
  | OpUpdateRefs, OpUpdateRefs
  | OpCreatePush, OpCreatePush
  | OpGetPullRequests, OpGetPullRequests
  | OpCreatePullRequest, OpCreatePullRequest
  | OpSerializeDirectoryContents, OpSerializeDirectoryContents => true
  | _, _ => false
  end.

(** The call goes to one of the operations [ops]. *)
Definition among (ops : list Operation) (c : Call) : bool :=
  existsb (Operation_eqb (operation c)) ops.

(** The calls of a trace that go to operation [op], in order. *)
Definition callsTo (op : Operation) (trace : list Call) : list Call :=
  filter (fun c => Operation_eqb (operation c) op) trace.

(** The operations of the git client: every call but the credentials
    lookup, the construction of the client and the read of the workspace
    directory. *)
Definition gitOperations : list Operation :=
  [OpGetRepository; OpGetBranch; OpUpdateRefs; OpCreatePush;
   OpGetPullRequests; OpCreatePullRequest].

Definition gitCalls (trace : list Call) : list Call :=
  filter (among gitOperations) trace.

(** [m] only adds calls that satisfy [P] to the trace. *)
Definition issues {W A : Type} (P : Call -> bool) (m : M W A) : Prop :=
  forall st, exists extra,
    calls (fst (m st)) = (calls st ++ extra)%list /\ forallb P extra = true.

(** [m] reports no output. *)
Definition silent {W A : Type} (m : M W A) : Prop :=
  forall st, outputs (fst (m st)) = outputs st.

(** Every exception [m] ends with satisfies [Q]. *)
Definition throwsOnly {W A : Type} (Q : Exn -> Prop) (m : M W A) : Prop :=
  forall st e, snd (m st) = inl e -> Q e.

Definition operational (e : Exn) : Prop :=
  match e with
  | InputError _ => False
  | _ => True
  end.

(** The branch whose latest commit is the old object id of the push. *)
Definition pushBase (ctx : Context) (l : Locals) : string :=
  if Js.truthy_bool (sourceBranchDoesNotExist l)
  then resolvedTargetBranchName l
  else sourceBranchName (input ctx).

(** The commit message the way the specification words it: the base names
    of the changed files, that is of the files of the change list. *)
Definition spec_automatedCommitMessage (rt : Runtime)
    (changes : list GitChange) : string :=
  "Automated commit from Backstage scaffolder. Added files: "
    ++ Js.join ", " (map (fun c => path_basename rt (item_path c)) changes).



(* ===================================================================== *)
(** * Notions used in the further properties *)
(* ===================================================================== *)

(** ** The order of the calls *)

(** The prefixes of a list, the empty one first. *)
Fixpoint prefixes {A : Type} (l : list A) : list (list A) :=
  match l with
  | [] => [[]]
  | x :: l' => [] :: map (cons x) (prefixes l')
  end.

(** Every sequence of [A] followed by every sequence of [B]. *)
Definition sequences (A B : list (list Operation)) : list (list Operation) :=
  flat_map (fun a => map (fun b => (a ++ b)%list) B) A.

(** The operations [m] calls, in order, make one of the sequences [L] when
    [m] returns, and a prefix of one of them when [m] throws. *)
Definition runs {W A : Type} (L : list (list Operation)) (m : M W A) : Prop :=
  forall st, exists extra,
    calls (fst (m st)) = (calls st ++ extra)%list
    /\ match snd (m st) with
       | inr _ => In (map operation extra) L
       | inl _ => In (map operation extra) (flat_map prefixes L)
       end.

(** The sequences of operations of a complete run of the handler. *)
Definition protocol (dryRun : bool) : list (list Operation) :=
  if dryRun then [[OpGetCredentials; OpGetGitApi]]
  else
    sequences [[OpGetCredentials; OpGetGitApi; OpGetRepository]]
      (sequences [[]; [OpGetBranch]; [OpGetBranch; OpGetBranch; OpUpdateRefs]]
         (sequences [[OpSerializeDirectoryContents; OpGetBranch; OpCreatePush]]
            [[OpGetPullRequests];
             [OpGetPullRequests; OpCreatePullRequest]])).

(** How often [op] occurs in a sequence of operations. *)
Definition occurrences (op : Operation) (ops : list Operation) : nat :=
  List.length (filter (fun o => Operation_eqb o op) ops).



(** ** The errors of the publishing stages *)


(** ** The inputs that describe the pull request *)

(** The input [i] with other [title], [description], [draft] and
    [reviewers]. *)
Definition withMetadata (i : Input) (t d : string) (dr : option bool)
    (rv : option (list string)) : Input :=
  {| host := host i; organization := organization i; project := project i;
     repo := repo i; sourceBranchName := sourceBranchName i;
     targetBranchName := targetBranchName i; title := t;
     description := d; draft := dr;
     targetPath := targetPath i; sourcePath := sourcePath i;
     token := token i; reviewers := rv; teamReviewers := teamReviewers i;
     commitMessage := commitMessage i; update := update i;
     createSourceBranch := createSourceBranch i |}.

(* ===================================================================== *)
(** * Change-list construction *)
(* ===================================================================== *)

Lemma base64_empty (buf : Buffer) : Base64.encode buf = "" <-> buf = [].
Proof.
  destruct buf as [|x [|y [|z rest]]]; simpl; split; intro H;
    try reflexivity; discriminate H.
Qed.

Lemma validChange_spec (c : GitChange) :
  validChange c = true <-> content (newContent c) <> "".
Proof.
  unfold validChange; simpl.
  destruct (content (newContent c)); split; intro H;
    try reflexivity; try discriminate; try congruence.
Qed.

Section ChangeList.

Variable rt : Runtime.
Variable fileRoot : string.
Variable targetPath : option string.

Lemma toChange_changeOf (f : DirectoryEntry) (c : GitChange) :
  toChange rt fileRoot targetPath f = inr c ->
  changeOf rt fileRoot targetPath f c.
Proof.
  unfold toChange, changeOf, fullPath, Js.nullish.
  destruct (entry_content f) as [buf|]; [|discriminate].
  intros H; injection H as <-. exists buf; simpl. repeat split.
Qed.

Lemma toChange_valid (f : DirectoryEntry) (c : GitChange) :
  toChange rt fileRoot targetPath f = inr c ->
  validChange c = hasBytes f.
Proof.
  unfold toChange, hasBytes, validChange.
  destruct (entry_content f) as [buf|]; [|discriminate].
  intros H; injection H as <-; simpl.
  destruct buf as [|x [|y [|z rest]]]; reflexivity.
Qed.

(** The mapped list follows the input entry by entry. *)
Lemma map_throwing_toChange (dc : list DirectoryEntry) (mapped : list GitChange) :
  map_throwing (toChange rt fileRoot targetPath) dc = inr mapped ->
  Forall2 (fun f c => toChange rt fileRoot targetPath f = inr c) dc mapped.
Proof.
  revert mapped; induction dc as [|f dc IH]; simpl; intros mapped H.
  - injection H as <-. constructor.
  - destruct (toChange rt fileRoot targetPath f) as [e|c] eqn:Hf; [discriminate|].
    destruct (map_throwing (toChange rt fileRoot targetPath) dc) as [e|cs];
      [discriminate|].
    injection H as <-. constructor; auto.
Qed.

(** Mapping succeeds exactly when every entry carries a content. *)
Lemma map_throwing_total (dc : list DirectoryEntry) :
  Forall (fun f => entry_content f <> None) dc ->
  exists mapped, map_throwing (toChange rt fileRoot targetPath) dc = inr mapped.
Proof.
  induction 1 as [|f dc Hf _ IH]; simpl.
  - eexists; reflexivity.
  - unfold toChange at 1. destruct (entry_content f) as [buf|]; [|congruence].
    destruct IH as [cs ->]. eexists; reflexivity.
Qed.

(** Filtering both sides keeps the correspondence. *)
Lemma filter_changes (dc : list DirectoryEntry) (mapped : list GitChange) :
  Forall2 (fun f c => toChange rt fileRoot targetPath f = inr c) dc mapped ->
  Forall2 (changeOf rt fileRoot targetPath)
    (filter hasBytes dc) (filter validChange mapped).
Proof.
  induction 1 as [|f c dc mapped Hf _ IH]; simpl; [constructor|].
  rewrite (toChange_valid _ _ Hf).
  destruct (hasBytes f); [constructor; auto using toChange_changeOf | exact IH].
Qed.

Lemma generateGitChanges_kept (dc : list DirectoryEntry) (out : list GitChange) :
  generateGitChanges rt dc fileRoot targetPath = inr out ->
  Forall2 (changeOf rt fileRoot targetPath) (filter hasBytes dc) out.
Proof.
  unfold generateGitChanges.
  destruct (map_throwing (toChange rt fileRoot targetPath) dc) as [e|mapped] eqn:Hm;
    [discriminate|].
  intros H; injection H as <-.
  apply filter_changes, map_throwing_toChange, Hm.
Qed.

(** C2.  For every directory list, file root and optional target path:
    when every entry carries a content, [generateGitChanges] returns, and it
    emits one change for each entry whose buffer is not empty, in the order
    of the entries, at the POSIX join of ["/"], the target path (or [""]
    when absent) and the entry's path, where an absolute entry path is first
    made relative to the file root and a relative one is taken as it is.
    Whenever the call returns, every change it emits comes from an entry of
    the list and has that remote path. *)
Theorem generateGitChanges_remote_path (dc : list DirectoryEntry) :
  let remote f :=
    path_posix_join rt
      ["/"; match targetPath with Some t => t | None => "" end;
       if path_isAbsolute rt (entry_path f)
       then path_relative rt fileRoot (entry_path f)
       else entry_path f] in
  (Forall (fun f => entry_content f <> None) dc ->
   exists out,
     generateGitChanges rt dc fileRoot targetPath = inr out
     /\ map item_path out = map remote (filter hasBytes dc)
     /\ (forall f, In f dc -> hasBytes f = true ->
           exists c, In c out /\ item_path c = remote f))
  /\ (forall out,
        generateGitChanges rt dc fileRoot targetPath = inr out ->
        (forall c, In c out -> exists f, In f dc /\ item_path c = remote f)
        /\ map item_path out = map remote (filter hasBytes dc)).
Proof.
  cbv zeta.
  assert (Hpaths : forall out,
            generateGitChanges rt dc fileRoot targetPath = inr out ->
            (forall c, In c out ->
               exists f, In f dc /\
                 item_path c =
                   path_posix_join rt
                     ["/"; match targetPath with Some t => t | None => "" end;
                      if path_isAbsolute rt (entry_path f)
                      then path_relative rt fileRoot (entry_path f)
                      else entry_path f])
            /\ map item_path out =
                 map (fun f =>
                        path_posix_join rt
                          ["/"; match targetPath with
                                | Some t => t
                                | None => ""
                                end;
                           if path_isAbsolute rt (entry_path f)
                           then path_relative rt fileRoot (entry_path f)
                           else entry_path f])
                     (filter hasBytes dc)).
  { intros out H. apply generateGitChanges_kept in H.
    assert (Hsub : forall f, In f (filter hasBytes dc) -> In f dc)
      by (intros f Hf; apply filter_In in Hf; tauto).
    revert Hsub. induction H as [|f c kept out Hfc _ IH]; intros Hsub.
    - split; [intros c []| reflexivity].
    - destruct IH as [IH1 IH2]; [intros g Hg; apply Hsub; right; exact Hg|].
      destruct Hfc as (buf & _ & _ & Hp & _). split.
      + intros c' [<-|Hc'].
        * exists f; split; [apply Hsub; left; reflexivity | exact Hp].
        * apply IH1, Hc'.
      + simpl. rewrite Hp, IH2. reflexivity. }
  split; [|exact Hpaths].
  intros Hall.
  destruct (map_throwing_total dc Hall) as [mapped Hm].
  assert (Hgen : generateGitChanges rt dc fileRoot targetPath
                 = inr (filter validChange mapped))
    by (unfold generateGitChanges; rewrite Hm; reflexivity).
  exists (filter validChange mapped).
  destruct (Hpaths _ Hgen) as [_ Hmap].
  split; [exact Hgen|]. split; [exact Hmap|].
  intros f Hin Hbytes.
  assert (Hf : In (path_posix_join rt
                     ["/"; match targetPath with Some t => t | None => "" end;
                      if path_isAbsolute rt (entry_path f)
                      then path_relative rt fileRoot (entry_path f)
                      else entry_path f])
                  (map item_path (filter validChange mapped))).
  { rewrite Hmap.
    apply (in_map (fun f =>
                     path_posix_join rt
                       ["/"; match targetPath with
                             | Some t => t
                             | None => ""
                             end;
                        if path_isAbsolute rt (entry_path f)
                        then path_relative rt fileRoot (entry_path f)
                        else entry_path f])).
    apply filter_In. split; assumption. }
  apply in_map_iff in Hf as (c & Hc & Hcin). exists c. split; assumption.
Qed.

(** C3 (amended).  When every entry of the list carries a content,
    [generateGitChanges] returns a list no longer than its input; every
    emitted change has kind [Add] and a non-empty base64 content; the
    emitted changes are, in order, those of the entries whose buffer is not
    empty, so an entry whose encoded content is empty produces no
    change. *)
Theorem generateGitChanges_filters (dc : list DirectoryEntry) :
  Forall (fun f => entry_content f <> None) dc ->
  exists out,
    generateGitChanges rt dc fileRoot targetPath = inr out
    /\ List.length out <= List.length dc
    /\ Forall (fun c => changeType c = Add /\ content (newContent c) <> "") out
    /\ Forall2 (changeOf rt fileRoot targetPath) (filter hasBytes dc) out
    /\ (forall f, In f dc -> hasBytes f = false <->
                             exists buf, entry_content f = Some buf
                                         /\ Base64.encode buf = "").
Proof.
  intros Hall.
  destruct (map_throwing_total dc Hall) as [mapped Hm].
  exists (filter validChange mapped).
  assert (Hgen : generateGitChanges rt dc fileRoot targetPath
                 = inr (filter validChange mapped))
    by (unfold generateGitChanges; rewrite Hm; reflexivity).
  pose proof (generateGitChanges_kept _ _ Hgen) as Hkept.
  repeat split.
  - exact Hgen.
  - rewrite <- (Forall2_length Hkept). apply filter_length_le.
  - apply Forall_forall. intros c Hc. split.
    + clear Hgen. induction Hkept as [|f c' l l' Hfc _ IH]; [destruct Hc|].
      destruct Hc as [<-|Hc]; [|auto].
      destruct Hfc as (_ & _ & Hk & _); exact Hk.
    + apply filter_In in Hc. apply validChange_spec, Hc.
  - exact Hkept.
  - intros Hb. rewrite Forall_forall in Hall.
    match goal with Hin : In f dc |- _ => specialize (Hall f Hin) end.
    unfold hasBytes in Hb. destruct (entry_content f) as [[|x buf]|];
      [exists []; split; reflexivity | discriminate | congruence].
  - intros (buf & Hbuf & Henc). apply base64_empty in Henc. subst buf.
    unfold hasBytes. rewrite Hbuf. reflexivity.
Qed.

End ChangeList.

(* ===================================================================== *)
(** * Reasoning about computations *)
(* ===================================================================== *)

Section Frames.

Context {W : Type}.

Lemma bind_ok {A B : Type} (m : M W A) (k : A -> M W B) st st' a :
  m st = (st', inr a) -> bind m k st = k a st'.
Proof. unfold bind; intros ->; reflexivity. Qed.

(** ** Calls *)

Lemma issues_ret {A : Type} P (a : A) : issues P (@ret W A a).
Proof. intros st; exists []; simpl; rewrite app_nil_r; auto. Qed.

Lemma issues_throw {A : Type} P e : issues P (@throw W A e).
Proof. intros st; exists []; simpl; rewrite app_nil_r; auto. Qed.

Lemma issues_lift {A : Type} P (r : Exn + A) : issues P (@lift W A r).
Proof. intros st; exists []; simpl; rewrite app_nil_r; auto. Qed.

Lemma issues_log P level args : issues P (@log W level args).
Proof. intros st; exists []; simpl; rewrite app_nil_r; auto. Qed.

Lemma issues_output P name v : issues P (@output W name v).
Proof. intros st; exists []; simpl; rewrite app_nil_r; auto. Qed.

Lemma issues_await {A : Type} (P : Call -> bool) c (op : W -> W * (string + A)) :
  P c = true -> issues P (await c op).
Proof.
  intros Hc st; exists [c]; unfold await.
  destruct (op (world st)) as [w' r]; simpl. rewrite Hc; auto.
Qed.

Lemma issues_bind {A B : Type} P (m : M W A) (k : A -> M W B) :
  issues P m -> (forall a, issues P (k a)) -> issues P (bind m k).
Proof.
  intros Hm Hk st. destruct (Hm st) as (x1 & E1 & F1). unfold bind.
  destruct (m st) as [st' [e|a]]; simpl in *.
  - exists x1; auto.
  - destruct (Hk a st') as (x2 & E2 & F2).
    exists (x1 ++ x2)%list. rewrite E2, E1, app_assoc, forallb_app, F1, F2; auto.
Qed.

Lemma issues_try_catch {A : Type} P (m : M W A) (h : Exn -> M W A) :
  issues P m -> (forall e, issues P (h e)) -> issues P (try_catch m h).
Proof.
  intros Hm Hh st. destruct (Hm st) as (x1 & E1 & F1). unfold try_catch.
  destruct (m st) as [st' [e|a]]; simpl in *.
  - destruct (Hh e st') as (x2 & E2 & F2).
    exists (x1 ++ x2)%list. rewrite E2, E1, app_assoc, forallb_app, F1, F2; auto.
  - exists x1; auto.
Qed.

Lemma issues_weaken {A : Type} (P Q : Call -> bool) (m : M W A) :
  (forall c, P c = true -> Q c = true) -> issues P m -> issues Q m.
Proof.
  intros HPQ Hm st. destruct (Hm st) as (x & E & F). exists x; split; auto.
  rewrite forallb_forall in *. auto.
Qed.

Lemma Operation_eqb_eq (a b : Operation) :
  Operation_eqb a b = true -> a = b.
Proof. destruct a, b; simpl; congruence. Qed.

(** A trace piece confined to [ops] holds no call to an operation outside
    [ops]. *)
Lemma callsTo_among ops op (extra : list Call) :
  forallb (among ops) extra = true ->
  existsb (Operation_eqb op) ops = false ->
  callsTo op extra = [].
Proof.
  intros F Hop. induction extra as [|c extra IH]; [reflexivity|].
  simpl in F. apply andb_prop in F as [Fc F]. simpl.
  destruct (Operation_eqb (operation c) op) eqn:E; [|auto].
  exfalso. unfold among in Fc.
  apply Operation_eqb_eq in E. subst op. congruence.
Qed.

Lemma callsTo_app op (a b : list Call) :
  callsTo op (a ++ b) = (callsTo op a ++ callsTo op b)%list.
Proof. apply filter_app. Qed.

(** ** Outputs *)

Lemma silent_ret {A : Type} (a : A) : silent (@ret W A a).
Proof. intros st; reflexivity. Qed.

Lemma silent_throw {A : Type} e : silent (@throw W A e).
Proof. intros st; reflexivity. Qed.

Lemma silent_lift {A : Type} (r : Exn + A) : silent (@lift W A r).
Proof. intros st; reflexivity. Qed.

Lemma silent_log level args : silent (@log W level args).
Proof. intros st; reflexivity. Qed.

Lemma silent_await {A : Type} c (op : W -> W * (string + A)) :
  silent (await c op).
Proof. intros st; unfold await; destruct (op (world st)); reflexivity. Qed.

Lemma silent_bind {A B : Type} (m : M W A) (k : A -> M W B) :
  silent m -> (forall a, silent (k a)) -> silent (bind m k).
Proof.
  intros Hm Hk st. specialize (Hm st). unfold bind.
  destruct (m st) as [st' [e|a]]; simpl in *; [exact Hm|].
  rewrite Hk; exact Hm.
Qed.

Lemma silent_try_catch {A : Type} (m : M W A) (h : Exn -> M W A) :
  silent m -> (forall e, silent (h e)) -> silent (try_catch m h).
Proof.
  intros Hm Hh st. specialize (Hm st). unfold try_catch.
  destruct (m st) as [st' [e|a]]; simpl in *; [|exact Hm].
  rewrite Hh; exact Hm.
Qed.

(** ** Exceptions *)

Lemma throwsOnly_ret {A : Type} Q (a : A) : throwsOnly Q (@ret W A a).
Proof. intros st e; discriminate. Qed.

Lemma throwsOnly_throw {A : Type} (Q : Exn -> Prop) e :
  Q e -> throwsOnly Q (@throw W A e).
Proof. intros H st e' [= <-]; exact H. Qed.

Lemma throwsOnly_lift {A : Type} (Q : Exn -> Prop) (r : Exn + A) :
  (forall e, r = inl e -> Q e) -> throwsOnly Q (@lift W A r).
Proof. intros H st e; simpl; auto. Qed.

Lemma throwsOnly_log Q level args : throwsOnly Q (@log W level args).
Proof. intros st e; discriminate. Qed.

Lemma throwsOnly_output Q name v : throwsOnly Q (@output W name v).
Proof. intros st e; discriminate. Qed.

Lemma throwsOnly_await {A : Type} (Q : Exn -> Prop) c
    (op : W -> W * (string + A)) :
  (forall reason, Q (Thrown reason)) -> throwsOnly Q (await c op).
Proof.
  intros H st e; unfold await.
  destruct (op (world st)) as [w' [reason|a]]; simpl; [|discriminate].
  intros [= <-]; apply H.
Qed.

Lemma throwsOnly_bind {A B : Type} Q (m : M W A) (k : A -> M W B) :
  throwsOnly Q m -> (forall a, throwsOnly Q (k a)) -> throwsOnly Q (bind m k).
Proof.
  intros Hm Hk st e. specialize (Hm st). unfold bind.
  destruct (m st) as [st' [e'|a]]; simpl in *.
  - intros [= <-]; auto.
  - apply Hk.
Qed.

Lemma throwsOnly_try_catch {A : Type} Q (m : M W A) (h : Exn -> M W A) :
  (forall e, throwsOnly Q (h e)) -> throwsOnly Q (try_catch m h).
Proof.
  intros Hh st e. unfold try_catch.
  destruct (m st) as [st' [e'|a]]; simpl; [apply Hh | discriminate].
Qed.

End Frames.

Ltac frame_step :=
  lazymatch goal with
  | |- issues _ (bind _ _) => apply issues_bind; [|intro]
  | |- issues _ (try_catch _ _) => apply issues_try_catch; [|intro]
  | |- issues _ (ret _) => apply issues_ret
  | |- issues _ (throw _) => apply issues_throw
  | |- issues _ (lift _) => apply issues_lift
  | |- issues _ (log _ _) => apply issues_log
  | |- issues _ (output _ _) => apply issues_output
  | |- issues _ (await _ _) => apply issues_await; reflexivity
  | |- issues _ (getLatestCommit _ _ _) => unfold getLatestCommit; cbv zeta
  | |- issues _ (match ?x with _ => _ end) => destruct x
  | |- silent (bind _ _) => apply silent_bind; [|intro]
  | |- silent (try_catch _ _) => apply silent_try_catch; [|intro]
  | |- silent (ret _) => apply silent_ret
  | |- silent (throw _) => apply silent_throw
  | |- silent (lift _) => apply silent_lift
  | |- silent (log _ _) => apply silent_log
  | |- silent (await _ _) => apply silent_await
  | |- silent (getLatestCommit _ _ _) => unfold getLatestCommit; cbv zeta
  | |- silent (match ?x with _ => _ end) => destruct x
  | |- throwsOnly _ (bind _ _) => apply throwsOnly_bind; [|intro]
  | |- throwsOnly _ (try_catch _ _) => apply throwsOnly_try_catch; intro
  | |- throwsOnly _ (ret _) => apply throwsOnly_ret
  | |- throwsOnly _ (throw _) => apply throwsOnly_throw; exact I
  | |- throwsOnly _ (log _ _) => apply throwsOnly_log
  | |- throwsOnly _ (output _ _) => apply throwsOnly_output
  | |- throwsOnly _ (await _ _) => apply throwsOnly_await; intro; exact I
  | |- throwsOnly _ (getLatestCommit _ _ _) =>
      unfold getLatestCommit; cbv zeta
  | |- throwsOnly _ (match ?x with _ => _ end) => destruct x
  end.

Ltac frame := cbv zeta; repeat frame_step.

(* ===================================================================== *)
(** * The stages of the handler *)
(* ===================================================================== *)

Lemma authHandler_operational token credentials e :
  authHandler token credentials = inl e -> operational e.
Proof.
  unfold authHandler, credentialToken.
  destruct (Js.truthy_string token || _), token, credentials;
    intros [= <-] || discriminate; exact I.
Qed.

(** With a token or with credentials the authentication handler is built. *)
Lemma authHandler_total token credentials :
  credentials <> None \/ Js.truthy_string token = true ->
  exists h, authHandler token credentials = inr h.
Proof.
  unfold authHandler, credentialToken. intros [Hc|Ht].
  - destruct credentials as [c|]; [|congruence].
    destruct (Js.truthy_string token || _), token; eexists; reflexivity.
  - rewrite Ht; simpl. destruct token as [t|]; [|discriminate].
    eexists; reflexivity.
Qed.

Lemma generateGitChanges_operational rt dc fileRoot targetPath e :
  generateGitChanges rt dc fileRoot targetPath = inl e -> operational e.
Proof.
  unfold generateGitChanges.
  destruct (map_throwing _ dc) as [e'|mapped] eqn:Hm; [|discriminate].
  intros [= <-]. revert e' Hm. induction dc as [|f dc IH]; simpl; [discriminate|].
  intros e'. unfold toChange at 1.
  destruct (entry_content f); [|intros [= <-]; exact I].
  destruct (map_throwing _ dc); [|discriminate].
  intros [= <-]. apply (IH e); reflexivity.
Qed.


Section Stages.

Context {W : Type}.
Variable rt : Runtime.
Variable api : Collaborators W.
Variable ctx : Context.

(** ** Which operations each stage calls *)

Lemma resolveClient_issues :
  issues (among [OpGetCredentials; OpGetGitApi]) (resolveClient api ctx).
Proof. unfold resolveClient. frame. Qed.

Lemma performDryRun_issues P o p r s t ti d :
  issues P (@performDryRun W o p r s t ti d).
Proof. unfold performDryRun. frame. Qed.

Lemma resolveRepository_issues :
  issues (among [OpGetRepository]) (resolveRepository api ctx).
Proof. unfold resolveRepository. frame. Qed.

Lemma getLatestCommit_issues branch :
  issues (among [OpGetBranch]) (getLatestCommit api ctx branch).
Proof. unfold getLatestCommit. frame. Qed.

Lemma ensureSourceBranch_issues repository target :
  issues (among [OpGetBranch; OpUpdateRefs])
    (ensureSourceBranch rt api ctx repository target).
Proof.
  unfold ensureSourceBranch. frame.
Qed.

Lemma readChanges_issues :
  issues (among [OpSerializeDirectoryContents]) (readChanges rt api ctx).
Proof. unfold readChanges. frame. Qed.

Lemma among_incl ops ops' c :
  incl ops ops' -> among ops c = true -> among ops' c = true.
Proof.
  unfold among. intros Hi H. apply existsb_exists in H as (x & Hx & E).
  apply existsb_exists. exists x; auto.
Qed.

Lemma issues_incl {A : Type} ops ops' (m : M W A) :
  incl ops ops' -> issues (among ops) m -> issues (among ops') m.
Proof. intros Hi. apply issues_weaken. intros c. apply among_incl, Hi. Qed.

Ltac sub := intros x Hx; simpl in *; tauto.

Lemma prepareChanges_issues :
  issues (among [OpGetRepository; OpGetBranch; OpUpdateRefs;
                 OpSerializeDirectoryContents])
    (prepareChanges rt api ctx).
Proof.
  unfold prepareChanges.
  apply issues_bind;
    [eapply issues_incl; [|apply resolveRepository_issues]; sub|].
  intros [repository target].
  apply issues_bind;
    [eapply issues_incl; [|apply ensureSourceBranch_issues]; sub|].
  intros flag.
  apply issues_bind;
    [eapply issues_incl; [|apply readChanges_issues]; sub|].
  intros [dc changes]. apply issues_ret.
Qed.

Lemma pushChanges_issues l :
  issues (among [OpGetBranch; OpCreatePush]) (pushChanges rt api ctx l).
Proof.
  unfold pushChanges. cbv zeta. apply issues_bind.
  - destruct (Js.truthy_bool _);
      (eapply issues_incl; [|apply getLatestCommit_issues]; sub).
  - intros old. frame.
Qed.

Lemma createOrReusePullRequest_issues url repository target :
  issues (among [OpGetPullRequests; OpCreatePullRequest])
    (createOrReusePullRequest rt api ctx url repository target).
Proof. unfold createOrReusePullRequest, reportPullRequest. frame. Qed.

(** ** No stage before the pull request reports an output *)

Lemma resolveClient_silent : silent (resolveClient api ctx).
Proof. unfold resolveClient. frame. Qed.

Lemma getLatestCommit_silent branch : silent (getLatestCommit api ctx branch).
Proof. unfold getLatestCommit. frame. Qed.

Lemma prepareChanges_silent : silent (prepareChanges rt api ctx).
Proof.
  unfold prepareChanges, resolveRepository, ensureSourceBranch, readChanges.
  frame; apply getLatestCommit_silent.
Qed.

Lemma pushChanges_silent l : silent (pushChanges rt api ctx l).
Proof. unfold pushChanges. frame. Qed.

Lemma publishChanges_silent : silent (publishChanges rt api ctx).
Proof.
  unfold publishChanges. apply silent_bind; [apply prepareChanges_silent|].
  intros l. apply silent_bind; [apply pushChanges_silent|].
  intros _. apply silent_ret.
Qed.

(** ** Only the credentials check raises a user-input error *)

Lemma getLatestCommit_operational branch :
  throwsOnly operational (getLatestCommit api ctx branch).
Proof. unfold getLatestCommit. frame. Qed.

Lemma publishChanges_operational :
  throwsOnly operational (publishChanges rt api ctx).
Proof.
  unfold publishChanges, prepareChanges, resolveRepository,
    ensureSourceBranch, readChanges, pushChanges.
  frame; try apply getLatestCommit_operational.
  apply throwsOnly_lift. intros e. apply generateGitChanges_operational.
Qed.

Lemma createOrReusePullRequest_operational url repository target :
  throwsOnly operational
    (createOrReusePullRequest rt api ctx url repository target).
Proof. unfold createOrReusePullRequest, reportPullRequest. frame. Qed.

Lemma performDryRun_operational o p r s t ti d :
  throwsOnly operational (@performDryRun W o p r s t ti d).
Proof. unfold performDryRun. frame. Qed.

End Stages.

(* ===================================================================== *)
(** * Credentials and the dry run *)
(* ===================================================================== *)

Section Credentials.

Context {W : Type}.
Variable rt : Runtime.
Variable api : Collaborators W.

(** What follows the construction of the client never raises a user-input
    error. *)
Lemma after_client_operational ctx url :
  throwsOnly operational
    (if isDryRun ctx then
       performDryRun (organization (input ctx)) (project (input ctx))
         (repo (input ctx)) (sourceBranchName (input ctx))
         (targetBranchName (input ctx)) (title (input ctx))
         (description (input ctx))
     else
       bind (publishChanges rt api ctx)
         (fun l => createOrReusePullRequest rt api ctx url (repository l)
                     (resolvedTargetBranchName l))).
Proof.
  destruct (isDryRun ctx).
  - apply performDryRun_operational.
  - apply throwsOnly_bind; [apply publishChanges_operational|].
    intros l. apply createOrReusePullRequest_operational.
Qed.

(** C5.  When the credentials provider resolves no credentials and the
    token input is missing (or empty), the handler ends with the
    [InputError] on missing credentials, which is not an [Error]; when the
    provider resolves credentials, or a token is given, the handler ends
    with no [InputError] at all. *)
Theorem missing_credentials_input_error (ctx : Context) (st : State W) :
  let lookup := snd (getCredentials api (baseUrl (input ctx)) (world st)) in
  let r := snd (handler rt api ctx st) in
  (lookup = inr None -> Js.truthy_string (token (input ctx)) = false ->
     r = inl (InputError missingCredentials)
     /\ forall message, r <> inl (Error message))
  /\ ((exists c, lookup = inr (Some c))
      \/ Js.truthy_string (token (input ctx)) = true ->
      forall message, r <> inl (InputError message)).
Proof.
  cbv zeta. split.
  - intros Hl Ht. unfold handler, resolveClient, bind, await.
    destruct (getCredentials api _ (world st)) as [w1 lookup]; simpl in *.
    subst lookup. rewrite Ht. simpl. split; [reflexivity | discriminate].
  - intros Hyp message Hr.
    assert (Hop : operational (InputError message)); [|exact Hop].
    revert Hr. generalize (InputError message). intros e.
    unfold handler. cbv zeta. unfold bind at 1.
    destruct (resolveClient api ctx st) as [st1 [e1|url]] eqn:Hc.
    + intros [= <-]. revert Hc. unfold resolveClient, bind, await.
      destruct (getCredentials api _ (world st)) as [w1 lookup]; simpl in *.
      destruct lookup as [reason|credentials]; [intros [= _ <-]; exact I|].
      destruct (negb (isSome credentials)
                && negb (Js.truthy_string (token (input ctx)))) eqn:Hmiss.
      * exfalso. apply andb_prop in Hmiss as [H1 H2].
        destruct Hyp as [[c [= ->]]|Ht]; [discriminate|].
        rewrite Ht in H2; discriminate.
      * unfold lift.
        destruct (authHandler _ credentials) as [e'|h] eqn:Ha;
          [intros [= _ <-]; eapply authHandler_operational, Ha|].
        simpl.
        destruct (getGitApi api (baseUrl (input ctx)) h w1)
          as [w2 [reason|[]]]; simpl;
          [intros [= _ <-]; exact I | discriminate].
    + apply after_client_operational.
Qed.

(** C10.  A dry run with no resolvable credentials and no token ends with
    the [InputError] on missing credentials right after the credentials
    lookup and reports no output; and a dry run reports its mocked outputs
    only after the credentials lookup and the construction of the git
    client. *)
Theorem dry_run_after_credentials (ctx : Context) (w : W) :
  isDryRun ctx = true ->
  (forall w1,
     getCredentials api (baseUrl (input ctx)) w = (w1, inr None) ->
     Js.truthy_string (token (input ctx)) = false ->
     handler rt api ctx (initial w)
     = ({| world := w1;
           calls := [CallGetCredentials (baseUrl (input ctx))];
           outputs := []; logs := [] |},
        inl (InputError missingCredentials)))
  /\ (outputs (fst (handler rt api ctx (initial w))) <> [] ->
      exists h,
        calls (fst (handler rt api ctx (initial w)))
        = [CallGetCredentials (baseUrl (input ctx));
           CallGetGitApi (baseUrl (input ctx)) h]).
Proof.
  intros Hdry. split.
  - intros w1 Hl Ht.
    unfold handler, resolveClient, bind, await, initial; simpl.
    rewrite Hl, Ht. reflexivity.
  - unfold handler, resolveClient, bind, await, initial, lift; simpl.
    rewrite Hdry.
    destruct (getCredentials api _ w) as [w1 [reason|credentials]]; simpl;
      [congruence|].
    destruct (negb (isSome credentials) && _); simpl; [congruence|].
    destruct (authHandler _ credentials) as [e|h]; simpl; [congruence|].
    destruct (getGitApi api _ h w1) as [w2 [reason|[]]]; simpl;
      [congruence|].
    intros _. exists h. reflexivity.
Qed.

(** C6 (amended).  In a dry run for which credentials are resolved or a
    token is given, and for which the git client is obtained, the handler
    calls the credentials provider and builds the client, and nothing
    else: no operation of the git client is called and the world is left
    as the construction of the client left it; it returns normally with
    the two outputs [pullRequestUrl =
    "https://mocked-url/<org>/<project>/<repo>/pullrequest/123"] and
    [pullRequestId = 123], built from the raw inputs. *)
Theorem dry_run_outputs (ctx : Context) (w w1 w2 : W)
    (credentials : option AzureDevOpsCredential) (h : AuthHandler) :
  isDryRun ctx = true ->
  getCredentials api (baseUrl (input ctx)) w = (w1, inr credentials) ->
  credentials <> None \/ Js.truthy_string (token (input ctx)) = true ->
  authHandler (token (input ctx)) credentials = inr h ->
  getGitApi api (baseUrl (input ctx)) h w1 = (w2, inr tt) ->
  let st' := fst (handler rt api ctx (initial w)) in
  snd (handler rt api ctx (initial w)) = inr tt
  /\ world st' = w2
  /\ calls st' = [CallGetCredentials (baseUrl (input ctx));
                  CallGetGitApi (baseUrl (input ctx)) h]
  /\ gitCalls (calls st') = []
  /\ outputs st'
     = [("pullRequestUrl",
         OutString ("https://mocked-url/" ++ organization (input ctx) ++ "/"
                      ++ project (input ctx) ++ "/" ++ repo (input ctx)
                      ++ "/pullrequest/123"));
        ("pullRequestId", OutNumber 123)].
Proof.
  intros Hdry Hl Hc Ha Hg.
  assert (Hmiss : negb (isSome credentials)
                  && negb (Js.truthy_string (token (input ctx))) = false).
  { destruct Hc as [Hc|Ht]; [|rewrite Ht; apply andb_false_r].
    destruct credentials; [reflexivity | congruence]. }
  unfold handler, resolveClient, bind, await, initial, lift; simpl.
  rewrite Hl, Hmiss, Ha; simpl. rewrite Hg, Hdry; simpl.
  repeat split.
Qed.

End Credentials.

(** Without credentials the mock run ends with the [InputError]; with the
    integration's credentials it does not. *)
Lemma missing_credentials_input_error_witness :
  snd (handler Mock.runtime Mock.service Mock.someContext
         (initial (Mock.withCredentials None Mock.someWorld)))
  = inl (InputError missingCredentials)
  /\ forall message,
       snd (handler Mock.runtime Mock.service Mock.someContext
              (initial Mock.someWorld))
       <> inl (InputError message).
Proof.
  split.
  - destruct (missing_credentials_input_error Mock.runtime Mock.service
                Mock.someContext
                (initial (Mock.withCredentials None Mock.someWorld)))
      as [H _].
    apply H; reflexivity.
  - destruct (missing_credentials_input_error Mock.runtime Mock.service
                Mock.someContext (initial Mock.someWorld)) as [_ H].
    apply H. left. eexists. reflexivity.
Defined.

(** A dry run on a service without credentials. *)
Lemma dry_run_after_credentials_witness :
  handler Mock.runtime Mock.service Mock.dryRunContext
    (initial (Mock.withCredentials None Mock.someWorld))
  = ({| world := Mock.withCredentials None Mock.someWorld;
        calls := [CallGetCredentials "https://dev.azure.com/my-org"];
        outputs := []; logs := [] |},
     inl (InputError missingCredentials)).
Proof.
  destruct (dry_run_after_credentials Mock.runtime Mock.service
              Mock.dryRunContext (Mock.withCredentials None Mock.someWorld))
    as [H _]; [reflexivity|].
  apply H; reflexivity.
Defined.

(** A dry run on a service with credentials. *)
Lemma dry_run_outputs_witness :
  let st' := fst (handler Mock.runtime Mock.service Mock.dryRunContext
                    (initial Mock.someWorld)) in
  calls st' = [CallGetCredentials "https://dev.azure.com/my-org";
               CallGetGitApi "https://dev.azure.com/my-org"
                 (PersonalAccessTokenHandler "secret")]
  /\ outputs st'
     = [("pullRequestUrl",
         OutString "https://mocked-url/my-org/my project/my-repo/pullrequest/123");
        ("pullRequestId", OutNumber 123)].
Proof.
  destruct (dry_run_outputs Mock.runtime Mock.service Mock.dryRunContext
              Mock.someWorld Mock.someWorld Mock.someWorld
              (Some {| cred_type := "pat"; cred_token := "secret" |})
              (PersonalAccessTokenHandler "secret"))
    as (_ & _ & Hc & _ & Ho);
    [reflexivity | reflexivity | left; discriminate | reflexivity
    | reflexivity |].
  split; [exact Hc | exact Ho].
Defined.

(** C6, as stated, fails: a dry run for which neither credentials nor a
    token are at hand ends with the [InputError] and reports neither mocked
    output. *)
Lemma dry_run_without_credentials_counterexample :
  isDryRun Mock.dryRunContext = true
  /\ snd (handler Mock.runtime Mock.service Mock.dryRunContext
            (initial (Mock.withCredentials None Mock.someWorld)))
     = inl (InputError missingCredentials)
  /\ outputs (fst (handler Mock.runtime Mock.service Mock.dryRunContext
                     (initial (Mock.withCredentials None Mock.someWorld))))
     = [].
Proof. repeat split. Qed.

(** An absolute entry path under the file root, a relative one, and an
    empty file: the call returns two changes, at the joined paths. *)
Lemma generateGitChanges_remote_path_witness :
  exists out,
    generateGitChanges Mock.runtime
      [ {| entry_path := "/tmp/ws/src/index.ts";
           entry_content := Some [x48; x69]%byte |};
        {| entry_path := "empty.txt"; entry_content := Some [] |};
        {| entry_path := "README.md";
           entry_content := Some [x48; x69]%byte |} ]
      "/tmp/ws" (Some "docs") = inr out
    /\ map item_path out = ["/docs/src/index.ts"; "/docs/README.md"].
Proof.
  destruct (generateGitChanges_remote_path Mock.runtime "/tmp/ws" (Some "docs")
              [ {| entry_path := "/tmp/ws/src/index.ts";
                   entry_content := Some [x48; x69]%byte |};
                {| entry_path := "empty.txt"; entry_content := Some [] |};
                {| entry_path := "README.md";
                   entry_content := Some [x48; x69]%byte |} ])
    as [H _].
  destruct H as (out & Hout & Hmap & _);
    [repeat constructor; discriminate|].
  exists out. split; [exact Hout|]. rewrite Hmap. vm_compute. reflexivity.
Defined.

(** Two entries with a content, one of them empty. *)
Lemma generateGitChanges_filters_witness :
  exists out,
    generateGitChanges Mock.runtime
      [ {| entry_path := "/tmp/ws/src/index.ts";
           entry_content := Some [x48; x69]%byte |};
        {| entry_path := "empty.txt"; entry_content := Some [] |} ]
      "/tmp/ws" (Some "docs") = inr out
    /\ List.length out <= 2.
Proof.
  destruct (generateGitChanges_filters Mock.runtime "/tmp/ws" (Some "docs")
              [ {| entry_path := "/tmp/ws/src/index.ts";
                   entry_content := Some [x48; x69]%byte |};
                {| entry_path := "empty.txt"; entry_content := Some [] |} ])
    as (out & H & Hlen & _).
  - repeat constructor; discriminate.
  - exists out. split; [exact H | exact Hlen].
Defined.

(** C3, as stated, fails: an entry with no [content] property is not
    dropped, the call ends with a [TypeError] and returns no list at all. *)
Lemma generateGitChanges_absent_content_counterexample :
  generateGitChanges Mock.runtime
    [ {| entry_path := "README.md"; entry_content := Some [x48; x69]%byte |};
      {| entry_path := "LICENSE"; entry_content := None |} ]
    "/tmp/ws" None
  = inl (TypeError "Cannot read properties of undefined (reading 'toString')")
  /\ forall out,
       generateGitChanges Mock.runtime
         [ {| entry_path := "README.md"; entry_content := Some [x48; x69]%byte |};
           {| entry_path := "LICENSE"; entry_content := None |} ]
         "/tmp/ws" None
       <> inr out.
Proof. split; [reflexivity | discriminate]. Qed.

(* ===================================================================== *)
(** * Following a run of the handler *)
(* ===================================================================== *)

Section Runs.

Context {W : Type}.
Variable rt : Runtime.
Variable api : Collaborators W.

Lemma bind_assoc {A B C : Type} (m : M W A) (f : A -> M W B)
    (g : B -> M W C) st :
  bind (bind m f) g st = bind m (fun a => bind (f a) g) st.
Proof. unfold bind. destruct (m st) as [st' [e|a]]; reflexivity. Qed.

Lemma bind_ret_l {A B : Type} (a : A) (k : A -> M W B) st :
  bind (ret a) k st = k a st.
Proof. reflexivity. Qed.

Lemma bind_ext {A B : Type} (m : M W A) (f g : A -> M W B) st :
  (forall a st', f a st' = g a st') -> bind m f st = bind m g st.
Proof. intros H. unfold bind. destruct (m st) as [st' [e|a]]; auto. Qed.

Lemma issues_callsTo {A : Type} ops op (m : M W A) st :
  issues (among ops) m ->
  existsb (Operation_eqb op) ops = false ->
  callsTo op (calls (fst (m st))) = callsTo op (calls st).
Proof.
  intros Hm Hop. destruct (Hm st) as (extra & -> & F).
  rewrite callsTo_app, (callsTo_among ops op extra F Hop), app_nil_r.
  reflexivity.
Qed.

Lemma issues_callsTo_run {A : Type} ops op (m : M W A) st st' r :
  issues (among ops) m ->
  m st = (st', r) ->
  existsb (Operation_eqb op) ops = false ->
  callsTo op (calls st') = callsTo op (calls st).
Proof.
  intros Hm Hrun Hop. rewrite <- (issues_callsTo ops op m st Hm Hop).
  rewrite Hrun. reflexivity.
Qed.

(** The calls to [op] are those of the first part of a computation when
    what follows never calls [op]. *)
Lemma callsTo_bind {A B : Type} ops op (m : M W A) (k : A -> M W B) st :
  (forall a, issues (among ops) (k a)) ->
  existsb (Operation_eqb op) ops = false ->
  callsTo op (calls (fst (bind m k st))) = callsTo op (calls (fst (m st))).
Proof.
  intros Hk Hop. unfold bind. destruct (m st) as [st' [e|a]]; simpl.
  - reflexivity.
  - apply issues_callsTo with (ops := ops); auto.
Qed.

Lemma silent_run {A : Type} (m : M W A) st st' r :
  silent m -> m st = (st', r) -> outputs st' = outputs st.
Proof. intros Hm Hrun. rewrite <- (Hm st), Hrun. reflexivity. Qed.

(** A run that is not a dry run and has its client goes on with the
    publication and the pull request. *)
Lemma handler_publishes ctx st st1 url :
  isDryRun ctx = false ->
  resolveClient api ctx st = (st1, inr url) ->
  handler rt api ctx st
  = bind (publishChanges rt api ctx)
      (fun l => createOrReusePullRequest rt api ctx url (repository l)
                  (resolvedTargetBranchName l)) st1.
Proof.
  intros Hdry Hc. unfold handler. cbv zeta.
  rewrite (bind_ok _ _ _ _ _ Hc), Hdry. reflexivity.
Qed.

(** The same run, from the point where the repository and the target
    branch are known. *)
Lemma publishChanges_from_repository ctx st1 st2 repository target
    {B : Type} (k : Locals -> M W B) :
  resolveRepository api ctx st1 = (st2, inr (repository, target)) ->
  bind (publishChanges rt api ctx) k st1
  = bind (ensureSourceBranch rt api ctx repository target)
      (fun flag =>
         bind (readChanges rt api ctx)
           (fun dc =>
              bind (pushChanges rt api ctx
                      {| repository := repository;
                         resolvedTargetBranchName := target;
                         sourceBranchDoesNotExist := flag;
                         directoryContents := fst dc;
                         changeList := snd dc |})
                (fun _ =>
                   k {| repository := repository;
                        resolvedTargetBranchName := target;
                        sourceBranchDoesNotExist := flag;
                        directoryContents := fst dc;
                        changeList := snd dc |}))) st2.
Proof.
  intros Hr. unfold publishChanges, prepareChanges.
  rewrite !bind_assoc, (bind_ok _ _ _ _ _ Hr). cbv beta iota.
  rewrite !bind_assoc. apply bind_ext. intros flag st3.
  rewrite !bind_assoc. apply bind_ext. intros [dc changes] st4.
  cbv beta iota. rewrite bind_ret_l, !bind_assoc. apply bind_ext.
  intros [] st5. rewrite bind_ret_l. reflexivity.
Qed.

End Runs.

(* ===================================================================== *)
(** * Creation of the source branch *)
(* ===================================================================== *)

Section SourceBranch.

Context {W : Type}.
Variable rt : Runtime.
Variable api : Collaborators W.

(** What follows the source-branch stage reads the directory, looks
    branches up, pushes and handles the pull request: it never updates a
    ref. *)
Lemma after_source_branch_issues ctx url repository target flag :
  issues (among [OpSerializeDirectoryContents; OpGetBranch; OpCreatePush;
                 OpGetPullRequests; OpCreatePullRequest])
    (bind (readChanges rt api ctx)
       (fun dc =>
          bind (pushChanges rt api ctx
                  {| repository := repository;
                     resolvedTargetBranchName := target;
                     sourceBranchDoesNotExist := flag;
                     directoryContents := fst dc;
                     changeList := snd dc |})
            (fun _ =>
               createOrReusePullRequest rt api ctx url repository target))).
Proof.
  apply issues_bind.
  - eapply issues_incl; [|apply readChanges_issues].
    intros x Hx; simpl in *; tauto.
  - intros dc. apply issues_bind.
    + eapply issues_incl; [|apply pushChanges_issues].
      intros x Hx; simpl in *; tauto.
    + intros _. eapply issues_incl; [|apply createOrReusePullRequest_issues].
      intros x Hx; simpl in *; tauto.
Qed.

(** C7 (amended).  In a run with [createSourceBranch] set that reaches the
    source-branch stage: when the lookup of the source branch finds the
    branch, the whole run issues no [updateRefs] call; when the lookup
    fails (the promise rejects) and the target branch has a latest commit,
    the whole run issues exactly one [updateRefs] call, carrying exactly
    one ref update whose name is ["refs/heads/<sourceBranchName>"], whose
    old object id is the all-zero sentinel and whose new object id is the
    commit id of the target branch's latest commit; when the lookup fails
    and the target branch has no latest commit (no branch, a branch without
    a commit, or a rejected lookup), the whole run issues no [updateRefs]
    call and ends with the failure of that lookup.  (A lookup of the source
    branch that resolves to nothing is none of these cases: it is not
    caught, and no ref update is issued.) *)
Theorem source_branch_creation (ctx : Context) (w : W) (st1 st2 : State W)
    (url : string) (repository : GitRepository) (target : string) :
  Js.truthy_bool (createSourceBranch (input ctx)) = true ->
  isDryRun ctx = false ->
  resolveClient api ctx (initial w) = (st1, inr url) ->
  resolveRepository api ctx st1 = (st2, inr (repository, target)) ->
  let i := input ctx in
  let trace := calls (fst (handler rt api ctx (initial w))) in
  (forall w3 branch,
     getBranch api (repo i) (sourceBranchName i) (project i) (world st2)
     = (w3, inr (Some branch)) ->
     callsTo OpUpdateRefs trace = [])
  /\ (forall w3 reason w4 c,
        getBranch api (repo i) (sourceBranchName i) (project i) (world st2)
        = (w3, inl reason) ->
        getBranch api (repo i) target (project i) w3
        = (w4, inr (Some {| commit := Some c |})) ->
        callsTo OpUpdateRefs trace
        = [CallUpdateRefs
             [ {| ref_name := "refs/heads/" ++ sourceBranchName i;
                  oldObjectId :=
                    Some "0000000000000000000000000000000000000000";
                  newObjectId := commitId c |} ]
             (repo_id repository) (project i)])
  /\ (forall w3,
        getBranch api (repo i) (sourceBranchName i) (project i) (world st2)
        = (w3, inr None) ->
        callsTo OpUpdateRefs trace = [])
  /\ (forall w3 reason w4 answer,
        getBranch api (repo i) (sourceBranchName i) (project i) (world st2)
        = (w3, inl reason) ->
        getBranch api (repo i) target (project i) w3 = (w4, inr answer) ->
        answer = None \/ answer = Some {| commit := None |} ->
        callsTo OpUpdateRefs trace = []
        /\ snd (handler rt api ctx (initial w))
           = inl (Error ("Branch " ++ target ++ " not found in repository "
                           ++ repo i ++ ".")))
  /\ (forall w3 reason w4 rejection,
        getBranch api (repo i) (sourceBranchName i) (project i) (world st2)
        = (w3, inl reason) ->
        getBranch api (repo i) target (project i) w3 = (w4, inl rejection) ->
        callsTo OpUpdateRefs trace = []
        /\ snd (handler rt api ctx (initial w)) = inl (Thrown rejection)).
Proof.
  intros Hcreate Hdry Hc Hr. cbv zeta.
  assert (Hbefore : callsTo OpUpdateRefs (calls st2) = []).
  { rewrite (issues_callsTo_run _ OpUpdateRefs _ _ _ _
               (resolveRepository_issues api ctx) Hr eq_refl).
    rewrite (issues_callsTo_run _ OpUpdateRefs _ _ _ _
               (resolveClient_issues api ctx) Hc eq_refl).
    reflexivity. }
  refine (conj _ (conj _ (conj _ (conj _ _)))).
  1-3: rewrite (handler_publishes rt api ctx _ _ _ Hdry Hc);
    rewrite (publishChanges_from_repository rt api ctx _ _ _ _ _ Hr);
    cbv beta;
    (rewrite (callsTo_bind
                [OpSerializeDirectoryContents; OpGetBranch; OpCreatePush;
                 OpGetPullRequests; OpCreatePullRequest] OpUpdateRefs);
     [|intros flag; apply after_source_branch_issues | reflexivity]);
    unfold ensureSourceBranch, getLatestCommit; rewrite Hcreate; cbv zeta;
    unfold try_catch, bind, await, log, ret, throw; simpl.
  - intros w3 branch Hprobe. rewrite Hprobe. simpl.
    rewrite callsTo_app, Hbefore. reflexivity.
  - intros w3 reason w4 c Hprobe Hlatest. rewrite Hprobe. simpl.
    rewrite Hlatest. simpl.
    destruct (updateRefs api _ (repo_id repository) (project (input ctx)) w4)
      as [w5 [reason'|[]]]; simpl;
      rewrite !callsTo_app, Hbefore; reflexivity.
  - intros w3 Hprobe. rewrite Hprobe. simpl.
    rewrite callsTo_app, Hbefore. reflexivity.
  - intros w3 reason w4 answer Hprobe Hlatest Hanswer.
    remember (handler rt api ctx (initial w)) as final eqn:Hfinal.
    rewrite (handler_publishes rt api ctx _ _ _ Hdry Hc) in Hfinal.
    rewrite (publishChanges_from_repository rt api ctx _ _ _ _ _ Hr)
      in Hfinal.
    unfold bind at 1 in Hfinal.
    unfold ensureSourceBranch, getLatestCommit in Hfinal.
    rewrite Hcreate in Hfinal. cbv zeta in Hfinal.
    unfold try_catch, bind, await, log, ret, throw in Hfinal.
    simpl in Hfinal. rewrite Hprobe in Hfinal. simpl in Hfinal.
    rewrite Hlatest in Hfinal.
    destruct Hanswer as [-> | ->]; simpl in Hfinal; subst final; simpl;
      rewrite !callsTo_app, Hbefore; split; reflexivity.
  - intros w3 reason w4 rejection Hprobe Hlatest.
    remember (handler rt api ctx (initial w)) as final eqn:Hfinal.
    rewrite (handler_publishes rt api ctx _ _ _ Hdry Hc) in Hfinal.
    rewrite (publishChanges_from_repository rt api ctx _ _ _ _ _ Hr)
      in Hfinal.
    unfold bind at 1 in Hfinal.
    unfold ensureSourceBranch, getLatestCommit in Hfinal.
    rewrite Hcreate in Hfinal. cbv zeta in Hfinal.
    unfold try_catch, bind, await, log, ret, throw in Hfinal.
    simpl in Hfinal. rewrite Hprobe in Hfinal. simpl in Hfinal.
    rewrite Hlatest in Hfinal. simpl in Hfinal. subst final. simpl.
    rewrite !callsTo_app, Hbefore. split; reflexivity.
Qed.

End SourceBranch.

(** The source branch is missing from [Mock.someWorld] and is created from
    [main]. *)
Lemma source_branch_creation_witness :
  callsTo OpUpdateRefs
    (calls (fst (handler Mock.runtime Mock.service Mock.someContext
                   (initial Mock.someWorld))))
  = [CallUpdateRefs
       [ {| ref_name := "refs/heads/feature";
            oldObjectId := Some "0000000000000000000000000000000000000000";
            newObjectId := Some "aaaa" |} ]
       (Some "repo-1") "my project"].
Proof.
  destruct (source_branch_creation Mock.runtime Mock.service Mock.someContext
              Mock.someWorld
              (fst (resolveClient Mock.service Mock.someContext
                      (initial Mock.someWorld)))
              (fst (resolveRepository Mock.service Mock.someContext
                      (fst (resolveClient Mock.service Mock.someContext
                              (initial Mock.someWorld)))))
              "https://dev.azure.com/my-org"
              {| repo_id := Some "repo-1";
                 defaultBranch := Some "refs/heads/main" |}
              "main")
    as (_ & H & _); [reflexivity | reflexivity | reflexivity | reflexivity |].
  apply (H Mock.someWorld "branch feature does not exist" Mock.someWorld
           {| commitId := Some "aaaa" |}); reflexivity.
Defined.

(** C7, as stated, fails: [createSourceBranch] is set and the lookup of the
    source branch fails, but the repository has no target branch either, so
    the lookup of its latest commit, awaited while the ref update is built,
    fails first: the run ends with that failure and issues no ref update,
    not exactly one. *)
Lemma source_branch_creation_counterexample :
  createSourceBranch (input Mock.someContext) = Some true
  /\ getBranch Mock.service "my-repo" "feature" "my project" Mock.noBranches
     = (Mock.noBranches, inl "branch feature does not exist")
  /\ callsTo OpGetBranch
       (calls (fst (handler Mock.runtime Mock.service Mock.someContext
                      (initial Mock.noBranches))))
     = [CallGetBranch "my-repo" "feature" "my project";
        CallGetBranch "my-repo" "main" "my project"]
  /\ callsTo OpUpdateRefs
       (calls (fst (handler Mock.runtime Mock.service Mock.someContext
                      (initial Mock.noBranches))))
     = []
  /\ snd (handler Mock.runtime Mock.service Mock.someContext
            (initial Mock.noBranches))
     = inl (Thrown "branch main does not exist").
Proof.
  split; [reflexivity|].
  split; [vm_compute; reflexivity|].
  split; [vm_compute; reflexivity|].
  split; vm_compute; reflexivity.
Qed.

(* ===================================================================== *)
(** * The push *)
(* ===================================================================== *)

Section Push.

Context {W : Type}.
Variable rt : Runtime.
Variable api : Collaborators W.

Lemma callsTo_In op c (trace : list Call) :
  In c trace -> operation c = op -> In c (callsTo op trace).
Proof.
  intros Hin Hop. apply filter_In. split; [exact Hin|].
  rewrite Hop. destruct op; reflexivity.
Qed.

(** No push is sent before the push stage. *)
Lemma no_push_before ctx w st1 url st4 l :
  resolveClient api ctx (initial w) = (st1, inr url) ->
  prepareChanges rt api ctx st1 = (st4, inr l) ->
  callsTo OpCreatePush (calls st4) = [].
Proof.
  intros Hc Hp.
  rewrite (issues_callsTo_run _ OpCreatePush _ _ _ _
             (prepareChanges_issues rt api ctx) Hp eq_refl).
  rewrite (issues_callsTo_run _ OpCreatePush _ _ _ _
             (resolveClient_issues api ctx) Hc eq_refl).
  reflexivity.
Qed.

Lemma pushChanges_base ctx l st :
  pushChanges rt api ctx l st
  = bind (getLatestCommit api ctx (pushBase ctx l))
      (fun old =>
         if Nat.eqb (List.length (changeList l)) 0 then
           throw (Error "No changes to push. The changes array is empty.")
         else
           bind (log Debug [stringify_push rt (buildPush rt ctx l old)])
             (fun _ =>
                await
                  (CallCreatePush (buildPush rt ctx l old)
                     (repo_id (repository l)) (project (input ctx)))
                  (createPush api (buildPush rt ctx l old)
                     (repo_id (repository l)) (project (input ctx))))) st.
Proof.
  unfold pushChanges, pushBase. cbv zeta.
  destruct (Js.truthy_bool (sourceBranchDoesNotExist l)); reflexivity.
Qed.

(** With an empty change list the push stage ends after the lookup of the
    base commit. *)
Lemma push_empty ctx l {B : Type} (k : Locals -> M W B) st4 :
  changeList l = [] ->
  bind (bind (pushChanges rt api ctx l) (fun _ => ret l)) k st4
  = match getLatestCommit api ctx (pushBase ctx l) st4 with
    | (st5, inl e) => (st5, inl e)
    | (st5, inr _) =>
        (st5, inl (Error "No changes to push. The changes array is empty."))
    end.
Proof.
  intros Hempty. unfold bind. rewrite pushChanges_base. unfold bind.
  rewrite Hempty.
  destruct (getLatestCommit api ctx (pushBase ctx l) st4) as [st5 [e|old]];
    reflexivity.
Qed.

(** The push stage, step by step. *)
Lemma push_run ctx l {B : Type} (k : Locals -> M W B) st4 :
  bind (bind (pushChanges rt api ctx l) (fun _ => ret l)) k st4
  = match getLatestCommit api ctx (pushBase ctx l) st4 with
    | (st5, inl e) => (st5, inl e)
    | (st5, inr old) =>
        if Nat.eqb (List.length (changeList l)) 0 then
          (st5, inl (Error "No changes to push. The changes array is empty."))
        else
          let sent w6 :=
            {| world := w6;
               calls := (calls st5
                         ++ [CallCreatePush (buildPush rt ctx l old)
                               (repo_id (repository l))
                               (project (input ctx))])%list;
               outputs := outputs st5;
               logs := (logs st5
                        ++ [(Debug,
                             [stringify_push rt (buildPush rt ctx l old)])])%list
            |} in
          match createPush api (buildPush rt ctx l old)
                  (repo_id (repository l)) (project (input ctx))
                  (world st5) with
          | (w6, inl reason) => (sent w6, inl (Thrown reason))
          | (w6, inr _) => k l (sent w6)
          end
    end.
Proof.
  unfold bind. rewrite pushChanges_base. unfold bind.
  destruct (getLatestCommit api ctx (pushBase ctx l) st4) as [st5 [e|old]];
    [reflexivity|].
  destruct (Nat.eqb (List.length (changeList l)) 0); [reflexivity|].
  unfold log, await, ret. simpl.
  destruct (createPush api _ _ _ (world st5)) as [w6 [reason|[]]];
    reflexivity.
Qed.

(** C4 (amended).  In a run whose change list is empty after filtering,
    [createPush] is never called and the handler fails: it ends right
    after the lookup of the base commit of the push, with the generic
    error "No changes to push. The changes array is empty." when that
    lookup yields a commit, and with the failure of the lookup
    otherwise. *)
Theorem empty_change_list_never_pushed (ctx : Context) (w : W)
    (st1 st4 : State W) (url : string) (l : Locals) :
  isDryRun ctx = false ->
  resolveClient api ctx (initial w) = (st1, inr url) ->
  prepareChanges rt api ctx st1 = (st4, inr l) ->
  changeList l = [] ->
  let base :=
    if Js.truthy_bool (sourceBranchDoesNotExist l)
    then resolvedTargetBranchName l
    else sourceBranchName (input ctx) in
  let result := handler rt api ctx (initial w) in
  callsTo OpCreatePush (calls (fst result)) = []
  /\ (exists e, snd result = inl e)
  /\ (forall st5 old,
        getLatestCommit api ctx base st4 = (st5, inr old) ->
        result
        = (st5, inl (Error "No changes to push. The changes array is empty.")))
  /\ (forall st5 e,
        getLatestCommit api ctx base st4 = (st5, inl e) ->
        result = (st5, inl e)).
Proof.
  intros Hdry Hc Hp Hempty. cbv zeta.
  fold (pushBase ctx l).
  pose proof (no_push_before ctx w st1 url st4 l Hc Hp) as Hbefore.
  rewrite (handler_publishes rt api ctx _ _ _ Hdry Hc).
  unfold publishChanges.
  rewrite !bind_assoc, (bind_ok _ _ _ _ _ Hp). cbv beta.
  rewrite (push_empty ctx l _ st4 Hempty).
  pose proof (issues_callsTo _ OpCreatePush _ st4
                (getLatestCommit_issues api ctx (pushBase ctx l)) eq_refl)
    as Hlookup.
  destruct (getLatestCommit api ctx (pushBase ctx l) st4)
    as [st5 [e|old]]; simpl in *.
  - split; [congruence|]. split; [exists e; reflexivity|]. split.
    + intros st5' old [= _ Hcontra].
    + intros st5' e' [= <- <-]. reflexivity.
  - split; [congruence|]. split; [eexists; reflexivity|]. split.
    + intros st5' old' [= <- _]. reflexivity.
    + intros st5' e' [= _ Hcontra].
Qed.

End Push.

(** A workspace that holds one empty file. *)
Lemma empty_change_list_never_pushed_witness :
  callsTo OpCreatePush
    (calls (fst (handler Mock.runtime Mock.service Mock.someContext
                   (initial (Mock.withFiles [Mock.gitkeep] Mock.someWorld)))))
  = []
  /\ exists e,
       snd (handler Mock.runtime Mock.service Mock.someContext
              (initial (Mock.withFiles [Mock.gitkeep] Mock.someWorld)))
       = inl e.
Proof.
  destruct (empty_change_list_never_pushed Mock.runtime Mock.service
              Mock.someContext (Mock.withFiles [Mock.gitkeep] Mock.someWorld)
              (fst (resolveClient Mock.service Mock.someContext
                      (initial (Mock.withFiles [Mock.gitkeep] Mock.someWorld))))
              (fst (prepareChanges Mock.runtime Mock.service Mock.someContext
                      (fst (resolveClient Mock.service Mock.someContext
                              (initial (Mock.withFiles [Mock.gitkeep]
                                          Mock.someWorld))))))
              "https://dev.azure.com/my-org"
              {| repository := {| repo_id := Some "repo-1";
                                  defaultBranch := Some "refs/heads/main" |};
                 resolvedTargetBranchName := "main";
                 sourceBranchDoesNotExist := Some true;
                 directoryContents := [Mock.gitkeep];
                 changeList := [] |})
    as (H1 & H2 & _);
    [reflexivity | vm_compute; reflexivity | vm_compute; reflexivity
    | reflexivity |].
  split; [exact H1 | exact H2].
Defined.

(** C4, as stated, fails: the workspace holds one empty file, so the change
    list is empty after filtering, and the source branch to append to does
    not exist; the handler ends with the error of the branch lookup, not
    with the error on the empty change list. *)
Lemma empty_change_list_counterexample :
  generateGitChanges Mock.runtime
    (map entryOf (Mock.files Mock.emptyWorkspace)) "/tmp/ws"
    (targetPath Mock.appendInput) = inr []
  /\ match snd (prepareChanges Mock.runtime Mock.service Mock.appendContext
                  (fst (resolveClient Mock.service Mock.appendContext
                          (initial Mock.emptyWorkspace)))) with
     | inr l => changeList l = []
     | inl _ => False
     end
  /\ snd (handler Mock.runtime Mock.service Mock.appendContext
            (initial Mock.emptyWorkspace))
     = inl (Error "Branch feature not found in repository my-repo.")
  /\ snd (handler Mock.runtime Mock.service Mock.appendContext
            (initial Mock.emptyWorkspace))
     <> inl (Error "No changes to push. The changes array is empty.").
Proof.
  split; [vm_compute; reflexivity|].
  split; [vm_compute; reflexivity|].
  split; [vm_compute; reflexivity|].
  vm_compute. discriminate.
Qed.

Section PushContents.

Context {W : Type}.
Variable rt : Runtime.
Variable api : Collaborators W.

(** The value left in [sourceBranchDoesNotExist]: it is truthy exactly
    when [createSourceBranch] is set and the existence probe did not
    resolve to a branch. *)
Lemma ensureSourceBranch_flag ctx repository target st2 st3 flag :
  ensureSourceBranch rt api ctx repository target st2 = (st3, inr flag) ->
  Js.truthy_bool flag = true <->
  Js.truthy_bool (createSourceBranch (input ctx)) = true
  /\ forall w' b,
       getBranch api (repo (input ctx)) (sourceBranchName (input ctx))
         (project (input ctx)) (world st2) <> (w', inr (Some b)).
Proof.
  unfold ensureSourceBranch. cbv zeta.
  destruct (Js.truthy_bool (createSourceBranch (input ctx))) eqn:Hcreate.
  - unfold try_catch, bind, await, log, ret. simpl.
    destruct (getBranch api _ _ _ (world st2)) as [w3 [reason|[b|]]]; simpl.
    + destruct (getLatestCommit api ctx target _) as [st' [e|latest]];
        [discriminate|].
      destruct (updateRefs api _ _ _ _) as [w5 [reason'|[]]]; simpl;
        [discriminate|].
      intros [= _ <-]. split; [intros _; split; [reflexivity|]|auto].
      intros w' b'; discriminate.
    + intros [= _ <-]. simpl. split; [discriminate|].
      intros [_ H]. exfalso. apply (H w3 b). reflexivity.
    + intros [= _ <-]. split; [intros _; split; [reflexivity|]|auto].
      intros w' b'; discriminate.
  - intros [= _ <-]. rewrite Hcreate. split; [discriminate|].
    intros [H _]; discriminate.
Qed.

(** The change list of a run is what [generateGitChanges] makes of the
    directory read. *)
Lemma readChanges_changes ctx st3 st4 dc changes :
  readChanges rt api ctx st3 = (st4, inr (dc, changes)) ->
  exists fileRoot,
    generateGitChanges rt (map entryOf dc) fileRoot (targetPath (input ctx))
    = inr changes.
Proof.
  unfold readChanges. cbv zeta.
  destruct (Js.truthy_string (sourcePath (input ctx)));
    [destruct (resolveSafeChildPath rt _ _) as [reason|p]|];
    unfold bind, throw, ret, await, lift; simpl; try discriminate;
    (destruct (serializeDirectoryContents api _ _) as [w' [reason'|files]];
     simpl; [discriminate|];
     destruct (generateGitChanges rt (map entryOf files) _ _)
       as [e|cs] eqn:Hg; [discriminate|];
     intros [= _ <- <-]; eexists; exact Hg).
Qed.

Lemma prepareChanges_run ctx st1 st2 st3 st4 repository target flag dc changes :
  resolveRepository api ctx st1 = (st2, inr (repository, target)) ->
  ensureSourceBranch rt api ctx repository target st2 = (st3, inr flag) ->
  readChanges rt api ctx st3 = (st4, inr (dc, changes)) ->
  prepareChanges rt api ctx st1
  = (st4, inr {| repository := repository;
                 resolvedTargetBranchName := target;
                 sourceBranchDoesNotExist := flag;
                 directoryContents := dc;
                 changeList := changes |}).
Proof.
  intros Hr He Hread. unfold prepareChanges.
  rewrite (bind_ok _ _ _ _ _ Hr). cbv beta iota.
  rewrite (bind_ok _ _ _ _ _ He), (bind_ok _ _ _ _ _ Hread). reflexivity.
Qed.

(** The contents of the push.  In a run that is not a dry run and that
    sends a push: exactly one push is sent, to the resolved repository and
    project; it holds exactly one ref update, naming
    ["refs/heads/<sourceBranchName>"], whose old object id is the latest
    commit of the target branch when [createSourceBranch] is set and the
    existence probe did not find the source branch, and the latest commit of
    the source branch otherwise; and it holds exactly one commit, whose
    comment is the [commitMessage] input when that is a non-empty string and
    otherwise the automated message, which lists the base names of all the
    files read from the directory, and whose changes are the non-empty list
    that [generateGitChanges] made of that directory. *)
Theorem push_contents (ctx : Context) (w : W) (st1 st2 st3 st4 : State W)
    (url : string) (found : GitRepository) (target : string)
    (flag : option bool) (dc : list SerializedFile)
    (built : list GitChange)
    (push : GitPush) (rid : option string) (proj : string) :
  isDryRun ctx = false ->
  resolveClient api ctx (initial w) = (st1, inr url) ->
  resolveRepository api ctx st1 = (st2, inr (found, target)) ->
  ensureSourceBranch rt api ctx found target st2 = (st3, inr flag) ->
  readChanges rt api ctx st3 = (st4, inr (dc, built)) ->
  In (CallCreatePush push rid proj)
     (calls (fst (handler rt api ctx (initial w)))) ->
  let i := input ctx in
  (Js.truthy_bool flag = true <->
   Js.truthy_bool (createSourceBranch i) = true
   /\ forall w' b,
        getBranch api (repo i) (sourceBranchName i) (project i) (world st2)
        <> (w', inr (Some b)))
  /\ callsTo OpCreatePush (calls (fst (handler rt api ctx (initial w))))
     = [CallCreatePush push rid proj]
  /\ rid = repo_id found
  /\ proj = project i
  /\ (exists st5 old,
        getLatestCommit api ctx
          (if Js.truthy_bool flag then target else sourceBranchName i) st4
        = (st5, inr old)
        /\ refUpdates push
           = [ {| ref_name := "refs/heads/" ++ sourceBranchName i;
                  oldObjectId := old;
                  newObjectId := None |} ])
  /\ commits push
     = [ {| comment :=
              match commitMessage i with
              | Some (String a s) => String a s
              | _ =>
                  "Automated commit from Backstage scaffolder. Added files: "
                    ++ String.concat ", "
                         (map (fun f => path_basename rt (file_path f)) dc)
              end;
            changes := built |} ]
  /\ built <> []
  /\ exists fileRoot,
       generateGitChanges rt (map entryOf dc) fileRoot (targetPath i)
       = inr built.
Proof.
  intros Hdry Hc Hr He Hread Hin. cbv zeta.
  split; [exact (ensureSourceBranch_flag ctx _ _ _ _ _ He)|].
  pose proof (prepareChanges_run ctx _ _ _ _ _ _ _ _ _ Hr He Hread) as Hp.
  set (l := {| repository := found;
               resolvedTargetBranchName := target;
               sourceBranchDoesNotExist := flag;
               directoryContents := dc;
               changeList := built |}) in *.
  pose proof (no_push_before rt api ctx w st1 url st4 l Hc Hp) as Hbefore.
  revert Hin.
  rewrite (handler_publishes rt api ctx _ _ _ Hdry Hc).
  unfold publishChanges.
  rewrite !bind_assoc, (bind_ok _ _ _ _ _ Hp). cbv beta.
  rewrite push_run.
  change (pushBase ctx l)
    with (if Js.truthy_bool flag then target
          else sourceBranchName (input ctx)).
  pose proof (issues_callsTo _ OpCreatePush _ st4
                (getLatestCommit_issues api ctx
                   (if Js.truthy_bool flag then target
                    else sourceBranchName (input ctx))) eq_refl)
    as Hlookup.
  destruct (getLatestCommit api ctx _ st4) as [st5 [e|old]]; simpl in Hlookup.
  { simpl. intros Hin. exfalso.
    apply (callsTo_In OpCreatePush) in Hin; [|reflexivity].
    rewrite Hlookup, Hbefore in Hin. exact Hin. }
  change (changeList l) with built.
  destruct built as [|c0 cs].
  { simpl. intros Hin. exfalso.
    apply (callsTo_In OpCreatePush) in Hin; [|reflexivity].
    rewrite Hlookup, Hbefore in Hin. exact Hin. }
  simpl Nat.eqb. cbv iota zeta.
  assert (Hsent :
    forall st' : State W,
      callsTo OpCreatePush (calls st')
      = callsTo OpCreatePush
          (calls st5 ++ [CallCreatePush (buildPush rt ctx l old)
                           (repo_id found) (project (input ctx))]) ->
      In (CallCreatePush push rid proj) (calls st') ->
      callsTo OpCreatePush (calls st') = [CallCreatePush push rid proj]
      /\ rid = repo_id found
      /\ proj = project (input ctx)
      /\ buildPush rt ctx l old = push).
  { intros st' Hst' Hin.
    apply (callsTo_In OpCreatePush) in Hin; [|reflexivity].
    rewrite Hst', callsTo_app, Hlookup, Hbefore in *. simpl in *.
    destruct Hin as [Heq|[]]. injection Heq as <- <- <-. auto. }
  assert (Hrest :
    forall push0, buildPush rt ctx l old = push0 ->
      (exists st0 old0,
         (st5, @inr Exn _ old) = (st0, inr old0)
         /\ refUpdates push0
            = [ {| ref_name := "refs/heads/" ++ sourceBranchName (input ctx);
                   oldObjectId := old0;
                   newObjectId := None |} ])
      /\ commits push0
         = [ {| comment :=
                  match commitMessage (input ctx) with
                  | Some (String a s) => String a s
                  | _ =>
                      "Automated commit from Backstage scaffolder. Added files: "
                        ++ String.concat ", "
                             (map (fun f => path_basename rt (file_path f)) dc)
                  end;
                changes := c0 :: cs |} ]
      /\ c0 :: cs <> []
      /\ exists fileRoot,
           generateGitChanges rt (map entryOf dc) fileRoot
             (targetPath (input ctx)) = inr (c0 :: cs)).
  { intros push0 <-. split; [exists st5, old; split; reflexivity|].
    split; [|split; [discriminate | exact (readChanges_changes ctx _ _ _ _ Hread)]].
    unfold buildPush, Js.or_string, automatedCommitMessage, Js.join; simpl.
    destruct (commitMessage (input ctx)) as [[|a s]|]; reflexivity. }
  destruct (createPush api (buildPush rt ctx l old) (repo_id (repository l))
              (project (input ctx)) (world st5)) as [w6 [reason|[]]].
  - intros Hin. apply Hsent in Hin; [|reflexivity].
    destruct Hin as (H1 & H2 & H3 & H4). auto.
  - intros Hin. apply Hsent in Hin.
    + destruct Hin as (H1 & H2 & H3 & H4). auto.
    + rewrite (issues_callsTo _ OpCreatePush _ _
                 (createOrReusePullRequest_issues rt api ctx url
                    (repository l) (resolvedTargetBranchName l)) eq_refl).
      reflexivity.
Qed.

End PushContents.

(** The push of [Mock.someContext] in [Mock.someWorld]. *)
Lemma push_contents_witness :
  callsTo OpCreatePush
    (calls (fst (handler Mock.runtime Mock.service Mock.someContext
                   (initial Mock.someWorld))))
  = [CallCreatePush Mock.somePush (Some "repo-1") "my project"]
  /\ commits Mock.somePush
     = [ {| comment :=
              "Automated commit from Backstage scaffolder. Added files: "
                ++ String.concat ", "
                     (map (fun f => Posix.basename (file_path f))
                        [Mock.readme; Mock.gitkeep]);
            changes := [Mock.readmeChange] |} ].
Proof.
  pose (st1 := fst (resolveClient Mock.service Mock.someContext
                      (initial Mock.someWorld))).
  pose (found := {| repo_id := Some "repo-1";
                    defaultBranch := Some "refs/heads/main" |}).
  pose (st2 := fst (resolveRepository Mock.service Mock.someContext st1)).
  pose (st3 := fst (ensureSourceBranch Mock.runtime Mock.service
                      Mock.someContext found "main" st2)).
  pose (st4 := fst (readChanges Mock.runtime Mock.service Mock.someContext st3)).
  destruct (push_contents Mock.runtime Mock.service Mock.someContext
              Mock.someWorld st1 st2 st3 st4 "https://dev.azure.com/my-org"
              found "main" (Some true) [Mock.readme; Mock.gitkeep]
              [Mock.readmeChange] Mock.somePush (Some "repo-1") "my project")
    as (_ & Hone & _ & _ & _ & Hcommit & _);
    [ reflexivity | vm_compute; reflexivity | vm_compute; reflexivity
    | vm_compute; reflexivity | vm_compute; reflexivity
    | vm_compute; repeat first [left; reflexivity | right] | ].
  split; [exact Hone | exact Hcommit].
Defined.

(** C8.  The workspace holds [README.md] and the empty [src/.gitkeep], and
    no commit message is given.  The run sends one push with one ref update
    and one commit; the empty file is filtered out of the change list, so the
    commit changes [/docs/README.md] only, yet the automated message reads
    "Added files: README.md, .gitkeep": it is not the message listing the
    base names of the changed files, which is "Added files: README.md". *)
Lemma push_comment_names_filtered_file :
  commitMessage (input Mock.someContext) = None
  /\ callsTo OpCreatePush
       (calls (fst (handler Mock.runtime Mock.service Mock.someContext
                      (initial Mock.someWorld))))
     = [CallCreatePush Mock.somePush (Some "repo-1") "my project"]
  /\ commits Mock.somePush
     = [ {| comment :=
              "Automated commit from Backstage scaffolder. Added files: README.md, .gitkeep";
            changes := [Mock.readmeChange] |} ]
  /\ spec_automatedCommitMessage Mock.runtime [Mock.readmeChange]
     = "Automated commit from Backstage scaffolder. Added files: README.md"
  /\ "Automated commit from Backstage scaffolder. Added files: README.md, .gitkeep"
     <> spec_automatedCommitMessage Mock.runtime [Mock.readmeChange].
Proof.
  split; [reflexivity|].
  split; [vm_compute; reflexivity|].
  split; [reflexivity|].
  split; [vm_compute; reflexivity|].
  vm_compute. discriminate.
Qed.

(* ===================================================================== *)
(** * The pull request *)
(* ===================================================================== *)

Section PullRequest.

Context {W : Type}.
Variable rt : Runtime.
Variable api : Collaborators W.

Lemma publishChanges_issues ctx :
  issues (among [OpGetRepository; OpGetBranch; OpUpdateRefs;
                 OpSerializeDirectoryContents; OpCreatePush])
    (publishChanges rt api ctx).
Proof.
  unfold publishChanges. apply issues_bind.
  - eapply issues_incl; [|apply prepareChanges_issues].
    intros x Hx; simpl in *; tauto.
  - intros l. apply issues_bind; [|intros _; apply issues_ret].
    eapply issues_incl; [|apply pushChanges_issues].
    intros x Hx; simpl in *; tauto.
Qed.

(** The client stage returns the base URL. *)
Lemma resolveClient_url ctx st st1 url :
  resolveClient api ctx st = (st1, inr url) -> url = baseUrl (input ctx).
Proof.
  unfold resolveClient, bind, await, lift, ret, throw. cbv zeta.
  destruct (getCredentials api _ (world st)) as [w1 [reason|credentials]];
    simpl; [discriminate|].
  destruct (negb (isSome credentials) && _); [discriminate|].
  destruct (authHandler _ credentials) as [e|h]; [discriminate|]. simpl.
  destruct (getGitApi api (baseUrl (input ctx)) h w1) as [w2 [reason|[]]];
    simpl; [discriminate|].
  intros [= _ <-]. reflexivity.
Qed.

(** One run that finds an active pull request for the branch pair. *)
Lemma reuse_existing ctx w st1 url st2 l w3 existing rest :
  isDryRun ctx = false ->
  resolveClient api ctx (initial w) = (st1, inr url) ->
  publishChanges rt api ctx st1 = (st2, inr l) ->
  getPullRequests api (repo_id (repository l))
    {| crit_sourceRefName := "refs/heads/" ++ sourceBranchName (input ctx);
       crit_targetRefName := "refs/heads/" ++ resolvedTargetBranchName l;
       crit_status := Active |}
    (project (input ctx)) (world st2)
  = (w3, inr (Some (existing :: rest))) ->
  callsTo OpCreatePullRequest
    (calls (fst (handler rt api ctx (initial w)))) = []
  /\ world (fst (handler rt api ctx (initial w))) = w3
  /\ (Js.truthy_number (pullRequestId existing) = false ->
      snd (handler rt api ctx (initial w))
      = inl (Error (withoutId rt existing))
      /\ outputs (fst (handler rt api ctx (initial w))) = [])
  /\ (forall id, pullRequestId existing = Some id -> id <> 0%Z ->
      snd (handler rt api ctx (initial w)) = inr tt
      /\ outputs (fst (handler rt api ctx (initial w)))
         = [("pullRequestUrl",
             OutString (getAzureDevOpsPullRequestURL (baseUrl (input ctx))
                          (project (input ctx)) (repo (input ctx)) id));
            ("pullRequestId", OutNumber id)]).
Proof.
  intros Hdry Hc Hp Hget.
  assert (Hcalls : callsTo OpCreatePullRequest (calls st2) = []).
  { rewrite (issues_callsTo_run _ OpCreatePullRequest _ _ _ _
               (publishChanges_issues ctx) Hp eq_refl).
    rewrite (issues_callsTo_run _ OpCreatePullRequest _ _ _ _
               (resolveClient_issues api ctx) Hc eq_refl).
    reflexivity. }
  assert (Hout : outputs st2 = []).
  { rewrite (silent_run _ _ _ _ (publishChanges_silent rt api ctx) Hp).
    rewrite (silent_run _ _ _ _ (resolveClient_silent api ctx) Hc).
    reflexivity. }
  pose proof (resolveClient_url ctx _ _ _ Hc) as ->.
  rewrite (handler_publishes rt api ctx _ _ _ Hdry Hc).
  rewrite (bind_ok _ _ _ _ _ Hp).
  unfold createOrReusePullRequest, reportPullRequest. cbv zeta.
  unfold bind, await. rewrite Hget. simpl.
  destruct (Js.truthy_number (pullRequestId existing)) eqn:Hid; simpl;
    rewrite callsTo_app, Hcalls, Hout; simpl.
  - split; [reflexivity|]. split; [reflexivity|].
    split; [intros Hcontra; discriminate Hcontra|].
    intros id Hsome Hnz. rewrite Hsome. split; reflexivity.
  - split; [reflexivity|]. split; [reflexivity|].
    split; [intros _; split; reflexivity|].
    intros id Hsome Hnz. exfalso. rewrite Hsome in Hid. simpl in Hid.
    apply Hnz. apply Z.eqb_eq.
    destruct (id =? 0)%Z; [reflexivity | discriminate Hid].
Qed.

(** C1.  In a run that reaches the pull-request stage and for which the
    lookup of the active pull requests from
    ["refs/heads/<sourceBranchName>"] to
    ["refs/heads/<resolvedTargetBranchName>"] yields a non-empty list, no
    pull request is created: the first one of the list is taken, the
    handler fails with an [Error] when it has no identifier (none, or 0,
    which JavaScript takes as missing) and otherwise reports its URL and
    its identifier as the two outputs.  A second invocation with the same
    inputs, on the world the first one left, for which the lookup yields
    the same pull request first, creates no pull request either and ends
    with the same result and the same outputs. *)
Theorem existing_pull_request_reused (ctx : Context) (w : W)
    (st1 st2 : State W) (url : string) (l : Locals) (w3 : W)
    (existing : GitPullRequest) (rest : list GitPullRequest) :
  isDryRun ctx = false ->
  resolveClient api ctx (initial w) = (st1, inr url) ->
  publishChanges rt api ctx st1 = (st2, inr l) ->
  getPullRequests api (repo_id (repository l))
    {| crit_sourceRefName := "refs/heads/" ++ sourceBranchName (input ctx);
       crit_targetRefName := "refs/heads/" ++ resolvedTargetBranchName l;
       crit_status := Active |}
    (project (input ctx)) (world st2)
  = (w3, inr (Some (existing :: rest))) ->
  let i := input ctx in
  let first := handler rt api ctx (initial w) in
  callsTo OpCreatePullRequest (calls (fst first)) = []
  /\ (Js.truthy_number (pullRequestId existing) = false ->
      snd first = inl (Error (withoutId rt existing))
      /\ outputs (fst first) = [])
  /\ (forall id, pullRequestId existing = Some id -> id <> 0%Z ->
      snd first = inr tt
      /\ outputs (fst first)
         = [("pullRequestUrl",
             OutString (getAzureDevOpsPullRequestURL (baseUrl i)
                          (project i) (repo i) id));
            ("pullRequestId", OutNumber id)])
  /\ (forall (st1' st2' : State W) (url' : string) (l' : Locals) (w3' : W)
             (rest' : list GitPullRequest),
        let second := handler rt api ctx (initial (world (fst first))) in
        resolveClient api ctx (initial (world (fst first)))
        = (st1', inr url') ->
        publishChanges rt api ctx st1' = (st2', inr l') ->
        getPullRequests api (repo_id (repository l'))
          {| crit_sourceRefName := "refs/heads/" ++ sourceBranchName i;
             crit_targetRefName := "refs/heads/" ++ resolvedTargetBranchName l';
             crit_status := Active |}
          (project i) (world st2')
        = (w3', inr (Some (existing :: rest'))) ->
        callsTo OpCreatePullRequest (calls (fst second)) = []
        /\ snd second = snd first
        /\ outputs (fst second) = outputs (fst first)).
Proof.
  intros Hdry Hc Hp Hget. cbv zeta.
  destruct (reuse_existing ctx w st1 url st2 l w3 existing rest
              Hdry Hc Hp Hget) as (Hnone & Hworld & Hfalsy & Htruthy).
  split; [exact Hnone|]. split; [exact Hfalsy|]. split; [exact Htruthy|].
  intros st1' st2' url' l' w3' rest' Hc' Hp' Hget'.
  destruct (reuse_existing ctx _ st1' url' st2' l' w3' existing rest'
              Hdry Hc' Hp' Hget') as (Hnone' & _ & Hfalsy' & Htruthy').
  split; [exact Hnone'|].
  destruct (Js.truthy_number (pullRequestId existing)) eqn:Hid.
  - destruct (pullRequestId existing) as [id|] eqn:Hsome; [|discriminate].
    assert (Hnz : id <> 0%Z).
    { intros ->. discriminate. }
    destruct (Htruthy id eq_refl Hnz) as [-> ->].
    destruct (Htruthy' id eq_refl Hnz) as [-> ->]. split; reflexivity.
  - destruct (Hfalsy eq_refl) as [-> ->].
    destruct (Hfalsy' eq_refl) as [-> ->]. split; reflexivity.
Qed.

(** C9.  Two invocations whose contexts agree on everything but the
    [teamReviewers] and [update] inputs behave alike: from the same state
    the handler ends with the same result in the same state, that is the
    same calls with the same arguments (hence the same pull request and
    the same create-or-reuse decision), the same outputs and the same log
    lines. *)
Theorem inert_inputs (ctx1 ctx2 : Context) (st : State W) :
  isDryRun ctx1 = isDryRun ctx2 ->
  workspacePath ctx1 = workspacePath ctx2 ->
  withInert (input ctx1) None None = withInert (input ctx2) None None ->
  handler rt api ctx1 st = handler rt api ctx2 st.
Proof.
  destruct ctx1 as [i1 d1 p1], ctx2 as [i2 d2 p2].
  destruct i1, i2. unfold withInert. simpl.
  intros -> -> H. injection H as -> -> -> -> -> -> -> -> -> -> -> -> -> -> ->.
  reflexivity.
Qed.

(** The creation path.  In a run that reaches the pull-request stage and
    for which the lookup of the active pull requests yields no pull request
    (an empty list, or nothing), exactly one [createPullRequest] call is
    issued; it carries the source and target refs, the title, the
    description, the draft flag, the reviewers and the label
    ["devhub-generated"].  When the call resolves, the handler fails with an
    [Error] if the created pull request has no identifier and otherwise
    reports its URL and identifier as the two outputs. *)
Theorem pull_request_created (ctx : Context) (w : W)
    (st1 st2 : State W) (url : string) (l : Locals) (w3 : W)
    (found : option (list GitPullRequest)) :
  isDryRun ctx = false ->
  resolveClient api ctx (initial w) = (st1, inr url) ->
  publishChanges rt api ctx st1 = (st2, inr l) ->
  getPullRequests api (repo_id (repository l))
    {| crit_sourceRefName := "refs/heads/" ++ sourceBranchName (input ctx);
       crit_targetRefName := "refs/heads/" ++ resolvedTargetBranchName l;
       crit_status := Active |}
    (project (input ctx)) (world st2)
  = (w3, inr found) ->
  found = None \/ found = Some [] ->
  let i := input ctx in
  let pullRequest :=
    {| pullRequestId := None;
       sourceRefName := Some ("refs/heads/" ++ sourceBranchName i);
       targetRefName := Some ("refs/heads/" ++ resolvedTargetBranchName l);
       pr_title := Some (title i);
       pr_description := Some (description i);
       isDraft := draft i;
       pr_reviewers := match reviewers i with Some r => r | None => [] end;
       labels := ["devhub-generated"] |} in
  let final := handler rt api ctx (initial w) in
  callsTo OpCreatePullRequest (calls (fst final))
  = [CallCreatePullRequest pullRequest (repo_id (repository l)) (project i)]
  /\ (forall w4 created,
        createPullRequest api pullRequest (repo_id (repository l)) (project i) w3
        = (w4, inr created) ->
        (Js.truthy_number (pullRequestId created) = false ->
         snd final = inl (Error (withoutId rt created))
         /\ outputs (fst final) = [])
        /\ (forall id, pullRequestId created = Some id -> id <> 0%Z ->
            snd final = inr tt
            /\ outputs (fst final)
               = [("pullRequestUrl",
                   OutString (getAzureDevOpsPullRequestURL (baseUrl i)
                                (project i) (repo i) id));
                  ("pullRequestId", OutNumber id)])).
Proof.
  intros Hdry Hc Hp Hget Hnone. cbv zeta.
  assert (Hcalls : callsTo OpCreatePullRequest (calls st2) = []).
  { rewrite (issues_callsTo_run _ OpCreatePullRequest _ _ _ _
               (publishChanges_issues ctx) Hp eq_refl).
    rewrite (issues_callsTo_run _ OpCreatePullRequest _ _ _ _
               (resolveClient_issues api ctx) Hc eq_refl).
    reflexivity. }
  assert (Hout : outputs st2 = []).
  { rewrite (silent_run _ _ _ _ (publishChanges_silent rt api ctx) Hp).
    rewrite (silent_run _ _ _ _ (resolveClient_silent api ctx) Hc).
    reflexivity. }
  assert (Hempty : Js.nullish found [] = [])
    by (destruct Hnone as [->| ->]; reflexivity).
  pose proof (resolveClient_url ctx _ _ _ Hc) as ->.
  remember (handler rt api ctx (initial w)) as final eqn:Hfinal.
  rewrite (handler_publishes rt api ctx _ _ _ Hdry Hc) in Hfinal.
  rewrite (bind_ok _ _ _ _ _ Hp) in Hfinal.
  unfold createOrReusePullRequest, reportPullRequest in Hfinal.
  cbv zeta in Hfinal. unfold bind at 1 in Hfinal. unfold await at 1 in Hfinal.
  rewrite Hget, Hempty in Hfinal. cbv beta iota in Hfinal.
  unfold bind, await, log, output, throw in Hfinal. simpl in Hfinal.
  destruct (createPullRequest api _ (repo_id (repository l))
              (project (input ctx)) w3) as [w4' [reason|created']] eqn:Hcreate.
  - subst final. simpl. rewrite !callsTo_app, Hcalls. split; [reflexivity|].
    intros w4 created Heq. discriminate Heq.
  - cbv beta iota in Hfinal.
    destruct (Js.truthy_number (pullRequestId created')) eqn:Hid;
      simpl in Hfinal; subst final; simpl;
      rewrite !callsTo_app, Hcalls, Hout; (split; [reflexivity|]);
      intros w4 created [= <- <-]; rewrite Hid.
    + split; [intros Hcontra; discriminate Hcontra|].
      intros id Hsome Hnz. rewrite Hsome. split; reflexivity.
    + split; [intros _; split; reflexivity|].
      intros id Hsome Hnz. exfalso. rewrite Hsome in Hid. simpl in Hid.
      apply Hnz. apply Z.eqb_eq.
      destruct (id =? 0)%Z; [reflexivity | discriminate Hid].
Qed.

(** The resolution of the repository and of the target branch.  When
    [getRepository] resolves to nothing the stage fails with an [Error];
    otherwise the target branch is the [targetBranchName] input when that is
    a non-empty string, and else the repository's default branch with the
    first ["refs/heads/"] removed, the stage failing with an [Error] when the
    repository has no default branch. *)
Theorem target_branch_resolution (ctx : Context) (st : State W) (w1 : W)
    (found : option GitRepository) :
  getRepository api (repo (input ctx)) (project (input ctx)) (world st)
  = (w1, inr found) ->
  let i := input ctx in
  let r := snd (resolveRepository api ctx st) in
  match found with
  | None =>
      r = inl (Error ("Repository " ++ repo i ++ " not found in project "
                        ++ project i ++ "."))
  | Some repository =>
      match targetBranchName i with
      | Some (String a t) => r = inr (repository, String a t)
      | _ =>
          match defaultBranch repository with
          | Some (String a d) =>
              r = inr (repository, Js.replace "refs/heads/" "" (String a d))
          | _ =>
              r = inl (Error ("No target branch specified, and the repository "
                                ++ repo i
                                ++ " does not have a default branch."))
          end
      end
  end.
Proof.
  intros Hget. cbv zeta. unfold resolveRepository, bind, await. cbv zeta.
  rewrite Hget. simpl.
  destruct found as [repository|]; [|reflexivity].
  destruct (targetBranchName (input ctx)) as [[|a t]|]; simpl;
    try reflexivity;
    destruct (defaultBranch repository) as [[|a' d]|]; reflexivity.
Qed.

End PullRequest.

(** A second run, on the service the first run left. *)
Lemma existing_pull_request_reused_witness :
  callsTo OpCreatePullRequest
    (calls (fst (handler Mock.runtime Mock.service Mock.someContext
                   (initial Mock.publishedWorld)))) = []
  /\ outputs (fst (handler Mock.runtime Mock.service Mock.someContext
                     (initial Mock.publishedWorld)))
     = [("pullRequestUrl",
         OutString
           "https://dev.azure.com/my-org/my%20project/_git/my-repo/pullrequest/7");
        ("pullRequestId", OutNumber 7)].
Proof.
  pose (st1 := fst (resolveClient Mock.service Mock.someContext
                      (initial Mock.publishedWorld))).
  pose (st2 := fst (publishChanges Mock.runtime Mock.service
                      Mock.someContext st1)).
  destruct (existing_pull_request_reused Mock.runtime Mock.service
              Mock.someContext Mock.publishedWorld st1 st2
              "https://dev.azure.com/my-org"
              {| repository := {| repo_id := Some "repo-1";
                                  defaultBranch := Some "refs/heads/main" |};
                 resolvedTargetBranchName := "main";
                 sourceBranchDoesNotExist := Some false;
                 directoryContents := [Mock.readme; Mock.gitkeep];
                 changeList := [Mock.readmeChange] |}
              (world st2) Mock.pullRequest7 [])
    as (Hnone & _ & Hreport & _);
    [ reflexivity | vm_compute; reflexivity | vm_compute; reflexivity
    | vm_compute; reflexivity | ].
  split; [exact Hnone|].
  destruct (Hreport 7%Z eq_refl) as [_ Hout]; [discriminate|].
  exact Hout.
Defined.

(** The same invocation with and without team reviewers and update flag. *)
Lemma inert_inputs_witness :
  handler Mock.runtime Mock.service Mock.someContext (initial Mock.someWorld)
  = handler Mock.runtime Mock.service Mock.inertContext
      (initial Mock.someWorld).
Proof.
  apply (inert_inputs Mock.runtime Mock.service Mock.someContext
           Mock.inertContext (initial Mock.someWorld)); reflexivity.
Defined.

(* ===================================================================== *)
(** * The test suite of [getAzureDevOpsPullRequestURL] *)
(* ===================================================================== *)

Example url_encodes_project_and_repo :
  getAzureDevOpsPullRequestURL "https://dev.azure.com/my-org" "my project"
    "my repo" 456
  = "https://dev.azure.com/my-org/my%20project/_git/my%20repo/pullrequest/456".
Proof. reflexivity. Qed.

Example url_keeps_dashes_and_underscores :
  getAzureDevOpsPullRequestURL "https://dev.azure.com/my-org"
    "project-with-dashes" "repo_with_underscores" 789
  = "https://dev.azure.com/my-org/project-with-dashes/_git/repo_with_underscores/pullrequest/789".
Proof. reflexivity. Qed.

Example url_other_base :
  getAzureDevOpsPullRequestURL "https://mycompany.visualstudio.com"
    "my-project" "my-repo" 1
  = "https://mycompany.visualstudio.com/my-project/_git/my-repo/pullrequest/1".
Proof. reflexivity. Qed.

Example url_zero_id :
  getAzureDevOpsPullRequestURL "https://dev.azure.com/my-org" "my-project"
    "my-repo" 0
  = "https://dev.azure.com/my-org/my-project/_git/my-repo/pullrequest/0".
Proof. reflexivity. Qed.

Example url_large_id :
  getAzureDevOpsPullRequestURL "https://dev.azure.com/my-org" "my-project"
    "my-repo" 999999
  = "https://dev.azure.com/my-org/my-project/_git/my-repo/pullrequest/999999".
Proof. reflexivity. Qed.

(** The pull request created by [Mock.someContext] in [Mock.someWorld]. *)
Lemma pull_request_created_witness :
  callsTo OpCreatePullRequest
    (calls (fst (handler Mock.runtime Mock.service Mock.someContext
                   (initial Mock.someWorld))))
  = [CallCreatePullRequest
       {| pullRequestId := None;
          sourceRefName := Some "refs/heads/feature";
          targetRefName := Some "refs/heads/main";
          pr_title := Some "Add files";
          pr_description := Some "Generated";
          isDraft := None;
          pr_reviewers := ["ann@example.com"];
          labels := ["devhub-generated"] |}
       (Some "repo-1") "my project"].
Proof.
  pose (st1 := fst (resolveClient Mock.service Mock.someContext
                      (initial Mock.someWorld))).
  pose (st2 := fst (publishChanges Mock.runtime Mock.service
                      Mock.someContext st1)).
  destruct (pull_request_created Mock.runtime Mock.service
              Mock.someContext Mock.someWorld st1 st2
              "https://dev.azure.com/my-org"
              {| repository := {| repo_id := Some "repo-1";
                                  defaultBranch := Some "refs/heads/main" |};
                 resolvedTargetBranchName := "main";
                 sourceBranchDoesNotExist := Some true;
                 directoryContents := [Mock.readme; Mock.gitkeep];
                 changeList := [Mock.readmeChange] |}
              (world st2) (Some []))
    as [Hone _];
    [ reflexivity | vm_compute; reflexivity | vm_compute; reflexivity
    | vm_compute; reflexivity | right; reflexivity | ].
  exact Hone.
Defined.

(** The default branch of the repository of [Mock.someWorld]. *)
Lemma target_branch_resolution_witness :
  snd (resolveRepository Mock.service Mock.someContext (initial Mock.someWorld))
  = inr ({| repo_id := Some "repo-1"; defaultBranch := Some "refs/heads/main" |},
         "main").
Proof.
  exact (target_branch_resolution Mock.service Mock.someContext
           (initial Mock.someWorld) Mock.someWorld
           (Some {| repo_id := Some "repo-1";
                    defaultBranch := Some "refs/heads/main" |})
           eq_refl).
Defined.

(* ===================================================================== *)
(** * The order of the calls *)
(* ===================================================================== *)

Section Protocol.

Context {W : Type}.

Lemma prefixes_nil {A : Type} (l : list A) : In [] (prefixes l).
Proof. destruct l; simpl; auto. Qed.

Lemma prefixes_self {A : Type} (l : list A) : In l (prefixes l).
Proof.
  induction l as [|x l IH]; simpl; [auto|].
  right. apply in_map, IH.
Qed.

Lemma prefixes_app_l {A : Type} (p a b : list A) :
  In p (prefixes a) -> In p (prefixes (a ++ b)%list).
Proof.
  revert p. induction a as [|x a IH]; simpl; intros p H.
  - destruct H as [<-|[]]. apply prefixes_nil.
  - destruct H as [<-|H]; [auto|]. right.
    apply in_map_iff in H as (q & <- & Hq). apply in_map, IH, Hq.
Qed.

Lemma prefixes_app_r {A : Type} (p a b : list A) :
  In p (prefixes b) -> In (a ++ p)%list (prefixes (a ++ b)%list).
Proof.
  induction a as [|x a IH]; simpl; intros H; [exact H|].
  right. apply in_map, IH, H.
Qed.

Lemma sequences_In (A B : list (list Operation)) a b :
  In a A -> In b B -> In (a ++ b)%list (sequences A B).
Proof.
  intros Ha Hb. unfold sequences. apply in_flat_map. exists a. split; [exact Ha|].
  apply in_map_iff. exists b. auto.
Qed.

Lemma full_is_prefix (L : list (list Operation)) ops :
  In ops L -> In ops (flat_map prefixes L).
Proof.
  intros H. apply in_flat_map. exists ops. split; [exact H | apply prefixes_self].
Qed.

Lemma runs_ret {A : Type} (a : A) : runs [[]] (@ret W A a).
Proof. intros st. exists []. simpl. rewrite app_nil_r. auto. Qed.

Lemma runs_throw {A : Type} (e : Exn) : runs [[]] (@throw W A e).
Proof. intros st. exists []. simpl. rewrite app_nil_r. auto. Qed.

Lemma runs_lift {A : Type} (r : Exn + A) : runs [[]] (@lift W A r).
Proof.
  intros st. exists []. simpl. rewrite app_nil_r. destruct r; simpl; auto.
Qed.

Lemma runs_log level args : runs [[]] (@log W level args).
Proof. intros st. exists []. simpl. rewrite app_nil_r. auto. Qed.

Lemma runs_output name v : runs [[]] (@output W name v).
Proof. intros st. exists []. simpl. rewrite app_nil_r. auto. Qed.

Lemma runs_await {A : Type} c (op : W -> W * (string + A)) :
  runs [[operation c]] (await c op).
Proof.
  intros st. exists [c]. unfold await.
  destruct (op (world st)) as [w' [reason|a]]; simpl; auto.
Qed.

Lemma runs_bind {A B : Type} (LA LB : list (list Operation))
    (m : M W A) (k : A -> M W B) :
  LB <> [] ->
  runs LA m -> (forall a, runs LB (k a)) -> runs (sequences LA LB) (bind m k).
Proof.
  intros Hne Hm Hk st. destruct (Hm st) as (x1 & E1 & F1). unfold bind.
  destruct (m st) as [st' [e|a]]; simpl in *.
  - exists x1. split; [exact E1|].
    destruct LB as [|b0 LB]; [congruence|].
    apply in_flat_map in F1 as (a & Ha & Hp).
    apply in_flat_map. exists (a ++ b0)%list. split.
    + apply sequences_In; simpl; auto.
    + apply prefixes_app_l, Hp.
  - destruct (Hk a st') as (x2 & E2 & F2).
    exists (x1 ++ x2)%list. split; [rewrite E2, E1, app_assoc; reflexivity|].
    rewrite map_app. destruct (snd (k a st')).
    + apply in_flat_map in F2 as (b & Hb & Hp).
      apply in_flat_map. exists (map operation x1 ++ b)%list. split.
      * apply sequences_In; assumption.
      * apply prefixes_app_r, Hp.
    + apply sequences_In; assumption.
Qed.

Lemma runs_incl {A : Type} (L L' : list (list Operation)) (m : M W A) :
  incl L L' -> runs L m -> runs L' m.
Proof.
  intros Hi Hm st. destruct (Hm st) as (x & E & F). exists x. split; [exact E|].
  destruct (snd (m st)).
  - apply in_flat_map in F as (a & Ha & Hp). apply in_flat_map.
    exists a. split; [apply Hi, Ha | exact Hp].
  - apply Hi, F.
Qed.

End Protocol.

(** Follows every path of a stage and names the calls of each. *)
Ltac follow_paths :=
  intros st;
  repeat (simpl;
          match goal with
          | |- context [match ?x with _ => _ end] =>
              lazymatch x with
              | context [match _ with _ => _ end] => fail
              | _ => destruct x
              end
          end);
  simpl; eexists;
  (split;
   [ repeat rewrite <- app_assoc; simpl;
     first [reflexivity | symmetry; apply app_nil_r]
   | simpl; repeat first [left; reflexivity | right] ]).

Section StageProtocol.

Context {W : Type}.
Variable rt : Runtime.
Variable api : Collaborators W.
Variable ctx : Context.

Lemma resolveClient_runs :
  runs [[OpGetCredentials; OpGetGitApi]] (resolveClient api ctx).
Proof.
  unfold resolveClient, bind, await, lift, ret, throw. follow_paths.
Qed.

Lemma performDryRun_runs o p r s t ti d :
  runs [[]] (@performDryRun W o p r s t ti d).
Proof.
  unfold performDryRun. cbv zeta.
  eapply runs_incl;
    [|repeat (eapply runs_bind;
              [|first [apply runs_log | apply runs_output]|intro]);
      [..|first [apply runs_log | apply runs_output]];
      simpl; discriminate].
  simpl. apply incl_refl.
Qed.

Lemma resolveRepository_runs :
  runs [[OpGetRepository]] (resolveRepository api ctx).
Proof.
  unfold resolveRepository, bind, await, log, ret, throw. follow_paths.
Qed.

Lemma ensureSourceBranch_runs repository target :
  runs [[]; [OpGetBranch]; [OpGetBranch; OpGetBranch; OpUpdateRefs]]
    (ensureSourceBranch rt api ctx repository target).
Proof.
  unfold ensureSourceBranch, getLatestCommit, try_catch, bind, await, log,
    ret, throw.
  follow_paths.
Qed.

Lemma readChanges_runs :
  runs [[OpSerializeDirectoryContents]] (readChanges rt api ctx).
Proof.
  unfold readChanges, bind, await, lift, ret, throw. follow_paths.
Qed.

Lemma pushChanges_runs l :
  runs [[OpGetBranch; OpCreatePush]] (pushChanges rt api ctx l).
Proof.
  unfold pushChanges, getLatestCommit, bind, await, log, ret, throw.
  follow_paths.
Qed.

Lemma createOrReusePullRequest_runs url repository target :
  runs [[OpGetPullRequests]; [OpGetPullRequests; OpCreatePullRequest]]
    (createOrReusePullRequest rt api ctx url repository target).
Proof.
  unfold createOrReusePullRequest, reportPullRequest, bind, await, log,
    output, ret, throw.
  follow_paths.
Qed.

End StageProtocol.

Section HandlerProtocol.

Context {W : Type}.
Variable rt : Runtime.
Variable api : Collaborators W.

Lemma prepareChanges_runs ctx :
  runs (sequences [[OpGetRepository]]
          (sequences [[]; [OpGetBranch];
                      [OpGetBranch; OpGetBranch; OpUpdateRefs]]
             (sequences [[OpSerializeDirectoryContents]] [[]])))
    (prepareChanges rt api ctx).
Proof.
  unfold prepareChanges.
  apply runs_bind; [discriminate | apply resolveRepository_runs|].
  intros [repository target].
  apply runs_bind; [discriminate | apply ensureSourceBranch_runs|].
  intros flag.
  apply runs_bind; [discriminate | apply readChanges_runs|].
  intros [dc changes]. apply runs_ret.
Qed.

Lemma publishChanges_runs ctx :
  runs (sequences
          (sequences [[OpGetRepository]]
             (sequences [[]; [OpGetBranch];
                         [OpGetBranch; OpGetBranch; OpUpdateRefs]]
                (sequences [[OpSerializeDirectoryContents]] [[]])))
          (sequences [[OpGetBranch; OpCreatePush]] [[]]))
    (publishChanges rt api ctx).
Proof.
  unfold publishChanges.
  apply runs_bind; [discriminate | apply prepareChanges_runs|].
  intros l.
  apply runs_bind; [discriminate | apply pushChanges_runs|].
  intros _. apply runs_ret.
Qed.

(** Every run of the handler follows the protocol. *)
Lemma handler_runs ctx :
  runs (protocol (isDryRun ctx)) (handler rt api ctx).
Proof.
  unfold handler. cbv zeta. destruct (isDryRun ctx).
  - eapply runs_incl;
      [|apply runs_bind;
        [|apply resolveClient_runs|intros url; apply performDryRun_runs];
        discriminate].
    apply incl_refl.
  - eapply runs_incl;
      [|apply runs_bind;
        [|apply resolveClient_runs
         |intros url; apply runs_bind;
          [|apply publishChanges_runs
           |intros l; apply createOrReusePullRequest_runs];
          discriminate];
        vm_compute; discriminate].
    apply incl_refl.
Qed.

Lemma handler_operations ctx w :
  In (map operation (calls (fst (handler rt api ctx (initial w)))))
     (flat_map prefixes (protocol (isDryRun ctx)))
  /\ (forall u, snd (handler rt api ctx (initial w)) = inr u ->
      In (map operation (calls (fst (handler rt api ctx (initial w)))))
         (protocol (isDryRun ctx))).
Proof.
  destruct (handler_runs ctx (initial w)) as (extra & E & F).
  simpl in E. rewrite E. split.
  - destruct (snd (handler rt api ctx (initial w)));
      [exact F | apply full_is_prefix, F].
  - intros u Hu. rewrite Hu in F. exact F.
Qed.

Lemma checked_on_all (P : list Operation -> bool) L ops :
  forallb P L = true -> In ops L -> P ops = true.
Proof. intros HP Hin. rewrite forallb_forall in HP. apply HP, Hin. Qed.

Lemma occurrences_callsTo op (trace : list Call) :
  occurrences op (map operation trace) = List.length (callsTo op trace).
Proof.
  unfold occurrences, callsTo.
  induction trace as [|c trace IH]; simpl; [reflexivity|].
  destruct (Operation_eqb (operation c) op); simpl; rewrite IH; reflexivity.
Qed.

Lemma none_among ops (trace : list Call) :
  forallb (fun o => negb (existsb (Operation_eqb o) ops)) (map operation trace)
  = true ->
  filter (among ops) trace = [].
Proof.
  induction trace as [|c trace IH]; simpl; [reflexivity|].
  intros H. apply andb_prop in H as [Hc H]. unfold among at 1.
  destruct (existsb (Operation_eqb (operation c)) ops); [discriminate|].
  apply IH, H.
Qed.

Lemma none_callsTo op (trace : list Call) :
  forallb (fun o => negb (Operation_eqb o op)) (map operation trace) = true ->
  callsTo op trace = [].
Proof.
  unfold callsTo. induction trace as [|c trace IH]; simpl; [reflexivity|].
  intros H. apply andb_prop in H as [Hc H].
  destruct (Operation_eqb (operation c) op); [discriminate|]. apply IH, H.
Qed.



(** The call protocol.  The operations called by a run of the handler, in
    order, are: in a dry run, [getCredentials] and [getGitApi]; otherwise
    [getCredentials], [getGitApi], [getRepository]; then nothing, or one
    [getBranch], or [getBranch], [getBranch], [updateRefs]; then
    [serializeDirectoryContents], [getBranch], [createPush]; then
    [getPullRequests], followed or not by [createPullRequest].  A run that
    returns has called one of these sequences in full, a run that throws a
    prefix of one. *)
Theorem handler_call_protocol (ctx : Context) (w : W) :
  let final := handler rt api ctx (initial w) in
  let ops := map operation (calls (fst final)) in
  (exists full,
     In full (protocol (isDryRun ctx)) /\ In ops (prefixes full))
  /\ (snd final = inr tt -> In ops (protocol (isDryRun ctx))).
Proof.
  cbv zeta. destruct (handler_operations ctx w) as [Hp Hf]. split.
  - apply in_flat_map in Hp. exact Hp.
  - apply Hf.
Qed.

(** Bounds on the calls.  A run of the handler calls [updateRefs],
    [createPush], [createPullRequest], [getRepository], [getPullRequests]
    and [serializeDirectoryContents] at most once each, and [getBranch] at
    most three times; a dry run calls no operation of the git client and
    does not read the workspace, whatever the credentials and the
    collaborators' answers. *)
Theorem handler_call_bounds (ctx : Context) (w : W) :
  let trace := calls (fst (handler rt api ctx (initial w))) in
  List.length (callsTo OpUpdateRefs trace) <= 1
  /\ List.length (callsTo OpCreatePush trace) <= 1
  /\ List.length (callsTo OpCreatePullRequest trace) <= 1
  /\ List.length (callsTo OpGetRepository trace) <= 1
  /\ List.length (callsTo OpGetPullRequests trace) <= 1
  /\ List.length (callsTo OpSerializeDirectoryContents trace) <= 1
  /\ List.length (callsTo OpGetBranch trace) <= 3
  /\ (isDryRun ctx = true ->
      gitCalls trace = []
      /\ callsTo OpSerializeDirectoryContents trace = []).
Proof.
  cbv zeta. destruct (handler_operations ctx w) as [Hp _].
  set (trace := calls (fst (handler rt api ctx (initial w)))) in *.
  assert (Hbound :
    ((occurrences OpUpdateRefs (map operation trace) <=? 1)
     && (occurrences OpCreatePush (map operation trace) <=? 1)
     && (occurrences OpCreatePullRequest (map operation trace) <=? 1)
     && (occurrences OpGetRepository (map operation trace) <=? 1)
     && (occurrences OpGetPullRequests (map operation trace) <=? 1)
     && (occurrences OpSerializeDirectoryContents (map operation trace) <=? 1)
     && (occurrences OpGetBranch (map operation trace) <=? 3))%nat = true).
  { revert Hp.
    apply (checked_on_all
             (fun ops =>
                (occurrences OpUpdateRefs ops <=? 1)
                && (occurrences OpCreatePush ops <=? 1)
                && (occurrences OpCreatePullRequest ops <=? 1)
                && (occurrences OpGetRepository ops <=? 1)
                && (occurrences OpGetPullRequests ops <=? 1)
                && (occurrences OpSerializeDirectoryContents ops <=? 1)
                && (occurrences OpGetBranch ops <=? 3))%nat).
    destruct (isDryRun ctx); vm_compute; reflexivity. }
  rewrite !andb_true_iff, !Nat.leb_le, !occurrences_callsTo in Hbound.
  destruct Hbound as ((((((H1 & H2) & H3) & H4) & H5) & H6) & H7).
  repeat (split; [assumption|]).
  intros Hdry. rewrite Hdry in Hp.
  assert (Hnone :
    forallb (fun o => negb (existsb (Operation_eqb o)
                              (OpSerializeDirectoryContents :: gitOperations)))
      (map operation trace) = true).
  { revert Hp. apply checked_on_all. vm_compute. reflexivity. }
  split.
  - apply none_among. rewrite forallb_forall in *. intros o Ho.
    specialize (Hnone o Ho). simpl in Hnone.
    destruct (Operation_eqb o OpSerializeDirectoryContents); [discriminate|].
    exact Hnone.
  - apply none_callsTo. rewrite forallb_forall in *. intros o Ho.
    specialize (Hnone o Ho). simpl in Hnone.
    destruct (Operation_eqb o OpSerializeDirectoryContents);
      [discriminate | reflexivity].
Qed.




End HandlerProtocol.

(* ===================================================================== *)
(** * Outputs and errors of a run *)
(* ===================================================================== *)




Section Outcome.

Context {W : Type}.
Variable rt : Runtime.
Variable api : Collaborators W.
Variable ctx : Context.

Lemma bind_fail {A B : Type} (m : M W A) (k : A -> M W B) st st' e :
  m st = (st', inl e) -> bind m k st = (st', inl e).
Proof. unfold bind; intros ->; reflexivity. Qed.








Lemma performDryRun_reports o p r s t ti d (st : State W) :
  snd (performDryRun o p r s t ti d st) = inr tt
  /\ outputs (fst (performDryRun o p r s t ti d st))
     = (outputs st
        ++ [("pullRequestUrl",
             OutString ("https://mocked-url/" ++ o ++ "/" ++ p ++ "/" ++ r
                          ++ "/pullrequest/123"));
            ("pullRequestId", OutNumber 123)])%list.
Proof.
  split; [reflexivity|].
  unfold performDryRun, bind, log, output. cbn [fst snd outputs].
  rewrite <- app_assoc. reflexivity.
Qed.

(** What the stage of the pull request reports. *)
Lemma createOrReusePullRequest_reports url repository target st :
  match snd (createOrReusePullRequest rt api ctx url repository target st) with
  | inl _ =>
      outputs (fst (createOrReusePullRequest rt api ctx url repository
                      target st))
      = outputs st
  | inr _ =>
      exists id,
        id <> 0%Z
        /\ outputs (fst (createOrReusePullRequest rt api ctx url repository
                           target st))
           = (outputs st
              ++ [("pullRequestUrl",
                   OutString (getAzureDevOpsPullRequestURL url
                                (project (input ctx)) (repo (input ctx)) id));
                  ("pullRequestId", OutNumber id)])%list
  end.
Proof.
  assert (Hid : forall o, Js.truthy_number o = true ->
                  Js.nullish o 0%Z <> 0%Z).
  { intros [id|]; simpl; [|discriminate].
    destruct (Z.eqb_spec id 0); [discriminate | auto]. }
  unfold createOrReusePullRequest, reportPullRequest. cbv zeta.
  unfold bind, await, log, output, throw.
  destruct (getPullRequests api _ _ _ (world st)) as [w3 [reason|found]];
    simpl; [reflexivity|].
  destruct (Js.nullish found []) as [|existing rest]; simpl.
  - destruct (createPullRequest api _ _ _ w3) as [w4 [reason|created]];
      simpl; [reflexivity|].
    destruct (Js.truthy_number (pullRequestId created)) eqn:Ht; simpl;
      [|reflexivity].
    eexists. split; [apply Hid, Ht|]. rewrite <- app_assoc. reflexivity.
  - destruct (Js.truthy_number (pullRequestId existing)) eqn:Ht; simpl;
      [|reflexivity].
    eexists. split; [apply Hid, Ht|]. rewrite <- app_assoc. reflexivity.
Qed.

(** The outputs of a run.  A run that throws has reported no output.  A run
    that returns has reported exactly two outputs, [pullRequestUrl] then
    [pullRequestId]: in a dry run the mocked URL and 123; otherwise a
    non-zero identifier and the URL built from the base URL, the project,
    the repository and that identifier. *)
Theorem handler_outputs (w : W) :
  let final := handler rt api ctx (initial w) in
  let i := input ctx in
  match snd final with
  | inl _ => outputs (fst final) = []
  | inr _ =>
      if isDryRun ctx then
        outputs (fst final)
        = [("pullRequestUrl",
            OutString ("https://mocked-url/" ++ organization i ++ "/"
                         ++ project i ++ "/" ++ repo i ++ "/pullrequest/123"));
           ("pullRequestId", OutNumber 123)]
      else
        exists id,
          id <> 0%Z
          /\ outputs (fst final)
             = [("pullRequestUrl",
                 OutString (getAzureDevOpsPullRequestURL (baseUrl i)
                              (project i) (repo i) id));
                ("pullRequestId", OutNumber id)]
  end.
Proof.
  cbv zeta. unfold handler. cbv zeta.
  destruct (resolveClient api ctx (initial w)) as [st1 [e|url]] eqn:Hc.
  - rewrite (bind_fail _ _ _ _ _ Hc). simpl.
    apply (silent_run _ _ _ _ (resolveClient_silent api ctx) Hc).
  - rewrite (bind_ok _ _ _ _ _ Hc).
    pose proof (silent_run _ _ _ _ (resolveClient_silent api ctx) Hc) as H1.
    simpl in H1.
    pose proof (resolveClient_url api ctx _ _ _ Hc) as ->.
    destruct (isDryRun ctx).
    + destruct (performDryRun_reports (organization (input ctx))
                  (project (input ctx)) (repo (input ctx))
                  (sourceBranchName (input ctx)) (targetBranchName (input ctx))
                  (title (input ctx)) (description (input ctx)) st1)
        as [-> ->].
      rewrite H1. reflexivity.
    + destruct (publishChanges rt api ctx st1) as [st2 [e|l]] eqn:Hp.
      * rewrite (bind_fail _ _ _ _ _ Hp). simpl.
        rewrite (silent_run _ _ _ _ (publishChanges_silent rt api ctx) Hp).
        exact H1.
      * rewrite (bind_ok _ _ _ _ _ Hp).
        pose proof (silent_run _ _ _ _ (publishChanges_silent rt api ctx) Hp)
          as H2.
        pose proof (createOrReusePullRequest_reports (baseUrl (input ctx))
                      (repository l) (resolvedTargetBranchName l) st2) as Hr.
        destruct (snd (createOrReusePullRequest rt api ctx _ _ _ st2)).
        -- rewrite Hr, H2. exact H1.
        -- destruct Hr as (id & Hnz & Hr). exists id. split; [exact Hnz|].
           rewrite Hr, H2, H1. reflexivity.
Qed.

End Outcome.

(* ===================================================================== *)
(** * Failed writes, authentication and reuse *)
(* ===================================================================== *)

Section Writes.

Context {W : Type}.
Variable rt : Runtime.
Variable api : Collaborators W.

(** A rejected push ends the run.  When the handler sends its push and
    [createPush] rejects, the run ends there with that rejection: the pull
    requests are neither looked up nor created and no output is reported. *)
Theorem push_failure_aborts (ctx : Context) (w w6 : W)
    (st1 st4 st5 : State W) (url : string) (l : Locals)
    (old : option string) (reason : string) :
  isDryRun ctx = false ->
  resolveClient api ctx (initial w) = (st1, inr url) ->
  prepareChanges rt api ctx st1 = (st4, inr l) ->
  changeList l <> [] ->
  getLatestCommit api ctx (pushBase ctx l) st4 = (st5, inr old) ->
  createPush api (buildPush rt ctx l old) (repo_id (repository l))
    (project (input ctx)) (world st5) = (w6, inl reason) ->
  let final := handler rt api ctx (initial w) in
  snd final = inl (Thrown reason)
  /\ world (fst final) = w6
  /\ callsTo OpCreatePush (calls (fst final))
     = [CallCreatePush (buildPush rt ctx l old) (repo_id (repository l))
          (project (input ctx))]
  /\ callsTo OpGetPullRequests (calls (fst final)) = []
  /\ callsTo OpCreatePullRequest (calls (fst final)) = []
  /\ outputs (fst final) = [].
Proof.
  intros Hdry Hc Hp Hne Hlookup Hpush. cbv zeta.
  assert (Hcalls : forall op,
            existsb (Operation_eqb op)
              [OpGetCredentials; OpGetGitApi; OpGetRepository; OpGetBranch;
               OpUpdateRefs; OpSerializeDirectoryContents] = false ->
            callsTo op (calls st5) = []).
  { intros op Hop.
    rewrite (issues_callsTo_run [OpGetBranch] op _ _ _ _
               (getLatestCommit_issues api ctx (pushBase ctx l)) Hlookup).
    2: { destruct op; try discriminate Hop; reflexivity. }
    rewrite (issues_callsTo_run _ op _ _ _ _
               (prepareChanges_issues rt api ctx) Hp).
    2: { destruct op; try discriminate Hop; reflexivity. }
    rewrite (issues_callsTo_run _ op _ _ _ _
               (resolveClient_issues api ctx) Hc).
    2: { destruct op; try discriminate Hop; reflexivity. }
    reflexivity. }
  assert (Hout : outputs st5 = []).
  { rewrite (silent_run _ _ _ _
               (getLatestCommit_silent api ctx (pushBase ctx l)) Hlookup).
    rewrite (silent_run _ _ _ _ (prepareChanges_silent rt api ctx) Hp).
    rewrite (silent_run _ _ _ _ (resolveClient_silent api ctx) Hc).
    reflexivity. }
  rewrite (handler_publishes rt api ctx _ _ _ Hdry Hc).
  unfold publishChanges.
  rewrite !bind_assoc, (bind_ok _ _ _ _ _ Hp). cbv beta.
  rewrite push_run, Hlookup.
  destruct (changeList l) as [|c0 cs] eqn:Hl; [congruence|].
  simpl Nat.eqb. cbv iota zeta. rewrite Hpush. simpl.
  rewrite !callsTo_app, !Hcalls by reflexivity.
  repeat split; try reflexivity. exact Hout.
Qed.

(** A failed creation of the source branch ends the run.  In a run with
    [createSourceBranch] set whose existence probe rejects, the rejection of
    the probe is swallowed; when the target branch then has no latest commit
    or its lookup rejects, or when [updateRefs] rejects, the run ends with
    that failure, and the workspace is not read and nothing is pushed. *)
Theorem source_branch_failure_aborts (ctx : Context) (w w3 : W)
    (st1 st2 : State W) (url : string) (found : GitRepository)
    (target : string) (swallowed : string) :
  Js.truthy_bool (createSourceBranch (input ctx)) = true ->
  isDryRun ctx = false ->
  resolveClient api ctx (initial w) = (st1, inr url) ->
  resolveRepository api ctx st1 = (st2, inr (found, target)) ->
  getBranch api (repo (input ctx)) (sourceBranchName (input ctx))
    (project (input ctx)) (world st2) = (w3, inl swallowed) ->
  let i := input ctx in
  let final := handler rt api ctx (initial w) in
  let nothingWritten :=
    callsTo OpSerializeDirectoryContents (calls (fst final)) = []
    /\ callsTo OpCreatePush (calls (fst final)) = []
    /\ callsTo OpCreatePullRequest (calls (fst final)) = [] in
  (forall w4,
     getBranch api (repo i) target (project i) w3 = (w4, inr None) ->
     snd final
     = inl (Error ("Branch " ++ target ++ " not found in repository "
                     ++ repo i ++ "."))
     /\ callsTo OpUpdateRefs (calls (fst final)) = [] /\ nothingWritten)
  /\ (forall w4 reason,
        getBranch api (repo i) target (project i) w3 = (w4, inl reason) ->
        snd final = inl (Thrown reason)
        /\ callsTo OpUpdateRefs (calls (fst final)) = [] /\ nothingWritten)
  /\ (forall w4 c w5 reason,
        getBranch api (repo i) target (project i) w3
        = (w4, inr (Some {| commit := Some c |})) ->
        updateRefs api
          [ {| ref_name := "refs/heads/" ++ sourceBranchName i;
               oldObjectId := Some zeroObjectId;
               newObjectId := commitId c |} ]
          (repo_id found) (project i) w4 = (w5, inl reason) ->
        snd final = inl (Thrown reason) /\ nothingWritten).
Proof.
  intros Hcreate Hdry Hc Hr Hprobe. cbv zeta.
  assert (Hcalls : forall op,
            existsb (Operation_eqb op)
              [OpGetCredentials; OpGetGitApi; OpGetRepository] = false ->
            callsTo op (calls st2) = []).
  { intros op Hop.
    rewrite (issues_callsTo_run _ op _ _ _ _
               (resolveRepository_issues api ctx) Hr).
    2: { destruct op; try discriminate Hop; reflexivity. }
    rewrite (issues_callsTo_run _ op _ _ _ _
               (resolveClient_issues api ctx) Hc).
    2: { destruct op; try discriminate Hop; reflexivity. }
    reflexivity. }
  remember (handler rt api ctx (initial w)) as final eqn:Hfinal.
  rewrite (handler_publishes rt api ctx _ _ _ Hdry Hc) in Hfinal.
  rewrite (publishChanges_from_repository rt api ctx _ _ _ _ _ Hr) in Hfinal.
  unfold bind at 1 in Hfinal.
  unfold ensureSourceBranch, getLatestCommit in Hfinal.
  rewrite Hcreate in Hfinal. cbv zeta in Hfinal.
  unfold try_catch, bind, await, log, ret, throw in Hfinal.
  simpl in Hfinal. rewrite Hprobe in Hfinal. simpl in Hfinal.
  split; [|split].
  - intros w4 Hlatest. rewrite Hlatest in Hfinal. simpl in Hfinal.
    subst final. simpl. rewrite !callsTo_app, !Hcalls by reflexivity.
    repeat split.
  - intros w4 reason Hlatest. rewrite Hlatest in Hfinal. simpl in Hfinal.
    subst final. simpl. rewrite !callsTo_app, !Hcalls by reflexivity.
    repeat split.
  - intros w4 c w5 reason Hlatest Hupdate.
    rewrite Hlatest in Hfinal. simpl in Hfinal.
    match type of Hfinal with
    | context [updateRefs api ?u ?r ?p ?ww] =>
        destruct (updateRefs api u r p ww) as [w5' answer] eqn:Hu
    end.
    assert (Hsame : (w5', answer) = (w5, @inl string unit reason))
      by (rewrite <- Hu; exact Hupdate).
    injection Hsame as -> ->. simpl in Hfinal.
    subst final. simpl. rewrite !callsTo_app, !Hcalls by reflexivity.
    repeat split.
Qed.

End Writes.

Section Reuse.

Context {W : Type}.
Variable rt : Runtime.
Variable api : Collaborators W.

(** The stage of the pull request when the lookup finds one. *)
Lemma createOrReuse_existing ctx url l st2 w3 existing rest :
  getPullRequests api (repo_id (repository l))
    {| crit_sourceRefName := "refs/heads/" ++ sourceBranchName (input ctx);
       crit_targetRefName := "refs/heads/" ++ resolvedTargetBranchName l;
       crit_status := Active |}
    (project (input ctx)) (world st2)
  = (w3, inr (Some (existing :: rest))) ->
  createOrReusePullRequest rt api ctx url (repository l)
    (resolvedTargetBranchName l) st2
  = (if negb (Js.truthy_number (pullRequestId existing))
     then throw (Error (withoutId rt existing))
     else
       bind (log Info ["Pull request already exists: PR-"
                         ++ Js.number_to_string
                              (Js.nullish (pullRequestId existing) 0%Z)])
         (fun _ =>
            reportPullRequest ctx url
              (Js.nullish (pullRequestId existing) 0%Z)))
      {| world := w3;
         calls := (calls st2
                   ++ [CallGetPullRequests (repo_id (repository l))
                         {| crit_sourceRefName :=
                              "refs/heads/" ++ sourceBranchName (input ctx);
                            crit_targetRefName :=
                              "refs/heads/" ++ resolvedTargetBranchName l;
                            crit_status := Active |}
                         (project (input ctx))])%list;
         outputs := outputs st2;
         logs := logs st2 |}.
Proof.
  intros Hget. unfold createOrReusePullRequest. cbv zeta.
  unfold bind at 1. unfold await. rewrite Hget. reflexivity.
Qed.

(** An existing pull request is left as it is.  When a run finds an active
    pull request for its branch pair, the [title], [description], [draft]
    and [reviewers] inputs have no effect: with any other values for them
    the handler ends in the same state with the same result, so the
    existing pull request is reported without being updated. *)
Theorem reuse_ignores_metadata (ctx : Context) (t d : string)
    (dr : option bool) (rv : option (list string)) (w w3 : W)
    (st1 st2 : State W) (url : string) (l : Locals)
    (existing : GitPullRequest) (rest : list GitPullRequest) :
  isDryRun ctx = false ->
  resolveClient api ctx (initial w) = (st1, inr url) ->
  publishChanges rt api ctx st1 = (st2, inr l) ->
  getPullRequests api (repo_id (repository l))
    {| crit_sourceRefName := "refs/heads/" ++ sourceBranchName (input ctx);
       crit_targetRefName := "refs/heads/" ++ resolvedTargetBranchName l;
       crit_status := Active |}
    (project (input ctx)) (world st2)
  = (w3, inr (Some (existing :: rest))) ->
  handler rt api
    {| input := withMetadata (input ctx) t d dr rv;
       isDryRun := isDryRun ctx;
       workspacePath := workspacePath ctx |} (initial w)
  = handler rt api ctx (initial w).
Proof.
  intros Hdry Hc Hp Hget.
  set (ctx' := {| input := withMetadata (input ctx) t d dr rv;
                  isDryRun := isDryRun ctx;
                  workspacePath := workspacePath ctx |}).
  assert (Hc' : resolveClient api ctx' (initial w) = (st1, inr url))
    by exact Hc.
  assert (Hp' : publishChanges rt api ctx' st1 = (st2, inr l)) by exact Hp.
  rewrite (handler_publishes rt api ctx' _ _ _ Hdry Hc').
  rewrite (handler_publishes rt api ctx _ _ _ Hdry Hc).
  rewrite (bind_ok _ _ _ _ _ Hp'), (bind_ok _ _ _ _ _ Hp).
  assert (Hget' :
    getPullRequests api (repo_id (repository l))
      {| crit_sourceRefName := "refs/heads/" ++ sourceBranchName (input ctx');
         crit_targetRefName := "refs/heads/" ++ resolvedTargetBranchName l;
         crit_status := Active |}
      (project (input ctx')) (world st2)
    = (w3, inr (Some (existing :: rest)))) by exact Hget.
  rewrite (createOrReuse_existing ctx' url l st2 w3 existing rest Hget').
  rewrite (createOrReuse_existing ctx url l st2 w3 existing rest Hget).
  reflexivity.
Qed.

(** What follows the construction of the client builds no other client. *)
Lemma after_client_issues ctx url :
  issues (among [OpGetRepository; OpGetBranch; OpUpdateRefs;
                 OpSerializeDirectoryContents; OpCreatePush;
                 OpGetPullRequests; OpCreatePullRequest])
    (if isDryRun ctx then
       performDryRun (organization (input ctx)) (project (input ctx))
         (repo (input ctx)) (sourceBranchName (input ctx))
         (targetBranchName (input ctx)) (title (input ctx))
         (description (input ctx))
     else
       bind (publishChanges rt api ctx)
         (fun l => createOrReusePullRequest rt api ctx url (repository l)
                     (resolvedTargetBranchName l))).
Proof.
  destruct (isDryRun ctx); [apply performDryRun_issues|].
  apply issues_bind.
  - eapply issues_incl; [|apply publishChanges_issues].
    intros x Hx; simpl in *; tauto.
  - intros l. eapply issues_incl; [|apply createOrReusePullRequest_issues].
    intros x Hx; simpl in *; tauto.
Qed.

(** The authentication of the client.  The one [getGitApi] call of a run
    carries: the personal-access-token handler of the [token] input when
    that is a non-empty string, whatever the credentials; without a token,
    the personal-access-token handler of the credentials' token when their
    type is ["pat"], and the bearer handler of that token otherwise; and,
    when the [token] input is the empty string and the credentials are of
    type ["pat"], the personal-access-token handler of the empty string, not
    of the credentials' token.  Without token and credentials no client is
    built. *)
Theorem client_authentication (ctx : Context) (w w1 : W)
    (credentials : option AzureDevOpsCredential) :
  getCredentials api (baseUrl (input ctx)) w = (w1, inr credentials) ->
  let i := input ctx in
  let clients :=
    callsTo OpGetGitApi (calls (fst (handler rt api ctx (initial w)))) in
  (forall t, token i = Some t -> t <> "" ->
     clients = [CallGetGitApi (baseUrl i) (PersonalAccessTokenHandler t)])
  /\ (forall c, token i = None -> credentials = Some c ->
        cred_type c = "pat" ->
        clients = [CallGetGitApi (baseUrl i)
                     (PersonalAccessTokenHandler (cred_token c))])
  /\ (forall c, Js.truthy_string (token i) = false -> credentials = Some c ->
        cred_type c <> "pat" ->
        clients = [CallGetGitApi (baseUrl i) (BearerHandler (cred_token c))])
  /\ (forall c, token i = Some "" -> credentials = Some c ->
        cred_type c = "pat" ->
        clients = [CallGetGitApi (baseUrl i) (PersonalAccessTokenHandler "")])
  /\ (Js.truthy_string (token i) = false -> credentials = None ->
      clients = []).
Proof.
  intros Hget. cbv zeta. unfold handler. cbv zeta.
  rewrite (callsTo_bind
             [OpGetRepository; OpGetBranch; OpUpdateRefs;
              OpSerializeDirectoryContents; OpCreatePush;
              OpGetPullRequests; OpCreatePullRequest] OpGetGitApi);
    [|intros url; apply after_client_issues | reflexivity].
  assert (Hbuilt : forall h,
            negb (isSome credentials)
            && negb (Js.truthy_string (token (input ctx))) = false ->
            authHandler (token (input ctx)) credentials = inr h ->
            callsTo OpGetGitApi
              (calls (fst (resolveClient api ctx (initial w))))
            = [CallGetGitApi (baseUrl (input ctx)) h]).
  { intros h Hguard Hauth.
    unfold resolveClient, bind, await, lift, ret, throw. cbv zeta.
    simpl world. rewrite Hget. cbv beta iota. rewrite Hguard, Hauth.
    simpl.
    destruct (getGitApi api (baseUrl (input ctx)) h w1) as [w2 [reason|[]]];
      reflexivity. }
  split; [|split; [|split; [|split]]].
  - intros t Ht Hne. apply Hbuilt; rewrite Ht.
    + destruct t; [congruence|]. simpl. apply andb_false_r.
    + unfold authHandler. destruct t; [congruence | reflexivity].
  - intros c Ht -> Hpat. apply Hbuilt; rewrite Ht; [reflexivity|].
    unfold authHandler. simpl. rewrite Hpat. reflexivity.
  - intros c Ht -> Hpat. apply Hbuilt; [reflexivity|].
    unfold authHandler. rewrite Ht. simpl.
    destruct (String.eqb_spec (cred_type c) "pat"); [congruence|reflexivity].
  - intros c Ht -> Hpat. apply Hbuilt; rewrite Ht; [reflexivity|].
    unfold authHandler. simpl. rewrite Hpat. reflexivity.
  - intros Ht ->.
    unfold resolveClient, bind, await, lift, ret, throw. cbv zeta.
    simpl world. rewrite Hget. cbv beta iota. rewrite Ht. reflexivity.
Qed.

End Reuse.

Section Lookup.

Context {W : Type}.
Variable rt : Runtime.
Variable api : Collaborators W.

Lemma callsTo_skip {A B : Type} ops op (m : M W A) (k : A -> M W B) st
    (P : list Call -> Prop) :
  issues (among ops) m ->
  existsb (Operation_eqb op) ops = false ->
  P (callsTo op (calls st)) ->
  (forall a st',
     callsTo op (calls st') = callsTo op (calls st) ->
     P (callsTo op (calls (fst (k a st'))))) ->
  P (callsTo op (calls (fst (bind m k st)))).
Proof.
  intros Hm Hop Hst Hk. unfold bind.
  destruct (m st) as [st' [e|a]] eqn:Hrun; simpl.
  - rewrite (issues_callsTo_run ops op m st st' _ Hm Hrun Hop). exact Hst.
  - apply Hk. apply (issues_callsTo_run ops op m st st' _ Hm Hrun Hop).
Qed.

(** The lookups of a run that knows its repository and target branch. *)
Lemma lookup_calls ctx w st1 st2 url found target :
  isDryRun ctx = false ->
  resolveClient api ctx (initial w) = (st1, inr url) ->
  resolveRepository api ctx st1 = (st2, inr (found, target)) ->
  callsTo OpGetPullRequests (calls (fst (handler rt api ctx (initial w))))
  = []
  \/ callsTo OpGetPullRequests (calls (fst (handler rt api ctx (initial w))))
     = [CallGetPullRequests (repo_id found)
          {| crit_sourceRefName :=
               "refs/heads/" ++ sourceBranchName (input ctx);
             crit_targetRefName := "refs/heads/" ++ target;
             crit_status := Active |}
          (project (input ctx))].
Proof.
  intros Hdry Hc Hr.
  assert (Hbefore : callsTo OpGetPullRequests (calls st2) = []).
  { rewrite (issues_callsTo_run _ OpGetPullRequests _ _ _ _
               (resolveRepository_issues api ctx) Hr eq_refl).
    rewrite (issues_callsTo_run _ OpGetPullRequests _ _ _ _
               (resolveClient_issues api ctx) Hc eq_refl).
    reflexivity. }
  rewrite (handler_publishes rt api ctx _ _ _ Hdry Hc).
  rewrite (publishChanges_from_repository rt api ctx _ _ _ _ _ Hr).
  apply (callsTo_skip [OpGetBranch; OpUpdateRefs] OpGetPullRequests);
    [apply ensureSourceBranch_issues | reflexivity | left; exact Hbefore |].
  intros flag st3 H3. rewrite Hbefore in H3.
  apply (callsTo_skip [OpSerializeDirectoryContents] OpGetPullRequests);
    [apply readChanges_issues | reflexivity | left; exact H3 |].
  intros dc st4 H4. rewrite H3 in H4.
  apply (callsTo_skip [OpGetBranch; OpCreatePush] OpGetPullRequests);
    [apply pushChanges_issues | reflexivity | left; exact H4 |].
  intros [] st5 H5. rewrite H4 in H5. right.
  cbn [repository resolvedTargetBranchName].
  unfold createOrReusePullRequest, reportPullRequest. cbv zeta.
  unfold bind, await, log, output, throw.
  destruct (getPullRequests api _ _ _ (world st5)) as [w6 [reason|lookup]];
    simpl; [rewrite callsTo_app, H5; reflexivity|].
  destruct (Js.nullish lookup []) as [|existing rest]; simpl.
  - destruct (createPullRequest api _ _ _ w6) as [w7 [reason|created]];
      simpl; [rewrite !callsTo_app, H5; reflexivity|].
    destruct (Js.truthy_number (pullRequestId created)); simpl;
      rewrite !callsTo_app, H5; reflexivity.
  - destruct (Js.truthy_number (pullRequestId existing)); simpl;
      rewrite !callsTo_app, H5; reflexivity.
Qed.

(** The lookup of the pull requests.  A run that is not a dry run and has
    resolved its repository and target branch looks the pull requests up at
    most once, and then in that repository and project, for the status
    [Active], the source ref ["refs/heads/<sourceBranchName>"] and the target
    ref ["refs/heads/<resolvedTargetBranchName>"]. *)
Theorem pull_request_lookup (ctx : Context) (w : W) (st1 st2 : State W)
    (url : string) (found : GitRepository) (target : string) :
  isDryRun ctx = false ->
  resolveClient api ctx (initial w) = (st1, inr url) ->
  resolveRepository api ctx st1 = (st2, inr (found, target)) ->
  let lookups :=
    callsTo OpGetPullRequests (calls (fst (handler rt api ctx (initial w)))) in
  lookups = []
  \/ lookups
     = [CallGetPullRequests (repo_id found)
          {| crit_sourceRefName :=
               "refs/heads/" ++ sourceBranchName (input ctx);
             crit_targetRefName := "refs/heads/" ++ target;
             crit_status := Active |}
          (project (input ctx))].
Proof. intros Hdry Hc Hr. exact (lookup_calls ctx w st1 st2 url found target Hdry Hc Hr). Qed.

(** The default branch as target.  In a run that is not a dry run, without a
    [targetBranchName] input, on a repository whose default branch is
    ["refs/heads/<b>"]: the resolved target branch is [<b>], and the target
    ref of the lookup of the pull requests is the default branch itself. *)
Theorem default_branch_round_trip (ctx : Context) (w w2 : W)
    (st1 : State W) (url : string) (found : GitRepository) (b : string) :
  isDryRun ctx = false ->
  resolveClient api ctx (initial w) = (st1, inr url) ->
  getRepository api (repo (input ctx)) (project (input ctx)) (world st1)
  = (w2, inr (Some found)) ->
  Js.truthy_string (targetBranchName (input ctx)) = false ->
  defaultBranch found = Some ("refs/heads/" ++ b) ->
  let lookups :=
    callsTo OpGetPullRequests (calls (fst (handler rt api ctx (initial w)))) in
  snd (resolveRepository api ctx st1) = inr (found, b)
  /\ (lookups = []
      \/ exists criteria,
           lookups = [CallGetPullRequests (repo_id found) criteria
                        (project (input ctx))]
           /\ Some (crit_targetRefName criteria) = defaultBranch found
           /\ crit_sourceRefName criteria
              = "refs/heads/" ++ sourceBranchName (input ctx)
           /\ crit_status criteria = Active).
Proof.
  intros Hdry Hc Hget Htarget Hdefault. cbv zeta.
  assert (Hr : exists st2,
            resolveRepository api ctx st1 = (st2, inr (found, b))).
  { unfold resolveRepository, bind, await, log, ret, throw. cbv zeta.
    rewrite Hget. cbv beta iota. rewrite Htarget, Hdefault.
    clear Hdefault. destruct b; simpl; eexists; reflexivity. }
  destruct Hr as [st2 Hr]. rewrite Hr. split; [reflexivity|].
  destruct (lookup_calls ctx w st1 st2 url found b Hdry Hc Hr) as [H|H];
    [left; exact H|].
  right. eexists. split; [exact H|]. rewrite Hdefault. repeat split.
Qed.

End Lookup.

(* ===================================================================== *)
(** * More on the change list *)
(* ===================================================================== *)

Section ChangeListMore.

Variable rt : Runtime.
Variable fileRoot : string.
Variable targetPath : option string.

Lemma map_throwing_app {A B : Type} (f : A -> Exn + B) (a b : list A) :
  map_throwing f (a ++ b)
  = match map_throwing f a with
    | inl e => inl e
    | inr x =>
        match map_throwing f b with
        | inl e => inl e
        | inr y => inr (x ++ y)%list
        end
    end.
Proof.
  induction a as [|x a IH]; simpl.
  - destruct (map_throwing f b); reflexivity.
  - destruct (f x) as [e|y]; [reflexivity|]. rewrite IH.
    destruct (map_throwing f a); [reflexivity|].
    destruct (map_throwing f b); reflexivity.
Qed.

(** Changes of a concatenation.  The change list of two directory lists put
    end to end is the change list of the first followed by that of the
    second; it fails when one of them fails, with the failure of the
    first when both do. *)
Theorem generateGitChanges_app (a b : list DirectoryEntry) :
  generateGitChanges rt (a ++ b) fileRoot targetPath
  = match generateGitChanges rt a fileRoot targetPath with
    | inl e => inl e
    | inr x =>
        match generateGitChanges rt b fileRoot targetPath with
        | inl e => inl e
        | inr y => inr (x ++ y)%list
        end
    end.
Proof.
  unfold generateGitChanges. rewrite map_throwing_app.
  destruct (map_throwing _ a) as [e|x]; [reflexivity|].
  destruct (map_throwing _ b) as [e|y]; [reflexivity|].
  rewrite filter_app. reflexivity.
Qed.

(** Failure of the change list.  [generateGitChanges] throws exactly when
    some entry of the list has no content, whatever the other entries hold,
    and the exception is then the [TypeError] of reading [toString] of
    [undefined]. *)
Theorem generateGitChanges_fails_iff (dc : list DirectoryEntry) (e : Exn) :
  generateGitChanges rt dc fileRoot targetPath = inl e
  <-> e = TypeError "Cannot read properties of undefined (reading 'toString')"
      /\ Exists (fun f => entry_content f = None) dc.
Proof.
  unfold generateGitChanges.
  induction dc as [|f dc IH]; simpl.
  - split; [discriminate | intros [_ H]; inversion H].
  - unfold toChange at 1.
    destruct (entry_content f) as [buf|] eqn:Hf.
    + destruct (map_throwing (toChange rt fileRoot targetPath) dc)
        as [e'|mapped].
      * split.
        -- intros [= <-]. destruct IH as [IH _].
           destruct (IH eq_refl) as [-> Hex]. split; [reflexivity|].
           apply Exists_cons_tl, Hex.
        -- intros [-> Hex]. inversion Hex as [? ? Hhd|? ? Htl]; subst.
           ++ congruence.
           ++ destruct IH as [_ IH]. apply IH. split; [reflexivity|exact Htl].
      * split; [discriminate|].
        intros [-> Hex]. inversion Hex as [? ? Hhd|? ? Htl]; subst.
        -- congruence.
        -- destruct IH as [_ IH].
           discriminate (IH (conj eq_refl Htl)).
    + split.
      * intros [= <-]. split; [reflexivity|]. apply Exists_cons_hd, Hf.
      * intros [-> _]. reflexivity.
Qed.

End ChangeListMore.

(* ===================================================================== *)
(** * The further properties on the test doubles *)
(* ===================================================================== *)

(** The run of [Mock.someContext] in [Mock.someWorld] returns, and has called
    one of the full sequences of the protocol. *)
Lemma handler_call_protocol_witness :
  snd (handler Mock.runtime Mock.service Mock.someContext
         (initial Mock.someWorld)) = inr tt
  /\ In (map operation
           (calls (fst (handler Mock.runtime Mock.service Mock.someContext
                          (initial Mock.someWorld)))))
        (protocol false).
Proof.
  assert (H := handler_call_protocol Mock.runtime Mock.service
                 Mock.someContext Mock.someWorld).
  cbv zeta in H. destruct H as [_ H].
  split; [vm_compute; reflexivity|].
  apply H. vm_compute; reflexivity.
Defined.

(** The dry run of [Mock.dryRunContext] calls no operation of the git
    client. *)
Lemma handler_call_bounds_witness :
  isDryRun Mock.dryRunContext = true
  /\ gitCalls (calls (fst (handler Mock.runtime Mock.service
                             Mock.dryRunContext (initial Mock.someWorld))))
     = [].
Proof.
  assert (H := handler_call_bounds Mock.runtime Mock.service
                 Mock.dryRunContext Mock.someWorld).
  cbv zeta in H. destruct H as (_ & _ & _ & _ & _ & _ & _ & H).
  split; [reflexivity|]. destruct H as [H _]; [reflexivity | exact H].
Defined.



(** The outputs of [Mock.someContext] in [Mock.someWorld]: pull request 7
    and its URL. *)
Example handler_outputs_example :
  outputs (fst (handler Mock.runtime Mock.service Mock.someContext
                  (initial Mock.someWorld)))
  = [("pullRequestUrl",
      OutString "https://dev.azure.com/my-org/my%20project/_git/my-repo/pullrequest/7");
     ("pullRequestId", OutNumber 7)].
Proof. vm_compute. reflexivity. Qed.

(** On [Mock.readOnlyService] the push of [Mock.someContext] is rejected: the
    run ends with the rejection, without a lookup of the pull requests. *)
Lemma push_failure_aborts_witness :
  let final :=
    handler Mock.runtime Mock.readOnlyService Mock.someContext
      (initial Mock.someWorld) in
  snd final
  = inl (Thrown "TF401027: You need the Git 'GenericContribute' permission")
  /\ callsTo OpGetPullRequests (calls (fst final)) = []
  /\ callsTo OpCreatePullRequest (calls (fst final)) = []
  /\ outputs (fst final) = [].
Proof.
  pose (st1 := fst (resolveClient Mock.readOnlyService Mock.someContext
                      (initial Mock.someWorld))).
  pose (st4 := fst (prepareChanges Mock.runtime Mock.readOnlyService
                      Mock.someContext st1)).
  pose (l := {| repository := {| repo_id := Some "repo-1";
                                 defaultBranch := Some "refs/heads/main" |};
                resolvedTargetBranchName := "main";
                sourceBranchDoesNotExist := Some true;
                directoryContents := [Mock.readme; Mock.gitkeep];
                changeList := [Mock.readmeChange] |}).
  pose (st5 := fst (getLatestCommit Mock.readOnlyService Mock.someContext
                      (pushBase Mock.someContext l) st4)).
  assert (H := push_failure_aborts Mock.runtime Mock.readOnlyService
                 Mock.someContext Mock.someWorld (world st5) st1 st4 st5
                 "https://dev.azure.com/my-org" l (Some "aaaa")
                 "TF401027: You need the Git 'GenericContribute' permission").
  cbv zeta in H.
  destruct H as (Hthrown & _ & _ & Hlookup & Hcreate & Hout);
    [ reflexivity | vm_compute; reflexivity | vm_compute; reflexivity
    | discriminate | vm_compute; reflexivity | vm_compute; reflexivity | ].
  cbv zeta. repeat split; assumption.
Defined.

(** In [Mock.noBranches] the probe of the source branch rejects and is
    swallowed, then the lookup of the target branch rejects: the run ends
    with that rejection, no ref is created and the workspace is not read. *)
Lemma source_branch_failure_aborts_witness :
  let final :=
    handler Mock.runtime Mock.service Mock.someContext
      (initial Mock.noBranches) in
  snd final = inl (Thrown "branch main does not exist")
  /\ callsTo OpUpdateRefs (calls (fst final)) = []
  /\ callsTo OpSerializeDirectoryContents (calls (fst final)) = [].
Proof.
  pose (st1 := fst (resolveClient Mock.service Mock.someContext
                      (initial Mock.noBranches))).
  pose (st2 := fst (resolveRepository Mock.service Mock.someContext st1)).
  assert (H := source_branch_failure_aborts Mock.runtime Mock.service
                 Mock.someContext Mock.noBranches Mock.noBranches st1 st2
                 "https://dev.azure.com/my-org"
                 {| repo_id := Some "repo-1";
                    defaultBranch := Some "refs/heads/main" |}
                 "main" "branch feature does not exist").
  cbv zeta in H.
  destruct H as (_ & H & _);
    [ reflexivity | reflexivity | vm_compute; reflexivity
    | vm_compute; reflexivity | vm_compute; reflexivity | ].
  destruct (H Mock.noBranches "branch main does not exist")
    as (Hthrown & Hrefs & Hread & _); [vm_compute; reflexivity|].
  cbv zeta. repeat split; assumption.
Defined.

(** In [Mock.publishedWorld] pull request 7 is active for the branch pair:
    a run with another title, description, draft flag and reviewers ends as
    the run of [Mock.someContext] does. *)
Lemma reuse_ignores_metadata_witness :
  handler Mock.runtime Mock.service
    {| input := withMetadata Mock.someInput "Another title" "Another text"
                  (Some true) (Some ["bob@example.com"]);
       isDryRun := false; workspacePath := "/tmp/ws" |}
    (initial Mock.publishedWorld)
  = handler Mock.runtime Mock.service Mock.someContext
      (initial Mock.publishedWorld).
Proof.
  pose (st1 := fst (resolveClient Mock.service Mock.someContext
                      (initial Mock.publishedWorld))).
  pose (st2 := fst (publishChanges Mock.runtime Mock.service
                      Mock.someContext st1)).
  apply (reuse_ignores_metadata Mock.runtime Mock.service Mock.someContext
           "Another title" "Another text" (Some true)
           (Some ["bob@example.com"]) Mock.publishedWorld (world st2)
           st1 st2 "https://dev.azure.com/my-org"
           {| repository := {| repo_id := Some "repo-1";
                               defaultBranch := Some "refs/heads/main" |};
              resolvedTargetBranchName := "main";
              sourceBranchDoesNotExist := Some false;
              directoryContents := [Mock.readme; Mock.gitkeep];
              changeList := [Mock.readmeChange] |}
           Mock.pullRequest7 []);
    [ reflexivity | vm_compute; reflexivity | vm_compute; reflexivity
    | vm_compute; reflexivity ].
Defined.

(** Without a [token] input and with the integration's personal access
    token, the client of [Mock.someContext] is built once, with that
    token. *)
Lemma client_authentication_witness :
  callsTo OpGetGitApi
    (calls (fst (handler Mock.runtime Mock.service Mock.someContext
                   (initial Mock.someWorld))))
  = [CallGetGitApi "https://dev.azure.com/my-org"
       (PersonalAccessTokenHandler "secret")].
Proof.
  assert (H := client_authentication Mock.runtime Mock.service
                 Mock.someContext Mock.someWorld Mock.someWorld
                 (Some {| cred_type := "pat"; cred_token := "secret" |})).
  cbv zeta in H. destruct H as (_ & H & _); [reflexivity|].
  exact (H {| cred_type := "pat"; cred_token := "secret" |}
           eq_refl eq_refl eq_refl).
Defined.

(** The lookup of [Mock.someContext] in [Mock.someWorld]: the active pull
    requests from [feature] to [main]. *)
Lemma pull_request_lookup_witness :
  callsTo OpGetPullRequests
    (calls (fst (handler Mock.runtime Mock.service Mock.someContext
                   (initial Mock.someWorld))))
  = [CallGetPullRequests (Some "repo-1")
       {| crit_sourceRefName := "refs/heads/feature";
          crit_targetRefName := "refs/heads/main";
          crit_status := Active |}
       "my project"].
Proof.
  pose (st1 := fst (resolveClient Mock.service Mock.someContext
                      (initial Mock.someWorld))).
  pose (st2 := fst (resolveRepository Mock.service Mock.someContext st1)).
  assert (H := pull_request_lookup Mock.runtime Mock.service
                 Mock.someContext Mock.someWorld st1 st2
                 "https://dev.azure.com/my-org"
                 {| repo_id := Some "repo-1";
                    defaultBranch := Some "refs/heads/main" |} "main").
  cbv zeta in H.
  destruct H as [H|H];
    [ reflexivity | vm_compute; reflexivity | vm_compute; reflexivity | | ].
  - vm_compute in H. discriminate H.
  - exact H.
Defined.

(** [Mock.someContext] names no target branch and the repository's default
    branch is [refs/heads/main]: the target resolves to [main]. *)
Lemma default_branch_round_trip_witness :
  snd (resolveRepository Mock.service Mock.someContext
         (fst (resolveClient Mock.service Mock.someContext
                 (initial Mock.someWorld))))
  = inr ({| repo_id := Some "repo-1";
            defaultBranch := Some "refs/heads/main" |}, "main").
Proof.
  pose (st1 := fst (resolveClient Mock.service Mock.someContext
                      (initial Mock.someWorld))).
  assert (H := default_branch_round_trip Mock.runtime Mock.service
                 Mock.someContext Mock.someWorld Mock.someWorld st1
                 "https://dev.azure.com/my-org"
                 {| repo_id := Some "repo-1";
                    defaultBranch := Some "refs/heads/main" |} "main").
  cbv zeta in H.
  destruct H as [H _];
    [ reflexivity | vm_compute; reflexivity | vm_compute; reflexivity
    | reflexivity | reflexivity | ].
  exact H.
Defined.

(** A list that ends with an entry without content fails, and the theorem
    finds that entry. *)
Lemma generateGitChanges_fails_iff_witness :
  Exists (fun f => entry_content f = None)
    [entryOf Mock.readme; Mock.withoutContent].
Proof.
  assert (H := generateGitChanges_fails_iff Mock.runtime "/tmp/ws" None
                 [entryOf Mock.readme; Mock.withoutContent]
                 (TypeError "Cannot read properties of undefined (reading 'toString')")).
  destruct H as [H _]. destruct H as [_ H]; [vm_compute; reflexivity|].
  exact H.
Defined.

(* ===================================================================== *)
(** * The workspace and the source branch *)
(* ===================================================================== *)

Section Workspace.

Context {W : Type}.
Variable rt : Runtime.
Variable api : Collaborators W.

(** What follows the reading of the workspace looks a branch up, pushes and
    handles the pull request. *)
Lemma after_read_issues ctx url l found target :
  issues (among [OpGetBranch; OpCreatePush; OpGetPullRequests;
                 OpCreatePullRequest])
    (bind (pushChanges rt api ctx l)
       (fun _ => createOrReusePullRequest rt api ctx url found target)).
Proof.
  apply issues_bind.
  - eapply issues_incl; [|apply pushChanges_issues].
    intros x Hx; simpl in *; tauto.
  - intros _. eapply issues_incl; [|apply createOrReusePullRequest_issues].
    intros x Hx; simpl in *; tauto.
Qed.

(** What follows the lookup of the base of the push. *)
Lemma after_base_issues ctx url l found target old :
  issues (among [OpCreatePush; OpGetPullRequests; OpCreatePullRequest])
    (bind
       (if Nat.eqb (List.length (changeList l)) 0 then
          throw (Error "No changes to push. The changes array is empty.")
        else
          bind (log Debug [stringify_push rt (buildPush rt ctx l old)])
            (fun _ =>
               await
                 (CallCreatePush (buildPush rt ctx l old)
                    (repo_id (repository l)) (project (input ctx)))
                 (createPush api (buildPush rt ctx l old)
                    (repo_id (repository l)) (project (input ctx)))))
       (fun _ => createOrReusePullRequest rt api ctx url found target)).
Proof.
  apply issues_bind.
  - destruct (Nat.eqb _ 0); frame.
  - intros _. eapply issues_incl; [|apply createOrReusePullRequest_issues].
    intros x Hx; simpl in *; tauto.
Qed.

(** The calls of the stage that reads the workspace, once the file root is
    known. *)
Lemma readChanges_calls ctx root st st4 r :
  (if Js.truthy_string (sourcePath (input ctx))
   then resolveSafeChildPath rt (workspacePath ctx)
          (Js.nullish (sourcePath (input ctx)) "")
   else inr (workspacePath ctx)) = inr root ->
  readChanges rt api ctx st = (st4, r) ->
  calls st4 = (calls st ++ [CallSerializeDirectoryContents root])%list.
Proof.
  intros Hroot. unfold readChanges, bind, await, lift, ret, throw. cbv zeta.
  destruct (Js.truthy_string (sourcePath (input ctx))).
  - rewrite Hroot.
    destruct (serializeDirectoryContents api root (world st))
      as [w' [reason|files]]; [intros [= <- _]; reflexivity|].
    destruct (generateGitChanges rt (map entryOf files) root
                (targetPath (input ctx))); intros [= <- _]; reflexivity.
  - injection Hroot as <-.
    destruct (serializeDirectoryContents api (workspacePath ctx) (world st))
      as [w' [reason|files]]; [intros [= <- _]; reflexivity|].
    destruct (generateGitChanges rt (map entryOf files) (workspacePath ctx)
                (targetPath (input ctx))); intros [= <- _]; reflexivity.
Qed.

Lemma reads_root ctx root url found target flag st3 :
  (if Js.truthy_string (sourcePath (input ctx))
   then resolveSafeChildPath rt (workspacePath ctx)
          (Js.nullish (sourcePath (input ctx)) "")
   else inr (workspacePath ctx)) = inr root ->
  callsTo OpSerializeDirectoryContents (calls st3) = [] ->
  callsTo OpSerializeDirectoryContents
    (calls (fst (bind (readChanges rt api ctx)
                   (fun dc =>
                      bind (pushChanges rt api ctx
                              {| repository := found;
                                 resolvedTargetBranchName := target;
                                 sourceBranchDoesNotExist := flag;
                                 directoryContents := fst dc;
                                 changeList := snd dc |})
                        (fun _ =>
                           createOrReusePullRequest rt api ctx url found
                             target)) st3)))
  = [CallSerializeDirectoryContents root].
Proof.
  intros Hroot Hbefore.
  rewrite (callsTo_bind [OpGetBranch; OpCreatePush; OpGetPullRequests;
                         OpCreatePullRequest] OpSerializeDirectoryContents);
    [|intros dc; apply after_read_issues|reflexivity].
  destruct (readChanges rt api ctx st3) as [st4 r] eqn:Hread. simpl.
  rewrite (readChanges_calls ctx root st3 st4 r Hroot Hread).
  rewrite callsTo_app, Hbefore. reflexivity.
Qed.

(** The root of the files.  A run that reaches the reading of the workspace
    reads it exactly once: at [workspacePath] when the [sourcePath] input is
    absent or empty, and otherwise at the path that [resolveSafeChildPath]
    makes of the two.  When [resolveSafeChildPath] refuses the [sourcePath],
    the run ends there with that failure and reads nothing; what the stage
    before did to the source branch stays done. *)
Theorem workspace_read_root (ctx : Context) (w : W) (st1 st2 st3 : State W)
    (url : string) (found : GitRepository) (target : string)
    (flag : option bool) :
  isDryRun ctx = false ->
  resolveClient api ctx (initial w) = (st1, inr url) ->
  resolveRepository api ctx st1 = (st2, inr (found, target)) ->
  ensureSourceBranch rt api ctx found target st2 = (st3, inr flag) ->
  let final := handler rt api ctx (initial w) in
  let reads := callsTo OpSerializeDirectoryContents (calls (fst final)) in
  (Js.truthy_string (sourcePath (input ctx)) = false ->
   reads = [CallSerializeDirectoryContents (workspacePath ctx)])
  /\ (forall s root,
        sourcePath (input ctx) = Some s -> s <> "" ->
        resolveSafeChildPath rt (workspacePath ctx) s = inr root ->
        reads = [CallSerializeDirectoryContents root])
  /\ (forall s reason,
        sourcePath (input ctx) = Some s -> s <> "" ->
        resolveSafeChildPath rt (workspacePath ctx) s = inl reason ->
        final = (st3, inl (Thrown reason)) /\ reads = []).
Proof.
  intros Hdry Hc Hr He. cbv zeta.
  assert (Hbefore : callsTo OpSerializeDirectoryContents (calls st3) = []).
  { rewrite (issues_callsTo_run _ OpSerializeDirectoryContents _ _ _ _
               (ensureSourceBranch_issues rt api ctx found target) He eq_refl).
    rewrite (issues_callsTo_run _ OpSerializeDirectoryContents _ _ _ _
               (resolveRepository_issues api ctx) Hr eq_refl).
    rewrite (issues_callsTo_run _ OpSerializeDirectoryContents _ _ _ _
               (resolveClient_issues api ctx) Hc eq_refl).
    reflexivity. }
  rewrite (handler_publishes rt api ctx _ _ _ Hdry Hc).
  rewrite (publishChanges_from_repository rt api ctx _ _ _ _ _ Hr).
  rewrite (bind_ok _ _ _ _ _ He). cbv beta.
  cbn [repository resolvedTargetBranchName].
  split; [|split].
  - intros Hfalsy. apply reads_root; [rewrite Hfalsy; reflexivity | exact Hbefore].
  - intros s root Hs Hne Hsafe. apply reads_root; [|exact Hbefore].
    rewrite Hs. destruct s; [congruence|]. exact Hsafe.
  - intros s reason Hs Hne Hsafe.
    assert (Hread : readChanges rt api ctx st3 = (st3, inl (Thrown reason))).
    { unfold readChanges, bind, throw. cbv zeta. rewrite Hs.
      destruct s; [congruence|]. simpl. simpl in Hsafe. rewrite Hsafe.
      reflexivity. }
    rewrite (bind_fail _ _ _ _ _ Hread). split; [reflexivity|exact Hbefore].
Qed.


(** A probe that finds nothing creates nothing.  In a run with
    [createSourceBranch] set whose existence probe resolves to no branch
    (instead of rejecting), no ref is created; the only other branch the
    run may look up is the target branch, whose latest commit is the base
    of the push. *)
Theorem unfound_source_branch_not_created (ctx : Context) (w w3 : W)
    (st1 st2 : State W) (url : string) (found : GitRepository)
    (target : string) :
  isDryRun ctx = false ->
  Js.truthy_bool (createSourceBranch (input ctx)) = true ->
  resolveClient api ctx (initial w) = (st1, inr url) ->
  resolveRepository api ctx st1 = (st2, inr (found, target)) ->
  getBranch api (repo (input ctx)) (sourceBranchName (input ctx))
    (project (input ctx)) (world st2) = (w3, inr None) ->
  let i := input ctx in
  let trace := calls (fst (handler rt api ctx (initial w))) in
  callsTo OpUpdateRefs trace = []
  /\ (callsTo OpGetBranch trace
      = [CallGetBranch (repo i) (sourceBranchName i) (project i)]
      \/ callsTo OpGetBranch trace
         = [CallGetBranch (repo i) (sourceBranchName i) (project i);
            CallGetBranch (repo i) target (project i)]).
Proof.
  intros Hdry Hcreate Hc Hr Hprobe. cbv zeta.
  assert (Hcalls : forall op,
            existsb (Operation_eqb op)
              [OpGetCredentials; OpGetGitApi; OpGetRepository] = false ->
            callsTo op (calls st2) = []).
  { intros op Hop.
    rewrite (issues_callsTo_run _ op _ _ _ _
               (resolveRepository_issues api ctx) Hr).
    2: { destruct op; try discriminate Hop; reflexivity. }
    rewrite (issues_callsTo_run _ op _ _ _ _
               (resolveClient_issues api ctx) Hc).
    2: { destruct op; try discriminate Hop; reflexivity. }
    reflexivity. }
  assert (He : exists st3,
            ensureSourceBranch rt api ctx found target st2
            = (st3, inr (createSourceBranch (input ctx)))
            /\ calls st3
               = (calls st2
                  ++ [CallGetBranch (repo (input ctx))
                        (sourceBranchName (input ctx))
                        (project (input ctx))])%list).
  { unfold ensureSourceBranch, try_catch, bind, await, log, ret. cbv zeta.
    rewrite Hcreate. cbn [world]. rewrite Hprobe.
    eexists. split; reflexivity. }
  destruct He as (st3 & He & Hst3).
  rewrite (handler_publishes rt api ctx _ _ _ Hdry Hc).
  rewrite (publishChanges_from_repository rt api ctx _ _ _ _ _ Hr).
  rewrite (bind_ok _ _ _ _ _ He). cbv beta.
  cbn [repository resolvedTargetBranchName].
  split.
  - rewrite (issues_callsTo _ OpUpdateRefs _ st3
               (after_source_branch_issues rt api ctx url found target
                  (createSourceBranch (input ctx))) eq_refl).
    rewrite Hst3, callsTo_app, (Hcalls OpUpdateRefs eq_refl). reflexivity.
  - assert (H3 : callsTo OpGetBranch (calls st3)
                 = [CallGetBranch (repo (input ctx))
                      (sourceBranchName (input ctx)) (project (input ctx))]).
    { rewrite Hst3, callsTo_app, (Hcalls OpGetBranch eq_refl). reflexivity. }
    destruct (readChanges rt api ctx st3) as [st4 [e|dc]] eqn:Hread.
    + left. rewrite (bind_fail _ _ _ _ _ Hread). cbn [fst].
      rewrite (issues_callsTo_run _ OpGetBranch _ _ _ _
                 (readChanges_issues rt api ctx) Hread eq_refl).
      exact H3.
    + right. rewrite (bind_ok _ _ _ _ _ Hread). cbv beta.
      assert (H4 : callsTo OpGetBranch (calls st4)
                   = [CallGetBranch (repo (input ctx))
                        (sourceBranchName (input ctx))
                        (project (input ctx))]).
      { rewrite (issues_callsTo_run _ OpGetBranch _ _ _ _
                   (readChanges_issues rt api ctx) Hread eq_refl).
        exact H3. }
      match goal with
      | |- callsTo _ (calls (fst (bind (pushChanges _ _ _ ?l) ?k st4))) = _ =>
          assert (Hrun : bind (pushChanges rt api ctx l) k st4
                         = bind (getLatestCommit api ctx target)
                             (fun old =>
                                bind
                                  (if Nat.eqb (List.length (changeList l)) 0
                                   then
                                     throw (Error "No changes to push. The changes array is empty.")
                                   else
                                     bind
                                       (log Debug
                                          [stringify_push rt
                                             (buildPush rt ctx l old)])
                                       (fun _ =>
                                          await
                                            (CallCreatePush
                                               (buildPush rt ctx l old)
                                               (repo_id (repository l))
                                               (project (input ctx)))
                                            (createPush api
                                               (buildPush rt ctx l old)
                                               (repo_id (repository l))
                                               (project (input ctx)))))
                                  k) st4)
      end.
      { rewrite <- bind_assoc. unfold bind at 1 3.
        rewrite pushChanges_base. unfold pushBase.
        cbn [sourceBranchDoesNotExist resolvedTargetBranchName].
        rewrite Hcreate. reflexivity. }
      rewrite Hrun.
      rewrite (callsTo_bind [OpCreatePush; OpGetPullRequests;
                             OpCreatePullRequest] OpGetBranch);
        [|intros old; apply after_base_issues|reflexivity].
      unfold getLatestCommit, bind, await, throw, ret. cbv zeta.
      destruct (getBranch api (repo (input ctx)) target (project (input ctx))
                  (world st4)) as [w5 [reason|[[[c|]]|]]];
        cbn [fst calls]; rewrite callsTo_app, H4; reflexivity.
Qed.

Lemma bind_log {B : Type} level args (k : unit -> M W B) st :
  bind (log level args) k st
  = k tt {| world := world st; calls := calls st; outputs := outputs st;
            logs := (logs st ++ [(level, args)])%list |}.
Proof. reflexivity. Qed.

Lemma bind_output {B : Type} name v (k : unit -> M W B) st :
  bind (output name v) k st
  = k tt {| world := world st; calls := calls st;
            outputs := (outputs st ++ [(name, v)])%list; logs := logs st |}.
Proof. reflexivity. Qed.

Lemma performDryRun_logs o p r s t ti d (st : State W) :
  logs (fst (performDryRun o p r s t ti d st))
  = (logs st
     ++ [(Info, ["Performing dry run of creating pull request"]);
         (Info, ["Dry run output:"]);
         (Info, [("Source Branch: " ++ s)%string]);
         (Info, [("Target Branch: "
                    ++ Js.or_string t "mocked-default-branch")%string]);
         (Info, [("Title: " ++ ti)%string]);
         (Info, [("Description: " ++ d)%string])])%list.
Proof.
  unfold performDryRun. cbv zeta.
  repeat (first [rewrite bind_log | rewrite bind_output];
          cbv beta; cbn [world calls outputs logs]).
  unfold log. cbn [fst world calls outputs logs].
  rewrite <- !app_assoc. reflexivity.
Qed.

(** The log of a dry run.  A dry run that throws has logged nothing.  A dry
    run that returns has logged six lines at level [info]: two headings
    and the source branch, the target branch, the title and the
    description; the target branch shown is the [targetBranchName] input,
    or ["mocked-default-branch"] when that is absent or empty.  The lines
    depend on no other input: not on the token, and not on the
    credentials. *)
Theorem dry_run_logs (ctx : Context) (w : W) :
  isDryRun ctx = true ->
  let final := handler rt api ctx (initial w) in
  let i := input ctx in
  match snd final with
  | inl _ => logs (fst final) = []
  | inr _ =>
      logs (fst final)
      = [(Info, ["Performing dry run of creating pull request"]);
         (Info, ["Dry run output:"]);
         (Info, ["Source Branch: " ++ sourceBranchName i]);
         (Info, ["Target Branch: "
                   ++ match targetBranchName i with
                      | Some (String c s) => String c s
                      | _ => "mocked-default-branch"
                      end]);
         (Info, ["Title: " ++ title i]);
         (Info, ["Description: " ++ description i])]
  end.
Proof.
  intros Hdry. cbv zeta.
  assert (Hrun : handler rt api ctx (initial w)
                 = bind (resolveClient api ctx)
                     (fun _ =>
                        performDryRun (organization (input ctx))
                          (project (input ctx)) (repo (input ctx))
                          (sourceBranchName (input ctx))
                          (targetBranchName (input ctx)) (title (input ctx))
                          (description (input ctx))) (initial w)).
  { unfold handler. cbv zeta. rewrite Hdry. reflexivity. }
  rewrite Hrun. clear Hrun.
  destruct (resolveClient api ctx (initial w)) as [st1 [e|url]] eqn:Hc.
  - rewrite (bind_fail _ _ _ _ _ Hc). cbn [fst snd]. revert Hc.
    unfold resolveClient, bind, await, lift, throw, ret. cbv zeta.
    cbn [world initial].
    destruct (getCredentials api _ w) as [w1 [reason|credentials]];
      [intros [= <- _]; reflexivity|].
    destruct (negb (isSome credentials) && _); [intros [= <- _]; reflexivity|].
    destruct (authHandler _ credentials) as [e'|h];
      [intros [= <- _]; reflexivity|].
    cbn [world].
    destruct (getGitApi api _ h w1) as [w2 [reason|[]]];
      [intros [= <- _]; reflexivity | discriminate].
  - assert (Hlogs : logs st1 = []).
    { revert Hc.
      unfold resolveClient, bind, await, lift, throw, ret. cbv zeta.
      cbn [world initial].
      destruct (getCredentials api _ w) as [w1 [reason|credentials]];
        [discriminate|].
      destruct (negb (isSome credentials) && _); [discriminate|].
      destruct (authHandler _ credentials) as [e'|h]; [discriminate|].
      cbn [world].
      destruct (getGitApi api _ h w1) as [w2 [reason|[]]];
        [discriminate | intros [= <- _]; reflexivity]. }
    rewrite (bind_ok _ _ _ _ _ Hc).
    destruct (performDryRun_reports (organization (input ctx))
                (project (input ctx)) (repo (input ctx))
                (sourceBranchName (input ctx)) (targetBranchName (input ctx))
                (title (input ctx)) (description (input ctx)) st1)
      as [-> _].
    rewrite performDryRun_logs, Hlogs. unfold Js.or_string.
    destruct (targetBranchName (input ctx)) as [[|c s]|]; reflexivity.
Qed.

End Workspace.

(** The [sourcePath] of [Mock.escapingContext] leaves the workspace: the run
    ends with the refusal and reads nothing, after the source branch was
    created. *)
Lemma workspace_read_root_witness :
  let final :=
    handler Mock.runtime Mock.service Mock.escapingContext
      (initial Mock.someWorld) in
  snd final
  = inl (Thrown "NotAllowedError: relative path is not allowed to refer to a directory outside its parent")
  /\ callsTo OpSerializeDirectoryContents (calls (fst final)) = []
  /\ List.length (callsTo OpUpdateRefs (calls (fst final))) = 1.
Proof.
  pose (found := {| repo_id := Some "repo-1";
                    defaultBranch := Some "refs/heads/main" |}).
  pose (st1 := fst (resolveClient Mock.service Mock.escapingContext
                      (initial Mock.someWorld))).
  pose (st2 := fst (resolveRepository Mock.service Mock.escapingContext st1)).
  pose (st3 := fst (ensureSourceBranch Mock.runtime Mock.service
                      Mock.escapingContext found "main" st2)).
  assert (H := workspace_read_root Mock.runtime Mock.service
                 Mock.escapingContext Mock.someWorld st1 st2 st3
                 "https://dev.azure.com/my-org" found "main" (Some true)).
  cbv zeta in H.
  destruct H as (_ & _ & H);
    [ reflexivity | vm_compute; reflexivity | vm_compute; reflexivity
    | vm_compute; reflexivity | ].
  destruct (H "../outside"
              "NotAllowedError: relative path is not allowed to refer to a directory outside its parent")
    as [Hfinal Hreads];
    [ reflexivity | discriminate | vm_compute; reflexivity | ].
  cbv zeta. rewrite Hfinal. split; [reflexivity|].
  split; [rewrite <- Hfinal; exact Hreads | vm_compute; reflexivity].
Defined.


(** In [Mock.quietWorld] the probe of [Mock.someContext] finds nothing: no
    ref is created, and the push is based on the target branch [main]. *)
Lemma unfound_source_branch_not_created_witness :
  let trace :=
    calls (fst (handler Mock.runtime Mock.service Mock.someContext
                  (initial Mock.quietWorld))) in
  callsTo OpUpdateRefs trace = []
  /\ callsTo OpGetBranch trace
     = [CallGetBranch "my-repo" "feature" "my project";
        CallGetBranch "my-repo" "main" "my project"].
Proof.
  pose (found := {| repo_id := Some "repo-1";
                    defaultBranch := Some "refs/heads/main" |}).
  pose (st1 := fst (resolveClient Mock.service Mock.someContext
                      (initial Mock.quietWorld))).
  pose (st2 := fst (resolveRepository Mock.service Mock.someContext st1)).
  assert (H := unfound_source_branch_not_created Mock.runtime Mock.service
                 Mock.someContext Mock.quietWorld Mock.quietWorld st1 st2
                 "https://dev.azure.com/my-org" found "main").
  cbv zeta in H.
  destruct H as [Hrefs [Hone|Htwo]];
    [ reflexivity | reflexivity | vm_compute; reflexivity
    | vm_compute; reflexivity | vm_compute; reflexivity | | ].
  - vm_compute in Hone. discriminate Hone.
  - cbv zeta. split; [exact Hrefs | exact Htwo].
Defined.

(** The log of the dry run of [Mock.dryRunContext], which names no target
    branch. *)
Lemma dry_run_logs_witness :
  logs (fst (handler Mock.runtime Mock.service Mock.dryRunContext
               (initial Mock.someWorld)))
  = [(Info, ["Performing dry run of creating pull request"]);
     (Info, ["Dry run output:"]);
     (Info, ["Source Branch: feature"]);
     (Info, ["Target Branch: mocked-default-branch"]);
     (Info, ["Title: Add files"]);
     (Info, ["Description: Generated"])].
Proof.
  assert (H := dry_run_logs Mock.runtime Mock.service Mock.dryRunContext
                 Mock.someWorld eq_refl).
  cbv zeta in H.
  assert (Hs : snd (handler Mock.runtime Mock.service Mock.dryRunContext
                      (initial Mock.someWorld)) = inr tt)
    by (vm_compute; reflexivity).
  rewrite Hs in H. exact H.
Defined.
